(** * WEBXR_To_OSC: the telemetry relay, embedded and verified

    The development follows the two programs of the repository:

    - [app.js], the capture client: angle normalisation, the wire message
      built by [sendOSCData], the frame-driven sampler [renderXRFrame] with
      its throttle gate, the clock-driven sampler of [startDataSampling],
      and the reconnecting WebSocket of [initWebSocket];
    - [webxr_osc_server.js], the relay: [getDeviceTypeFromAddress],
      [handleOSCMessage], [sendOSC], and the per-device UDP ports managed by
      [initOSCConnection] and [reconnectOSC].

    JavaScript values are embedded as an inductive type.  A JavaScript number
    is a rational (the real it holds), an infinity or NaN: rounding to
    binary64 is not modelled, overflow to an infinity is.  Callbacks and
    timers become explicit state: a handler is a function from the program
    state to the program state, and [setTimeout] appends to a list of
    pending timers. *)

From Stdlib Require Import ZArith QArith Qround Qabs Lqa Lia Bool List.
From Stdlib Require Import String Ascii DecimalString.
From stdpp Require Import base option list functions sorting.
Import ListNotations.

#[local] Set Warnings "-register-all".
Local Open Scope string_scope.
Local Open Scope list_scope.
Local Open Scope Z_scope.

(** ** JavaScript values *)

Module JS.

(** A JavaScript number. *)
Inductive JSNumber : Type :=
| NaN : JSNumber
| PInf : JSNumber
| NInf : JSNumber
| Fin : Q -> JSNumber.

Definition zero : JSNumber := Fin 0.
Definition ofZ (z : Z) : JSNumber := Fin (inject_Z z).

(** [isNaN(n)] and [isFinite(n)] on a number. *)
Definition isNaN (n : JSNumber) : bool :=
  match n with NaN => true | _ => false end.

Definition isFinite (n : JSNumber) : bool :=
  match n with Fin _ => true | _ => false end.

Definition Qltb (a b : Q) : bool := negb (Qle_bool b a).

(** [a > b] and [a < b]: every comparison with NaN is false. *)
Definition gt (a b : JSNumber) : bool :=
  match a, b with
  | NaN, _ | _, NaN => false
  | PInf, PInf => false
  | PInf, _ => true
  | _, PInf => false
  | NInf, _ => false
  | Fin _, NInf => true
  | Fin x, Fin y => Qltb y x
  end.

Definition lt (a b : JSNumber) : bool := gt b a.

(** [a + b] and [a - b] with the IEEE rules for infinities and NaN. *)
Definition add (a b : JSNumber) : JSNumber :=
  match a, b with
  | NaN, _ | _, NaN => NaN
  | PInf, NInf | NInf, PInf => NaN
  | PInf, _ | _, PInf => PInf
  | NInf, _ | _, NInf => NInf
  | Fin x, Fin y => Fin (x + y)
  end.

Definition neg (a : JSNumber) : JSNumber :=
  match a with
  | NaN => NaN
  | PInf => NInf
  | NInf => PInf
  | Fin x => Fin (- x)
  end.

Definition sub (a b : JSNumber) : JSNumber := add a (neg b).

(** [n || 0]: NaN and zero are falsy. *)
Definition orZero (n : JSNumber) : JSNumber :=
  match n with
  | NaN => zero
  | Fin q => if Qeq_bool q 0 then zero else Fin q
  | inf => inf
  end.

(** The values a parsed JSON text or a missing property can hold. *)
Inductive JSValue : Type :=
| JUndefined : JSValue
| JNull : JSValue
| JBool : bool -> JSValue
| JNum : JSNumber -> JSValue
| JStr : string -> JSValue
| JArr : list JSValue -> JSValue
| JObj : list (string * JSValue) -> JSValue.

(** [!v] is [negb (truthy v)]. *)
Definition truthy (v : JSValue) : bool :=
  match v with
  | JUndefined | JNull => false
  | JBool b => b
  | JNum NaN => false
  | JNum (Fin q) => negb (Qeq_bool q 0)
  | JNum _ => true
  | JStr s => negb (String.eqb s "")
  | JArr _ | JObj _ => true
  end.

(** *** [parseFloat] on strings

    A [string] holds the bytes of the UTF-8 encoding of the JavaScript
    string: the tests the two programs make (equality, an ASCII prefix, an
    ASCII substring) give the same on these bytes as on the code units.

    The string is trimmed of leading white space and its longest prefix
    that is a [StrDecimalLiteral] is read: an optional sign, then
    [Infinity] or decimal digits with an optional fraction and an optional
    exponent.  No such prefix gives NaN.

    The white space [parseFloat] and [String.prototype.trim] skip is
    [WhiteSpace] and [LineTerminator].  Its ASCII characters are TAB, LF,
    VT, FF, CR and SP. *)

Definition isWhiteSpace (c : ascii) : bool :=
  let n := N_of_ascii c in
  (N.eqb n 32 || N.leb 9 n && N.leb n 13)%bool%N.

(** U+00A0, in two bytes. *)
Definition isWhiteSpace2 (b1 b2 : N) : bool :=
  (N.eqb b1 194 && N.eqb b2 160)%bool%N.

(** The others take three bytes: U+1680; U+2000 to U+200A, U+2028,
    U+2029 and U+202F; U+205F; U+3000; U+FEFF. *)
Definition isWhiteSpace3 (b1 b2 b3 : N) : bool :=
  (N.eqb b1 225 && N.eqb b2 154 && N.eqb b3 128
   || N.eqb b1 226 && N.eqb b2 128
      && (N.leb 128 b3 && N.leb b3 138
          || N.eqb b3 168 || N.eqb b3 169 || N.eqb b3 175)
   || N.eqb b1 226 && N.eqb b2 129 && N.eqb b3 159
   || N.eqb b1 227 && N.eqb b2 128 && N.eqb b3 128
   || N.eqb b1 239 && N.eqb b2 187 && N.eqb b3 191)%bool%N.

Fixpoint trimStart (s : string) : string :=
  match s with
  | String c r =>
      if isWhiteSpace c then trimStart r
      else
        match r with
        | String c2 r2 =>
            if isWhiteSpace2 (N_of_ascii c) (N_of_ascii c2) then trimStart r2
            else
              match r2 with
              | String c3 r3 =>
                  if isWhiteSpace3 (N_of_ascii c) (N_of_ascii c2)
                       (N_of_ascii c3)
                  then trimStart r3
                  else s
              | EmptyString => s
              end
        | EmptyString => s
        end
  | EmptyString => s
  end.

(** [String.prototype.trimEnd]: a tail that is white space throughout is
    cut. *)
Fixpoint trimEnd (s : string) : string :=
  match s with
  | String c r =>
      if String.eqb (trimStart s) "" then "" else String c (trimEnd r)
  | EmptyString => s
  end.

Definition digitOf (c : ascii) : option Z :=
  let n := N_of_ascii c in
  if (N.leb 48 n && N.leb n 57)%bool%N then Some (Z.of_N n - 48) else None.

(** The leading decimal digits of [s], most significant first, and the
    rest of [s]. *)
Fixpoint takeDigits (s : string) : list Z * string :=
  match s with
  | String c r =>
      match digitOf c with
      | Some d => let '(ds, rest) := takeDigits r in (d :: ds, rest)
      | None => ([], s)
      end
  | EmptyString => ([], s)
  end.

Definition digitsValue (ds : list Z) : Z :=
  fold_left (fun acc d => 10 * acc + d) ds 0.

(** An [ExponentPart] at the head of [s]: its value, or 0 when [s] does
    not start with a complete one (it is then not part of the prefix). *)
Definition exponentOf (s : string) : Z :=
  match s with
  | String c r =>
      if (Ascii.eqb c "e" || Ascii.eqb c "E")%bool then
        match r with
        | String "-" r' =>
            let '(ds, _) := takeDigits r' in
            match ds with [] => 0 | _ => - digitsValue ds end
        | String "+" r' =>
            let '(ds, _) := takeDigits r' in digitsValue ds
        | _ => let '(ds, _) := takeDigits r in digitsValue ds
        end
      else 0
  | EmptyString => 0
  end.

(** A decimal literal that reaches 2^1024 - 2^970 rounds to an infinity. *)
Definition overflowBound : Q := inject_Z (2 ^ 1024 - 2 ^ 970).

Definition roundToNumber (q : Q) : JSNumber :=
  if Qle_bool overflowBound q then PInf
  else if Qle_bool q (- overflowBound) then NInf
  else Fin q.

Definition parseUnsigned (s : string) : JSNumber :=
  if String.prefix "Infinity" s then PInf
  else
    let '(ip, r1) := takeDigits s in
    let '(fp, r2) :=
      match r1 with
      | String "." r => takeDigits r
      | _ => ([], r1)
      end in
    match ip, fp with
    | [], [] => NaN
    | _, _ =>
        let mant := digitsValue (ip ++ fp) in
        let e := exponentOf r2 - Z.of_nat (List.length fp) in
        roundToNumber (inject_Z mant * Qpower 10 e)
    end.

Definition parseFloatString (s : string) : JSNumber :=
  match trimStart s with
  | String "-" r => neg (parseUnsigned r)
  | String "+" r => parseUnsigned r
  | t => parseUnsigned t
  end.

(** [parseFloat(v)] reads [String(v)], and throws a TypeError when
    [String(v)] does.  That is the case for an object with an own member
    named [toString]: no value of a parsed JSON text can be called, so the
    member is passed over, and [valueOf] gives the object back, which is no
    primitive.  It is the case too for an array that holds such an object
    at any depth, since an array prints every one of its elements. *)
Fixpoint parseFloatThrows (v : JSValue) : bool :=
  match v with
  | JObj members => existsb (fun m => String.eqb (fst m) "toString") members
  | JArr l => existsb parseFloatThrows l
  | _ => false
  end.

(** The values that are neither arrays nor objects. *)
Definition isScalar (v : JSValue) : bool :=
  match v with
  | JArr _ | JObj _ => false
  | _ => true
  end.

(** What [parseFloat(v)] returns when it does not throw.  A number prints
    to a text that reads back as itself; [null], [undefined], booleans and
    the other objects print to texts without a numeric prefix; an array
    prints its elements separated by commas, so only its first element can
    be read. *)
Fixpoint parseFloat (v : JSValue) : JSNumber :=
  match v with
  | JNum n => n
  | JStr s => parseFloatString s
  | JArr (x :: _) => parseFloat x
  | _ => NaN
  end.

End JS.

Import JS.

(** ** The capture client ([app.js]) *)

Module Client.

Definition OSC_SEND_INTERVAL : Z := 32.

(** [WebSocket.readyState]. *)
Inductive ReadyState : Type := CONNECTING | OPEN | CLOSING | CLOSED.

Record Vec3 : Type := mkVec3 { vx : JSNumber; vy : JSNumber; vz : JSNumber }.
Record Quat : Type :=
  mkQuat { qx : JSNumber; qy : JSNumber; qz : JSNumber; qw : JSNumber }.
(** A [THREE.Euler], in radians. *)
Record Euler : Type := mkEuler { ex : JSNumber; ey : JSNumber; ez : JSNumber }.
Record EulerDegrees : Type :=
  mkEulerDegrees { yaw : JSNumber; pitch : JSNumber; roll : JSNumber }.
(** The [{pos, quat}] objects of the samplers and the [transform] of an
    [XRPose]. *)
Record Pose : Type := mkPose { pos : Vec3; quat : Quat }.

Definition zeroVec : Vec3 := mkVec3 zero zero zero.
(** [new THREE.Euler()]. *)
Definition newEuler : Euler := mkEuler zero zero zero.

(** A preview mesh: [hmdMarker] and the two [controllerMarkers]. *)
Record Marker : Type :=
  mkMarker { mPosition : Vec3; mQuaternion : Quat; mVisible : bool }.

(** The payload handed to [socket.send], before [JSON.stringify]. *)
Record WireMessage : Type :=
  mkWire { address : string; args : list JSNumber }.

(** One line of the status panel: the position and rotation triples before
    [toFixed], [None] while the span still reads N/A, and the button text
    (absent for the HMD line). *)
Record DisplayRow : Type :=
  mkRow { posText : option (JSNumber * JSNumber * JSNumber);
          rotText : option (JSNumber * JSNumber * JSNumber);
          btnText : string }.

Inductive DisplayId : Type := IdHmd | IdCtrl (i : nat).

Inductive Callback : Type := CbInitWebSocket.
(** A pending [setTimeout(callback, delay)]. *)
Record Timer : Type := mkTimer { delay : Z; callback : Callback }.

(** The globals of [app.js] together with what the page has emitted. *)
Record State : Type :=
  mkState {
    oscEnabled : bool;
    lastOSCSendTime : Z;
    SERVER_URL : option string;
    socket : option ReadyState;
    xrSession : bool;
    hmdMarker : option Marker;
    controllerMarkers : list Marker;
    hmdRow : DisplayRow;
    ctrl0Row : DisplayRow;
    ctrl1Row : DisplayRow;
    wsStatus : string;
    timers : list Timer;
    connections : nat;          (* [new WebSocket] calls so far *)
    wire : list WireMessage     (* messages sent, oldest first *)
  }.

Definition set_oscEnabled (b : bool) (s : State) : State :=
  mkState b (lastOSCSendTime s) (SERVER_URL s) (socket s) (xrSession s)
    (hmdMarker s) (controllerMarkers s) (hmdRow s) (ctrl0Row s) (ctrl1Row s)
    (wsStatus s) (timers s) (connections s) (wire s).
Definition set_lastOSCSendTime (t : Z) (s : State) : State :=
  mkState (oscEnabled s) t (SERVER_URL s) (socket s) (xrSession s)
    (hmdMarker s) (controllerMarkers s) (hmdRow s) (ctrl0Row s) (ctrl1Row s)
    (wsStatus s) (timers s) (connections s) (wire s).
Definition set_socket (r : option ReadyState) (s : State) : State :=
  mkState (oscEnabled s) (lastOSCSendTime s) (SERVER_URL s) r (xrSession s)
    (hmdMarker s) (controllerMarkers s) (hmdRow s) (ctrl0Row s) (ctrl1Row s)
    (wsStatus s) (timers s) (connections s) (wire s).
Definition set_hmdMarker (m : option Marker) (s : State) : State :=
  mkState (oscEnabled s) (lastOSCSendTime s) (SERVER_URL s) (socket s)
    (xrSession s) m (controllerMarkers s) (hmdRow s) (ctrl0Row s)
    (ctrl1Row s) (wsStatus s) (timers s) (connections s) (wire s).
Definition set_controllerMarkers (l : list Marker) (s : State) : State :=
  mkState (oscEnabled s) (lastOSCSendTime s) (SERVER_URL s) (socket s)
    (xrSession s) (hmdMarker s) l (hmdRow s) (ctrl0Row s) (ctrl1Row s)
    (wsStatus s) (timers s) (connections s) (wire s).
Definition set_hmdRow (r : DisplayRow) (s : State) : State :=
  mkState (oscEnabled s) (lastOSCSendTime s) (SERVER_URL s) (socket s)
    (xrSession s) (hmdMarker s) (controllerMarkers s) r (ctrl0Row s)
    (ctrl1Row s) (wsStatus s) (timers s) (connections s) (wire s).
Definition set_ctrl0Row (r : DisplayRow) (s : State) : State :=
  mkState (oscEnabled s) (lastOSCSendTime s) (SERVER_URL s) (socket s)
    (xrSession s) (hmdMarker s) (controllerMarkers s) (hmdRow s) r
    (ctrl1Row s) (wsStatus s) (timers s) (connections s) (wire s).
Definition set_ctrl1Row (r : DisplayRow) (s : State) : State :=
  mkState (oscEnabled s) (lastOSCSendTime s) (SERVER_URL s) (socket s)
    (xrSession s) (hmdMarker s) (controllerMarkers s) (hmdRow s)
    (ctrl0Row s) r (wsStatus s) (timers s) (connections s) (wire s).
Definition set_wsStatus (t : string) (s : State) : State :=
  mkState (oscEnabled s) (lastOSCSendTime s) (SERVER_URL s) (socket s)
    (xrSession s) (hmdMarker s) (controllerMarkers s) (hmdRow s)
    (ctrl0Row s) (ctrl1Row s) t (timers s) (connections s) (wire s).
Definition set_timers (l : list Timer) (s : State) : State :=
  mkState (oscEnabled s) (lastOSCSendTime s) (SERVER_URL s) (socket s)
    (xrSession s) (hmdMarker s) (controllerMarkers s) (hmdRow s)
    (ctrl0Row s) (ctrl1Row s) (wsStatus s) l (connections s) (wire s).
Definition set_connections (n : nat) (s : State) : State :=
  mkState (oscEnabled s) (lastOSCSendTime s) (SERVER_URL s) (socket s)
    (xrSession s) (hmdMarker s) (controllerMarkers s) (hmdRow s)
    (ctrl0Row s) (ctrl1Row s) (wsStatus s) (timers s) n (wire s).
Definition set_wire (w : list WireMessage) (s : State) : State :=
  mkState (oscEnabled s) (lastOSCSendTime s) (SERVER_URL s) (socket s)
    (xrSession s) (hmdMarker s) (controllerMarkers s) (hmdRow s)
    (ctrl0Row s) (ctrl1Row s) (wsStatus s) (timers s) (connections s) w.

(** What the throttle gate reads, and the number of markers. *)
Definition gateOf (s : State) : bool * option ReadyState * bool * Z * nat :=
  (oscEnabled s, socket s, xrSession s, lastOSCSendTime s,
   List.length (controllerMarkers s)).

(** [socket && socket.readyState === WebSocket.OPEN]. *)
Definition socketOpen (s : State) : bool :=
  match socket s with Some OPEN => true | _ => false end.

(** *** [normalizeAngle]

    Each [while] loop takes fuel: [None] is a loop that has not left after
    [fuel] rounds.  On a rational the loops subtract and add 360 exactly.
    Binary64 rounds each step, and beyond a magnitude of about 2^62 the
    rounded step leaves the angle where it was, so that the loop of the
    program does not end there; the angles the page normalises come from
    the host's conversion of a quaternion (an [asin] and two [atan2],
    times 180/pi) and stay far below. *)
Fixpoint whileAbove (fuel : nat) (angle : JSNumber) : option JSNumber :=
  if gt angle (ofZ 180) then
    match fuel with
    | O => None
    | S f => whileAbove f (sub angle (ofZ 360))
    end
  else Some angle.

Fixpoint whileBelow (fuel : nat) (angle : JSNumber) : option JSNumber :=
  if lt angle (ofZ (-180)) then
    match fuel with
    | O => None
    | S f => whileBelow f (add angle (ofZ 360))
    end
  else Some angle.

Definition normalizeAngleFuel (fuel : nat) (angle : JSNumber)
  : option JSNumber :=
  a ← whileAbove fuel angle; whileBelow fuel a.

(** Rounds that are enough for a finite angle (each round moves it by 360
    towards the range).  [normalizeAngle_adequate] below shows that the
    result is the one of every run that leaves both loops, so that [None]
    is a call that never returns. *)
Definition roundsFor (angle : JSNumber) : nat :=
  match angle with
  | Fin q => Z.to_nat (Qceiling (Qabs q))
  | _ => O
  end.

Definition normalizeAngle (angle : JSNumber) : option JSNumber :=
  normalizeAngleFuel (roundsFor angle) angle.

(** *** WebSocket setup

    [initWebSocket] for a URL that [new WebSocket] accepts; what becomes
    of the constructor's SyntaxError is part of [domContentLoaded], the
    one caller that can meet it. *)

Definition initWebSocket (s : State) : State :=
  match SERVER_URL s with
  | None | Some "" => set_wsStatus "Error: Server URL not set" s
  | Some _ =>
      match socket s with
      | Some OPEN | Some CONNECTING => s
      | _ =>
          set_connections (S (connections s)) (set_socket (Some CONNECTING) s)
      end
  end.

Definition onopen (s : State) : State := set_wsStatus "Connected" s.

Definition onclose (s : State) : State :=
  set_timers (timers s ++ [mkTimer 3000 CbInitWebSocket])%list
    (set_wsStatus "Disconnected. Retrying..." s).

Definition onerror (s : State) : State := set_wsStatus "Error" s.

(** The browser moves [readyState] and then runs the handler. *)
Definition wsOpened (s : State) : State := onopen (set_socket (Some OPEN) s).
Definition wsClosed (s : State) : State := onclose (set_socket (Some CLOSED) s).
Definition wsFailed (s : State) : State := onerror s.

Definition runCallback (c : Callback) (s : State) : State :=
  match c with CbInitWebSocket => initWebSocket s end.

(** The [i]-th pending timer expires. *)
Definition fireTimer (i : nat) (s : State) : State :=
  match timers s !! i with
  | Some t => runCallback (callback t) (set_timers (delete i (timers s)) s)
  | None => s
  end.

(** One failed retry: the pending timer expires, [initWebSocket] runs,
    and the connection it opened closes. *)
Definition failedRetry (s : State) : State := wsClosed (fireTimer 0 s).

Definition toggleOSC (s : State) : State :=
  set_oscEnabled (negb (oscEnabled s)) s.

(** *** Sampling and publishing

    [THREE.Euler.setFromQuaternion(q, 'YXZ')] and the conversion
    [r * 180 / Math.PI] belong to the host: they are parameters. *)
Section Sampler.

Variable setFromQuaternion : Quat -> Euler.
Variable radToDeg : JSNumber -> JSNumber.

Definition quaternionToEulerDegrees (q : Quat) : EulerDegrees :=
  let euler := setFromQuaternion q in
  mkEulerDegrees (radToDeg (ey euler)) (radToDeg (ex euler))
    (radToDeg (ez euler)).

(** The host's conversion yields no infinite angle (its angles come from
    [asin] and [atan2]). *)
Definition noInfiniteAngle : Prop :=
  forall q angle,
    In angle [yaw (quaternionToEulerDegrees q);
              pitch (quaternionToEulerDegrees q);
              roll (quaternionToEulerDegrees q)] ->
    isNaN angle = true \/ isFinite angle = true.

Definition btnLabel (btnPressed : bool) : string :=
  if btnPressed then "Pressed" else "Released".

Definition updateDisplay (id : DisplayId) (p : Vec3) (euler : Euler)
    (btnPressed : bool) (s : State) : State :=
  let shownPos := Some (vx p, vy p, vz p) in
  let shownRot :=
    Some (radToDeg (ey euler), radToDeg (ex euler), radToDeg (ez euler)) in
  match id with
  | IdHmd => set_hmdRow (mkRow shownPos shownRot (btnText (hmdRow s))) s
  | IdCtrl 0 => set_ctrl0Row (mkRow shownPos shownRot (btnLabel btnPressed)) s
  | IdCtrl 1 => set_ctrl1Row (mkRow shownPos shownRot (btnLabel btnPressed)) s
  | IdCtrl _ => s
  end.

(** [sendOSCData]: [None] when [normalizeAngle] does not return.  A
    missing [btnPressed] (the HMD calls) is passed as [false].  On an open
    socket [socket.send] does not throw, so the [catch] is never entered. *)
Definition sendOSCData (address : string) (position : Vec3)
    (orientation : Quat) (btnPressed : bool) (s : State) : option State :=
  if negb (socketOpen s) then Some s
  else
    let eulerDegrees := quaternionToEulerDegrees orientation in
    yaw ← normalizeAngle (yaw eulerDegrees);
    pitch ← normalizeAngle (pitch eulerDegrees);
    roll ← normalizeAngle (roll eulerDegrees);
    let args :=
      [orZero (vx position); orZero (vy position); orZero (vz position);
       orZero yaw; orZero pitch; orZero roll] in
    let args :=
      if String.prefix "/controller" address
      then (args ++ [if btnPressed then ofZ 1 else ofZ 0])%list
      else args in
    Some (set_wire (wire s ++ [mkWire address args])%list s).

(** An [XRInputSource] as one frame sees it: the pressed flags of its
    gamepad buttons, and its grip pose ([None]: no [gripSpace];
    [Some None]: [frame.getPose] gave [null]). *)
Record InputSource : Type :=
  mkSource { gamepad : option (list bool);
             grip : option (option Pose) }.

Record XRFrame : Type :=
  mkFrame { currentTime : Z;             (* [Date.now()] *)
            referenceSpace : bool;
            viewerPose : option Pose;
            inputSources : list InputSource }.

Definition shouldSendOSC (currentTime : Z) (s : State) : bool :=
  oscEnabled s && socketOpen s
  && (OSC_SEND_INTERVAL <=? currentTime - lastOSCSendTime s).

Definition controllerAddress (i : nat) : string :=
  ("/controller" ++ NilEmpty.string_of_uint (Nat.to_uint i) ++ "/pose")%string.

Definition anyPressed (source : InputSource) : bool :=
  match gamepad source with
  | Some buttons => existsb (fun b => b) (firstn 6 buttons)
  | None => false
  end.

Definition setMarker (i : nat) (f : Marker -> Marker) (s : State) : State :=
  set_controllerMarkers (alter f i (controllerMarkers s)) s.

Definition hideMarker (m : Marker) : Marker :=
  mkMarker (mPosition m) (mQuaternion m) false.

(** The display of a controller without a pose in this frame. *)
Definition showAbsent (i : nat) (s : State) : State :=
  updateDisplay (IdCtrl i) zeroVec newEuler false (setMarker i hideMarker s).

(** The body of the controller loop for index [i]. *)
Definition renderController (send : bool) (i : nat) (source : InputSource)
    (s : State) : option State :=
  if (List.length (controllerMarkers s) <=? i)%nat then Some s
  else
    let btnPressed := anyPressed source in
    match grip source with
    | Some (Some gripPose) =>
        let p := pos gripPose in
        let q := quat gripPose in
        let s1 := setMarker i (fun _ => mkMarker p q true) s in
        let s2 :=
          updateDisplay (IdCtrl i) p (setFromQuaternion q) btnPressed s1 in
        if send then sendOSCData (controllerAddress i) p q btnPressed s2
        else Some s2
    | _ => Some (showAbsent i s)
    end.

(** [for (i = 0; i < inputSources.length && i < 2; i++)], from [i] on. *)
Fixpoint controllersLoop (send : bool) (i : nat)
    (sources : list InputSource) (s : State) : option State :=
  match sources with
  | [] => Some s
  | source :: rest =>
      if (i <? 2)%nat then
        s' ← renderController send i source s;
        controllersLoop send (S i) rest s'
      else Some s
  end.

(** [for (i = inputSources.length; i < controllerMarkers.length; i++)]:
    [n] rounds from [i]. *)
Fixpoint hideLoop (n i : nat) (s : State) : State :=
  match n with
  | O => s
  | S n' => hideLoop n' (S i) (showAbsent i s)
  end.

Definition renderHMD (send : bool) (frame : XRFrame) (s : State)
  : option State :=
  match viewerPose frame with
  | Some pose =>
      let p := pos pose in
      let q := quat pose in
      let s1 :=
        set_hmdMarker
          (fmap (fun m => mkMarker p q (mVisible m)) (hmdMarker s)) s in
      let s2 := updateDisplay IdHmd p (setFromQuaternion q) false s1 in
      if send then sendOSCData "/hmd/pose" p q false s2 else Some s2
  | None => Some s
  end.

(** The frame-driven sampler.  The renderer is taken as initialised (a
    session cannot start without it); logging and the final
    [renderer.render] leave no trace in the state. *)
Definition renderXRFrame (frame : XRFrame) (s : State) : option State :=
  if negb (xrSession s) then Some s
  else if negb (referenceSpace frame) then Some s
  else
    let send := shouldSendOSC (currentTime frame) s in
    s1 ← renderHMD send frame s;
    s2 ← controllersLoop send 0 (inputSources frame) s1;
    let nSources := List.length (inputSources frame) in
    let s3 :=
      hideLoop (List.length (controllerMarkers s2) - nSources) nSources s2 in
    Some (if send then set_lastOSCSendTime (currentTime frame) s3 else s3).

Definition getCurrentHMDPose (s : State) : option Pose :=
  fmap (fun m => mkPose (mPosition m) (mQuaternion m)) (hmdMarker s).

Definition getCurrentControllerPose (idx : nat) (s : State)
  : option (Pose * bool) :=
  fmap (fun m => (mkPose (mPosition m) (mQuaternion m), false))
    (controllerMarkers s !! idx).

Definition sampleHMD (s : State) : option State :=
  match getCurrentHMDPose s with
  | Some hmdPose =>
      let s1 :=
        updateDisplay IdHmd (pos hmdPose)
          (setFromQuaternion (quat hmdPose)) false s in
      if oscEnabled s1 && socketOpen s1
      then sendOSCData "/hmd/pose" (pos hmdPose) (quat hmdPose) false s1
      else Some s1
  | None => Some s
  end.

Definition sampleController (i : nat) (s : State) : option State :=
  match getCurrentControllerPose i s with
  | Some (ctrlPose, btn) =>
      let s1 :=
        updateDisplay (IdCtrl i) (pos ctrlPose)
          (setFromQuaternion (quat ctrlPose)) btn s in
      if oscEnabled s1 && socketOpen s1
      then sendOSCData (controllerAddress i) (pos ctrlPose)
             (quat ctrlPose) btn s1
      else Some s1
  | None => Some s
  end.

(** The clock-driven sampler: the callback of [setInterval(_, 1000/60)]
    in [startDataSampling]. *)
Definition dataSampleTick (isPresenting : bool) (s : State) : option State :=
  if xrSession s && isPresenting then Some s
  else
    s1 ← sampleHMD s;
    s2 ← sampleController 0 s1;
    sampleController 1 s2.

(** What one callback handed to the socket. *)
Definition sentBy (s s' : State) : list WireMessage :=
  drop (List.length (wire s)) (wire s').

(** *** What a frame is expected to send and to show

    The addresses a frame sends to, in order: nothing when the gate is
    shut; otherwise the HMD when the viewer has a pose, then each of the
    first two controllers that has a marker and a grip pose. *)
Definition hasGrip (source : InputSource) : bool :=
  match grip source with
  | Some (Some _) => true
  | _ => false
  end.

Fixpoint controllerAddresses (i nMarkers : nat)
    (sources : list InputSource) : list string :=
  match sources with
  | [] => []
  | source :: rest =>
      if (i <? 2)%nat then
        (if (i <? nMarkers)%nat && hasGrip source
         then [controllerAddress i] else [])
        ++ controllerAddresses (S i) nMarkers rest
      else []
  end.

(** The gate of a frame: the session is live, the frame has a
    reference space, and [shouldSendOSC] holds. *)
Definition gateOpen (frame : XRFrame) (s : State) : bool :=
  xrSession s && referenceSpace frame
  && shouldSendOSC (currentTime frame) s.

Definition frameAddresses (frame : XRFrame) (s : State) : list string :=
  if gateOpen frame s
  then
    match viewerPose frame with
    | Some _ => ["/hmd/pose"]
    | None => []
    end
    ++ controllerAddresses 0 (List.length (controllerMarkers s))
         (inputSources frame)
  else [].

(** The addresses a timer tick sends to: the HMD marker and the first
    two controller markers, whenever streaming is enabled and the socket
    is open.  No time is read. *)
Definition tickAddresses (s : State) : list string :=
  if oscEnabled s && socketOpen s
  then
    match hmdMarker s with
    | Some _ => ["/hmd/pose"]
    | None => []
    end
    ++ (if (0 <? List.length (controllerMarkers s))%nat
        then [controllerAddress 0] else [])
    ++ (if (1 <? List.length (controllerMarkers s))%nat
        then [controllerAddress 1] else [])
  else [].

(** The panel line of controller [i]. *)
Definition controllerRow (i : nat) (s : State) : option DisplayRow :=
  match i with
  | 0%nat => Some (ctrl0Row s)
  | 1%nat => Some (ctrl1Row s)
  | _ => None
  end.

(** The line of a controller without a pose: position zero, the
    rotation of [new THREE.Euler()], button released. *)
Definition absentRow : DisplayRow :=
  mkRow (Some (zero, zero, zero))
    (Some (radToDeg zero, radToDeg zero, radToDeg zero)) "Released".

(** A run of frame callbacks: for each frame its [Date.now()] and the
    messages it sent. *)
Fixpoint runFrames (frames : list XRFrame) (s : State)
  : option (list (Z * list WireMessage) * State) :=
  match frames with
  | [] => Some ([], s)
  | frame :: rest =>
      s1 ← renderXRFrame frame s;
      '(log, s2) ← runFrames rest s1;
      Some ((currentTime frame, sentBy s s1) :: log, s2)
  end.

(** A run of timer callbacks, each at its clock time. *)
Fixpoint runTicks (ticks : list (Z * bool)) (s : State)
  : option (list (Z * list WireMessage) * State) :=
  match ticks with
  | [] => Some ([], s)
  | (t, isPresenting) :: rest =>
      s1 ← dataSampleTick isPresenting s;
      '(log, s2) ← runTicks rest s1;
      Some ((t, sentBy s s1) :: log, s2)
  end.

(** *** The page as an event loop

    The callbacks the browser runs, one at a time and each to its end: a
    frame of the animation loop, an expiry of the sampling interval, a
    click on the streaming button, the events of the socket, and an
    expired timer. *)
Inductive Event : Type :=
| Frame (frame : XRFrame)
| Tick (isPresenting : bool)
| Toggle
| SocketOpened
| SocketClosed
| SocketFailed
| Fire (i : nat).

Definition step (s : State) (e : Event) : option State :=
  match e with
  | Frame frame => renderXRFrame frame s
  | Tick isPresenting => dataSampleTick isPresenting s
  | Toggle => Some (toggleOSC s)
  | SocketOpened => Some (wsOpened s)
  | SocketClosed => Some (wsClosed s)
  | SocketFailed => Some (wsFailed s)
  | Fire i => Some (fireTimer i s)
  end.

Fixpoint run (events : list Event) (s : State) : option State :=
  match events with
  | [] => Some s
  | e :: rest => s' ← step s e; run rest s'
  end.

(** *** Loading the page

    The globals as the script declares them, with the panel of
    [index.html]. *)
Definition naRow : DisplayRow := mkRow None None "N/A".

Definition beforeLoad : State :=
  mkState false 0 None None false None [] naRow naRow naRow "Disconnected"
    [] 0 [].

Definition set_SERVER_URL (url : option string) (s : State) : State :=
  mkState (oscEnabled s) (lastOSCSendTime s) url (socket s) (xrSession s)
    (hmdMarker s) (controllerMarkers s) (hmdRow s) (ctrl0Row s) (ctrl1Row s)
    (wsStatus s) (timers s) (connections s) (wire s).
Definition set_xrSession (b : bool) (s : State) : State :=
  mkState (oscEnabled s) (lastOSCSendTime s) (SERVER_URL s) (socket s) b
    (hmdMarker s) (controllerMarkers s) (hmdRow s) (ctrl0Row s) (ctrl1Row s)
    (wsStatus s) (timers s) (connections s) (wire s).

(** [String.prototype.trim]. *)
Definition trim (s : string) : string := trimEnd (trimStart s).

(** [hay.includes(needle)]. *)
Fixpoint includes (needle hay : string) : bool :=
  String.prefix needle hay
  || match hay with
     | String _ rest => includes needle rest
     | EmptyString => false
     end.

(** What the document gives the script: the text of the [serverAddress]
    element if there is one, whether the preview canvas is there, and
    whether [THREE] is defined. *)
Record Document : Type :=
  mkDocument { serverAddress : option string;
               previewCanvas : bool;
               three : bool }.

(** The part of the [DOMContentLoaded] handler that sets [SERVER_URL]. *)
Definition configureServer (serverAddressText : option string) (s : State)
  : State :=
  match serverAddressText with
  | Some textContent =>
      let hostAndPort := trim textContent in
      if negb (String.eqb hostAndPort "") && includes ":" hostAndPort
      then set_SERVER_URL (Some ("wss://" ++ hostAndPort)%string) s
      else set_wsStatus "Error: Invalid server address in HTML"
             (set_SERVER_URL None s)
  | None =>
      set_wsStatus "Error: Server address HTML element missing"
        (set_SERVER_URL None s)
  end.

(** [initPreviewScene], the renderer being created without an error: a
    fresh mesh sits at the origin, unrotated and visible; the two
    controller meshes are hidden. *)
Definition initPreviewScene (canvas : bool) (s : State) : State :=
  if negb canvas then s
  else
    let mesh := mkMarker zeroVec (mkQuat zero zero zero (ofZ 1)) in
    set_controllerMarkers
      (controllerMarkers s ++ [mesh false; mesh false])%list
      (set_hmdMarker (Some (mesh true)) s).

(** *** Sessions and the two samplers

    The page together with what the host schedules for it: the interval
    that [dataSampleInterval] names, the intervals still running, the id
    the next [setInterval] returns (ids are positive), whether
    [renderXRFrame] is the animation loop, whether the streaming button
    is disabled, and whether [renderer] is set. *)
Record Page : Type :=
  mkPage { globals : State;
           dataSampleInterval : option positive;
           intervals : list positive;
           nextInterval : positive;
           animationLoop : bool;
           toggleDisabled : bool;
           renderer : bool }.

Definition set_globals (s : State) (p : Page) : Page :=
  mkPage s (dataSampleInterval p) (intervals p) (nextInterval p)
    (animationLoop p) (toggleDisabled p) (renderer p).

Definition clearInterval (id : positive) (running : list positive)
  : list positive :=
  List.filter (fun j => negb (Pos.eqb j id)) running.

Definition startDataSampling (p : Page) : Page :=
  let running :=
    match dataSampleInterval p with
    | Some id => clearInterval id (intervals p)
    | None => intervals p
    end in
  mkPage (globals p) (Some (nextInterval p))
    (running ++ [nextInterval p])%list (Pos.succ (nextInterval p))
    (animationLoop p) (toggleDisabled p) (renderer p).

Definition stopDataSampling (p : Page) : Page :=
  let running :=
    match dataSampleInterval p with
    | Some id => clearInterval id (intervals p)
    | None => intervals p
    end in
  mkPage (globals p) None running (nextInterval p) (animationLoop p)
    (toggleDisabled p) (renderer p).

(** The panel after [onXRSessionEnded]: every span reads N/A. *)
Definition clearDisplay (s : State) : State :=
  set_ctrl1Row naRow
    (set_ctrl0Row naRow
       (set_hmdRow (mkRow None None (btnText (hmdRow s))) s)).

Definition onXRSessionEnded (p : Page) : Page :=
  let s := clearDisplay (set_xrSession false (globals p)) in
  startDataSampling
    (mkPage s (dataSampleInterval p) (intervals p) (nextInterval p)
       false false (renderer p)).

(** [startXRSession] runs in pieces, one after each [await].  Its state
    changes are two: [xrSession] is assigned once [requestSession] has
    resolved, and once [renderer.xr.setSession] has resolved the buttons
    are switched, [renderXRFrame] becomes the animation loop and
    [stopDataSampling] runs.  A refusal or a rejection changes nothing,
    and without a renderer the function returns at once. *)
Definition sessionGranted (p : Page) : Page :=
  set_globals (set_xrSession true (globals p)) p.

Definition sessionBound (p : Page) : Page :=
  stopDataSampling
    (mkPage (globals p) (dataSampleInterval p) (intervals p)
       (nextInterval p) true true (renderer p)).

(** The end of the [DOMContentLoaded] handler, from the preview scene
    on. *)
Definition finishLoading (document : Document) (s : State) : Page :=
  let s' :=
    if three document then initPreviewScene (previewCanvas document) s
    else s in
  startDataSampling
    (mkPage s' None [] 1%positive false false
       (three document && previewCanvas document)).

(** The [DOMContentLoaded] handler.  [accepts url] is the verdict of the
    host on [new WebSocket(url)]: the constructor throws a SyntaxError on
    a URL it cannot parse.  Thrown inside [initWebSocket], the exception
    ends the handler: the page is left with its configuration and
    listeners, without a socket, without the preview scene and its
    renderer, and without the sampling interval.  (Every later call of
    [initWebSocket] comes from the [close] event of a socket, so with a
    URL the constructor has accepted.) *)
Definition domContentLoaded (accepts : string -> bool) (document : Document)
  : Page :=
  let s1 := configureServer (serverAddress document) beforeLoad in
  match SERVER_URL s1 with
  | None | Some "" => finishLoading document s1
  | Some url =>
      if accepts url then finishLoading document (initWebSocket s1)
      else mkPage s1 None [] 1%positive false false false
  end.

(** Whether the handler is ended by the constructor. *)
Definition loadAborted (accepts : string -> bool) (document : Document)
  : bool :=
  match SERVER_URL (configureServer (serverAddress document) beforeLoad) with
  | None | Some "" => false
  | Some url => negb (accepts url)
  end.

Inductive PageEvent : Type :=
| Host (e : Event)
| SessionGranted
| SessionBound
| SessionEnded.

(** What the host can deliver: a frame only to an animation loop, a
    tick only of a running interval, a click only to an enabled button,
    a socket event only of a socket.  The session events need the
    renderer, without which [startXRSession] asks for no session. *)
Definition delivered (p : Page) (e : Event) : bool :=
  match e with
  | Frame _ => animationLoop p
  | Tick _ => match intervals p with [] => false | _ => true end
  | Toggle => negb (toggleDisabled p)
  | SocketOpened | SocketClosed | SocketFailed =>
      match socket (globals p) with Some _ => true | None => false end
  | Fire _ => true
  end.

Definition pageStep (p : Page) (e : PageEvent) : option Page :=
  match e with
  | Host e =>
      if delivered p e
      then s' ← step (globals p) e; Some (set_globals s' p)
      else Some p
  | SessionGranted => Some (if renderer p then sessionGranted p else p)
  | SessionBound => Some (if renderer p then sessionBound p else p)
  | SessionEnded => Some (if renderer p then onXRSessionEnded p else p)
  end.

Fixpoint pageRun (events : list PageEvent) (p : Page) : option Page :=
  match events with
  | [] => Some p
  | e :: rest => p' ← pageStep p e; pageRun rest p'
  end.

(** At most the interval [dataSampleInterval] names is running, and it
    runs exactly while [renderXRFrame] is not the animation loop; the
    streaming button is disabled exactly while it is. *)
Definition oneSampler (p : Page) : Prop :=
  intervals p
  = match dataSampleInterval p with Some id => [id] | None => [] end
  /\ animationLoop p
     = match dataSampleInterval p with Some _ => false | None => true end
  /\ toggleDisabled p = animationLoop p.

(** A page on which no sampler can run: no renderer, no animation loop,
    no interval; its streaming button is enabled. *)
Definition noSampler (p : Page) : Prop :=
  renderer p = false /\ animationLoop p = false
  /\ intervals p = [] /\ dataSampleInterval p = None
  /\ toggleDisabled p = false.

(** A page without a socket and without a pending reconnect. *)
Definition offline (p : Page) : Prop :=
  socket (globals p) = None /\ timers (globals p) = [].

(** The test of [initWebSocket]: the socket is open or connecting. *)
Definition socketBusy (s : State) : bool :=
  match socket s with
  | Some OPEN | Some CONNECTING => true
  | _ => false
  end.

(** The [close] events of a run. *)
Definition closes (events : list Event) : nat :=
  List.length
    (List.filter
       (fun e => match e with SocketClosed => true | _ => false end) events).

(** The fields the samplers leave alone. *)
Definition transportOf (s : State)
  : option string * option ReadyState * string * list Timer * nat :=
  (SERVER_URL s, socket s, wsStatus s, timers s, connections s).

End Sampler.

(** *** The shape of a wire message

    An angle of the closed range. *)
Definition inRange (n : JSNumber) : Prop :=
  exists q, n = Fin q /\ (-180 <= q <= 180)%Q.

(** Three coordinates that are numbers, three angles of the range, and
    the button flag exactly on the controller addresses. *)
Definition wellFormed (m : WireMessage) : Prop :=
  exists x y z yaw pitch roll button,
    args m = [x; y; z; yaw; pitch; roll] ++ button
    /\ isNaN x = false /\ isNaN y = false /\ isNaN z = false
    /\ inRange yaw /\ inRange pitch /\ inRange roll
    /\ if String.prefix "/controller" (address m)
       then button = [ofZ 0] \/ button = [ofZ 1]
       else button = [].

(** [s'] has sent what [s] had sent, and then well-formed messages. *)
Definition extends (s s' : State) : Prop :=
  exists new, wire s' = wire s ++ new /\ Forall wellFormed new.

(** The pose a marker holds. *)
Definition poseOf (m : Marker) : Pose := mkPose (mPosition m) (mQuaternion m).

(** The wire messages of the log entries whose time lies in
    [[from, from + 1000]]. *)
Definition inWindow (from : Z) (entry : Z * list WireMessage) : bool :=
  (from <=? fst entry) && (fst entry <=? from + 1000).

Definition messagesInWindow (from : Z) (log : list (Z * list WireMessage))
  : nat :=
  List.length (concat (map snd (List.filter (inWindow from) log))).

Definition transmitting (entry : Z * list WireMessage) : bool :=
  negb (Nat.eqb (List.length (snd entry)) 0).

(** The times of the entries that sent something, in order. *)
Definition sendTimes (log : list (Z * list WireMessage)) : list Z :=
  map fst (List.filter transmitting log).

Definition timeInWindow (from t : Z) : bool :=
  (from <=? t) && (t <=? from + 1000).

(** Two times at least the send interval apart. *)
Definition apart (t t' : Z) : Prop := t + OSC_SEND_INTERVAL <= t'.

Definition transmissionsInWindow (from : Z)
    (log : list (Z * list WireMessage)) : nat :=
  List.length
    (List.filter (fun e => inWindow from e && transmitting e) log).

End Client.

(** ** The relay ([webxr_osc_server.js]) *)

Module Server.

Inductive DeviceType : Type := HMD | CONTROLLER0 | CONTROLLER1.

#[export] Instance DeviceType_eq_dec : EqDecision DeviceType.
Proof. solve_decision. Defined.

Definition OSC_TARGET_IP : string := "127.0.0.1".

Definition OSC_PORTS (d : DeviceType) : Z :=
  match d with
  | HMD => 7400
  | CONTROLLER0 => 7401
  | CONTROLLER1 => 7402
  end.

(** [Object.keys(OSC_PORTS)]. *)
Definition deviceTypes : list DeviceType := [HMD; CONTROLLER0; CONTROLLER1].

(** An [osc.UDPPort], by its destination. *)
Record UDPPort : Type :=
  mkPort { remoteAddress : string; remotePort : Z }.

(** One argument of an outgoing OSC message as it is handed to
    [udpPort.send]: [{type: 'f', value}], the value being a JavaScript
    number. *)
Record OSCArg : Type := mkArg { type : string; value : JSNumber }.

(** What the port writes for an argument of type ['f']: the binary32
    nearest to the number.  The rounding inside the range is not
    modelled; a magnitude that reaches [2^128 - 2^103], half a step above
    the largest binary32, rounds to an infinity. *)
Definition float32Bound : Q := inject_Z (2 ^ 128 - 2 ^ 103).

Definition toFloat32 (n : JSNumber) : JSNumber :=
  match n with
  | Fin q =>
      if Qle_bool float32Bound q then PInf
      else if Qle_bool q (- float32Bound) then NInf
      else Fin q
  | other => other
  end.

Record OSCMessage : Type :=
  mkMessage { address : string; args : list OSCArg }.

(** A message handed to [udpPort.send], with the port that took it. *)
Record Datagram : Type := mkDatagram { via : UDPPort; message : OSCMessage }.

Inductive StatKey : Type := hmd | controller0 | controller1.

#[export] Instance StatKey_eq_dec : EqDecision StatKey.
Proof. solve_decision. Defined.

Record Stat : Type := mkStat { count : nat; lastTime : Z }.

Inductive Callback : Type :=
| CbReconnect (deviceType : DeviceType)   (* the timer of the error handler *)
| CbInit.                                 (* [initOSCConnection] *)

Record Timer : Type := mkTimer { delay : Z; callback : Callback }.

(** The confirmation a new WebSocket client receives: its [oscStatus]. *)
Record Notice : Type := mkNotice { oscStatus : string }.

(** The globals of the server together with what it has emitted. *)
Record State : Type :=
  mkState {
    oscUDPPorts : DeviceType -> option UDPPort;
    oscConnected : DeviceType -> bool;
    oscMessageCount : nat;
    oscErrorCount : nat;
    lastOSCError : option string;
    messageStats : StatKey -> Stat;
    timers : list Timer;
    udpOut : list Datagram;      (* oldest first *)
    clientOut : list Notice      (* what was sent to WebSocket clients *)
  }.

Definition set_oscUDPPorts (f : DeviceType -> option UDPPort) (s : State)
  : State :=
  mkState f (oscConnected s) (oscMessageCount s) (oscErrorCount s)
    (lastOSCError s) (messageStats s) (timers s) (udpOut s) (clientOut s).
Definition set_oscConnected (f : DeviceType -> bool) (s : State) : State :=
  mkState (oscUDPPorts s) f (oscMessageCount s) (oscErrorCount s)
    (lastOSCError s) (messageStats s) (timers s) (udpOut s) (clientOut s).
Definition set_oscMessageCount (n : nat) (s : State) : State :=
  mkState (oscUDPPorts s) (oscConnected s) n (oscErrorCount s)
    (lastOSCError s) (messageStats s) (timers s) (udpOut s) (clientOut s).
Definition set_oscErrorCount (n : nat) (s : State) : State :=
  mkState (oscUDPPorts s) (oscConnected s) (oscMessageCount s) n
    (lastOSCError s) (messageStats s) (timers s) (udpOut s) (clientOut s).
Definition set_lastOSCError (e : option string) (s : State) : State :=
  mkState (oscUDPPorts s) (oscConnected s) (oscMessageCount s)
    (oscErrorCount s) e (messageStats s) (timers s) (udpOut s) (clientOut s).
Definition set_messageStats (f : StatKey -> Stat) (s : State) : State :=
  mkState (oscUDPPorts s) (oscConnected s) (oscMessageCount s)
    (oscErrorCount s) (lastOSCError s) f (timers s) (udpOut s) (clientOut s).
Definition set_timers (l : list Timer) (s : State) : State :=
  mkState (oscUDPPorts s) (oscConnected s) (oscMessageCount s)
    (oscErrorCount s) (lastOSCError s) (messageStats s) l (udpOut s)
    (clientOut s).
Definition set_udpOut (l : list Datagram) (s : State) : State :=
  mkState (oscUDPPorts s) (oscConnected s) (oscMessageCount s)
    (oscErrorCount s) (lastOSCError s) (messageStats s) (timers s) l
    (clientOut s).
Definition set_clientOut (l : list Notice) (s : State) : State :=
  mkState (oscUDPPorts s) (oscConnected s) (oscMessageCount s)
    (oscErrorCount s) (lastOSCError s) (messageStats s) (timers s)
    (udpOut s) l.

Definition setTimeout (c : Callback) (ms : Z) (s : State) : State :=
  set_timers (timers s ++ [mkTimer ms c]) s.

(** What the host decides during one handler: the clock, whether
    [open()] throws for a device, and the error [udpPort.send] fails with,
    if any.  A [send] of the osc package that fails reports the error to
    the port's [error] listeners and then throws. *)
Record Env : Type :=
  mkEnv { now : Z;
          openThrows : DeviceType -> bool;
          sendThrows : option string }.

(** The state at process start. *)
Definition initial : State :=
  mkState (fun _ => None) (fun _ => false) 0 0 None (fun _ => mkStat 0 0)
    [] [] [].

(** *** Port life cycle *)

(** The body of the [forEach] of [initOSCConnection] for one device.  A
    throwing [open()] is caught and leaves the device not connected. *)
Definition initDevice (env : Env) (s : State) (deviceType : DeviceType)
  : State :=
  match oscUDPPorts s deviceType with
  | Some _ => s
  | None =>
      let s1 :=
        set_oscUDPPorts
          (<[deviceType := Some (mkPort OSC_TARGET_IP (OSC_PORTS deviceType))]>
             (oscUDPPorts s)) s in
      if openThrows env deviceType
      then set_oscConnected (<[deviceType := false]> (oscConnected s1)) s1
      else s1
  end.

Definition initOSCConnection (env : Env) (s : State) : State :=
  fold_left (initDevice env) deviceTypes s.

(** The body of the [forEach] of [reconnectOSC] for one device (an
    exception of [close()] is caught and only logged). *)
Definition dropDevice (s : State) (device : DeviceType) : State :=
  let s1 :=
    match oscUDPPorts s device with
    | Some _ => set_oscUDPPorts (<[device := None]> (oscUDPPorts s)) s
    | None => s
    end in
  set_oscConnected (<[device := false]> (oscConnected s1)) s1.

Definition reconnectOSC (deviceType : option DeviceType) (s : State) : State :=
  let devicesToReconnect :=
    match deviceType with
    | Some d => [d]
    | None => deviceTypes
    end in
  setTimeout CbInit 1000 (fold_left dropDevice devicesToReconnect s).

(** The handlers registered on the port of [deviceType]. *)
Definition onReady (deviceType : DeviceType) (s : State) : State :=
  set_oscConnected (<[deviceType := true]> (oscConnected s)) s.

Definition onError (deviceType : DeviceType) (err : string) (s : State)
  : State :=
  let s1 := set_oscConnected (<[deviceType := false]> (oscConnected s)) s in
  let s2 := set_oscErrorCount (S (oscErrorCount s1)) s1 in
  let s3 := set_lastOSCError (Some err) s2 in
  setTimeout (CbReconnect deviceType) 5000 s3.

Definition onClose (deviceType : DeviceType) (s : State) : State :=
  set_oscConnected (<[deviceType := false]> (oscConnected s)) s.

Definition runCallback (env : Env) (c : Callback) (s : State) : State :=
  match c with
  | CbReconnect d => reconnectOSC (Some d) s
  | CbInit => initOSCConnection env s
  end.

(** The [i]-th pending timer expires. *)
Definition fireTimer (env : Env) (i : nat) (s : State) : State :=
  match timers s !! i with
  | Some t => runCallback env (callback t) (set_timers (delete i (timers s)) s)
  | None => s
  end.

(** *** Routing and sending *)

Definition getDeviceTypeFromAddress (address : string) : DeviceType :=
  if String.prefix "/hmd" address then HMD
  else if String.prefix "/controller0" address then CONTROLLER0
  else if String.prefix "/controller1" address then CONTROLLER1
  else HMD.

(** [hay.includes(needle)]. *)
Fixpoint includes (needle hay : string) : bool :=
  String.prefix needle hay
  || match hay with
     | String _ rest => includes needle rest
     | EmptyString => false
     end.

Definition updateMessageStats (env : Env) (address : string) (s : State)
  : State :=
  let deviceKey :=
    if includes "controller0" address then controller0
    else if includes "controller1" address then controller1
    else hmd in
  let old := messageStats s deviceKey in
  set_messageStats
    (<[deviceKey := mkStat (S (count old)) (now env)]> (messageStats s)) s.

(** [{type: 'f', value: isNaN(parseFloat(v)) ? 0.0 : parseFloat(v)}].
    [sendOSC] is handed the arguments that passed the filter of
    [handleOSCMessage], on which [parseFloat] returns. *)
Definition floatArg (v : JSValue) : OSCArg :=
  mkArg "f" (if isNaN (parseFloat v) then zero else parseFloat v).

(** [sendOSC].  A [udpPort.send] that fails runs the [error] listener
    that [initOSCConnection] gave the port ([onError], for the device of
    the port) and then throws, so the [catch] block starts from the state
    the listener left.  The listener and the [catch] block are given
    errors of their own; [lastOSCError] ends as the message of the one
    thrown, which is the one [sendThrows] holds. *)
Definition sendOSC (env : Env) (address : string) (args : list JSValue)
    (s : State) : bool * State :=
  let deviceType := getDeviceTypeFromAddress address in
  let udpPort := oscUDPPorts s deviceType in
  let isConnected := oscConnected s deviceType in
  match udpPort with
  | Some port =>
      if negb isConnected then (false, s)
      else
        let oscMessage := mkMessage address (map floatArg args) in
        match sendThrows env with
        | None =>
            let s1 := set_udpOut (udpOut s ++ [mkDatagram port oscMessage]) s in
            let s2 := set_oscMessageCount (S (oscMessageCount s1)) s1 in
            (true, updateMessageStats env address s2)
        | Some err =>
            let s0 := onError deviceType err s in
            let s1 := set_oscErrorCount (S (oscErrorCount s0)) s0 in
            let s2 := set_lastOSCError (Some err) s1 in
            (false,
             if (10 <? oscErrorCount s2)%nat
             then reconnectOSC (Some deviceType) s2
             else s2)
        end
  | None => (false, s)
  end.

(** The property [k] of a parsed message: the last member of that name
    of an object, [undefined] on anything else. *)
Definition getProp (k : string) (v : JSValue) : JSValue :=
  match v with
  | JObj members =>
      match List.find (fun m => String.eqb (fst m) k) (rev members) with
      | Some m => snd m
      | None => JUndefined
      end
  | _ => JUndefined
  end.

(** The test of the [filter] in [handleOSCMessage]. *)
Definition validArg (arg : JSValue) : bool :=
  let num := parseFloat arg in
  negb (isNaN num) && isFinite num.

(** What [handleOSCMessage] does with a message. *)
Inductive Routed : Type :=
| Dropped                        (* an early [return], or an exception *)
| Forwarded (address : string) (validArgs : list JSValue) (success : bool).

(** [handleOSCMessage]: the outcome and the new state.  Destructuring
    [null] throws, and so does the filter on the first element on which
    [parseFloat] throws; the caller catches the exception, which leaves
    the state as it was. *)
Definition handleOSCMessage (env : Env) (msg : JSValue) (s : State)
  : Routed * State :=
  match msg with
  | JNull | JUndefined => (Dropped, s)
  | _ =>
      let address := getProp "address" msg in
      let args := getProp "args" msg in
      match address with
      | JStr a =>
          if negb (truthy address) then (Dropped, s)
          else
            match args with
            | JArr l =>
                if existsb parseFloatThrows l then (Dropped, s)
                else
                  let validArgs := List.filter validArg l in
                  let '(success, s') := sendOSC env a validArgs s in
                  (Forwarded a validArgs success, s')
            | _ => (Dropped, s)
            end
      | _ => (Dropped, s)
      end
  end.

(** A WebSocket client connects and is sent the confirmation. *)
Definition onConnection (s : State) : State :=
  let allConnected := forallb (oscConnected s) deviceTypes in
  set_clientOut
    (clientOut s ++ [mkNotice (if allConnected then "ready" else "connecting")])
    s.

(** What can happen to the server. *)
Inductive Event : Type :=
| Ready (deviceType : DeviceType)
| Error (deviceType : DeviceType) (err : string)
| Close (deviceType : DeviceType)
| Fire (i : nat)
| Message (msg : JSValue)
| Connection.

Definition step (s : State) (ev : Env * Event) : State :=
  let '(env, e) := ev in
  match e with
  | Ready d => onReady d s
  | Error d err => onError d err s
  | Close d => onClose d s
  | Fire i => fireTimer env i s
  | Message msg => snd (handleOSCMessage env msg s)
  | Connection => onConnection s
  end.

Definition run (events : list (Env * Event)) (s : State) : State :=
  fold_left step events s.

(** The ways the channel of one device fails: an [error] or [close]
    event of its port, a send to it, and the reconnect that follows. *)
Inductive Failure : Type :=
| ErrorEvent (err : string)
| CloseEvent
| SendTo (env : Env) (address : string) (args : list JSValue)
| Reconnect.

Definition onChannel (deviceType : DeviceType) (f : Failure) : Prop :=
  match f with
  | SendTo _ address _ => getDeviceTypeFromAddress address = deviceType
  | _ => True
  end.

Definition afterFailure (deviceType : DeviceType) (f : Failure) (s : State)
  : State :=
  match f with
  | ErrorEvent err => onError deviceType err s
  | CloseEvent => onClose deviceType s
  | SendTo env address args => snd (sendOSC env address args s)
  | Reconnect => reconnectOSC (Some deviceType) s
  end.

(** The datagrams emitted between two states. *)
Definition emitted (s s' : State) : list Datagram :=
  drop (List.length (udpOut s)) (udpOut s').

(** *** What the relay keeps true

    The key under which [updateMessageStats] counts an address. *)
Definition deviceKeyOf (address : string) : StatKey :=
  if includes "controller0" address then controller0
  else if includes "controller1" address then controller1
  else hmd.

(** The destination configured for a device. *)
Definition destination (deviceType : DeviceType) : UDPPort :=
  mkPort OSC_TARGET_IP (OSC_PORTS deviceType).

(** Every open port points at the destination of its device. *)
Definition portsAimed (s : State) : Prop :=
  forall deviceType port,
    oscUDPPorts s deviceType = Some port -> port = destination deviceType.

(** A datagram went through the port of the device its address names. *)
Definition aimed (d : Datagram) : Prop :=
  via d = destination (getDeviceTypeFromAddress (address (message d))).

(** A datagram carries only finite numbers, each tagged as a float. *)
Definition finiteFloats (d : Datagram) : Prop :=
  Forall (fun a => type a = "f" /\ isFinite (value a) = true)
    (args (message d)).

(** The counters agree with what was emitted. *)
Definition countsAgree (s : State) : Prop :=
  oscMessageCount s = List.length (udpOut s)
  /\ (count (messageStats s hmd) + count (messageStats s controller0)
      + count (messageStats s controller1))%nat = oscMessageCount s.

Definition sound (s : State) : Prop :=
  portsAimed s /\ Forall aimed (udpOut s) /\ Forall finiteFloats (udpOut s)
  /\ countsAgree s.

(** The relay once its start-up code has run: [initOSCConnection] on the
    initial globals. *)
Definition started (env : Env) : State := initOSCConnection env initial.

(** A failure and its recovery on one device: the port reports an error,
    the reconnect timer it scheduled expires, the re-initialisation timer
    that one scheduled expires, and the new port becomes ready.  Both
    timers sit right after the timers that were pending before. *)
Definition errorThenRecovery (env : Env) (deviceType : DeviceType)
    (err : string) (s : State) : State :=
  let n := List.length (timers s) in
  onReady deviceType
    (fireTimer env n (fireTimer env n (onError deviceType err s))).

(** *** Static files

    The request handler of the HTTPS server.  [readFile] is the file
    system: the contents of a file of the server's directory, [None] when
    reading fails. *)
Record Response : Type :=
  mkResponse { statusCode : Z; contentType : string; body : string }.

(** The file and the content type a URL is routed to. *)
Definition routeOf (url : string) : option (string * string) :=
  if String.eqb url "/" || String.eqb url "/index.html"
  then Some ("index.html", "text/html")
  else if String.eqb url "/three.min.js"
  then Some ("three.min.js", "application/javascript")
  else if String.eqb url "/app.js"
  then Some ("app.js", "application/javascript")
  else None.

(** The files the server's directory is asked for. *)
Definition servedFiles : list string := ["index.html"; "three.min.js"; "app.js"].

Definition handleRequest (readFile : string -> option string) (url : string)
  : Response :=
  match routeOf url with
  | Some (file, type) =>
      match readFile file with
      | Some data => mkResponse 200 type data
      | None => mkResponse 500 "text/plain" ("Error loading " ++ file)%string
      end
  | None => mkResponse 404 "text/plain" "404 Not Found"
  end.

End Server.

(** ** From the page to the relay

    What [JSON.parse] reads back from the text [JSON.stringify] wrote for
    the payload [{address, args}] of [sendOSCData]: a finite number reads
    back as itself, NaN and the infinities are written as [null]. *)

Module Link.

Definition numberJSON (n : JSNumber) : JSValue :=
  if isFinite n then JNum n else JNull.

Definition payloadJSON (m : Client.WireMessage) : JSValue :=
  JObj [("address", JStr (Client.address m));
        ("args", JArr (map numberJSON (Client.args m)))].

(** The relay's [message] handler on a text within its size limit:
    [handleOSCMessage(JSON.parse(msgString))]. *)
Definition relay (env : Server.Env) (m : Client.WireMessage)
    (s : Server.State) : Server.Routed * Server.State :=
  Server.handleOSCMessage env (payloadJSON m) s.

End Link.

(** ** Concrete inputs used by the examples below *)

Module Examples.

Import Server.

Definition num (z : Z) : JSValue := JNum (ofZ z).

(** A quiet host: [open()] and [udpPort.send] do not throw. *)
Definition quiet : Env := mkEnv 0 (fun _ => false) None.

(** A host whose [udpPort.send] throws. *)
Definition failing : Env := mkEnv 0 (fun _ => false) (Some "send failed").

(** The server after start-up, once the three ports are ready. *)
Definition ready : State :=
  run [(quiet, Ready HMD); (quiet, Ready CONTROLLER0);
       (quiet, Ready CONTROLLER1)]
    (initOSCConnection quiet initial).

Definition poseMessage (address : string) (args : list JSValue) : JSValue :=
  JObj [("address", JStr address); ("args", JArr args)].

(** The arguments [[1,2,"bad",4,5,6]]. *)
Definition partlyBad : list JSValue :=
  [num 1; num 2; JStr "bad"; num 4; num 5; num 6].

(** The specification's finite numeric element: a JavaScript number that
    is finite. *)
Definition isFiniteNumber (v : JSValue) : bool :=
  match v with
  | JNum (Fin _) => true
  | _ => false
  end.

(** [n] consecutive messages whose send throws, all for [address]. *)
Definition failures (n : nat) (address : string) : list (Env * Event) :=
  repeat (failing, Message (poseMessage address [])) n.

(** [n] [error] events of the port of [deviceType]. *)
Definition errorsOn (n : nat) (deviceType : DeviceType)
  : list (Env * Event) :=
  repeat (quiet, Error deviceType "destination unreachable") n.

(** The ready server after ten errors of the port of controller 0. *)
Definition tenErrors : State := run (errorsOn 10 CONTROLLER0) ready.

(** The ready server after eight errors of the port of controller 1. *)
Definition eightErrors : State := run (errorsOn 8 CONTROLLER1) ready.

(** *** The client *)

Definition piApprox : Q := 3141592653589793 # 1000000000000000.

(** A stand-in for [r * 180 / Math.PI]. *)
Definition degrees (r : JSNumber) : JSNumber :=
  match r with
  | Fin q => Fin (Qred (q * 180 / piApprox))
  | other => other
  end.

(** A stand-in for the host's conversion, right on the orientations used
    below: the identity, and the half turn about the vertical axis with a
    slightly negative [w], whose yaw is [-pi]. *)
Definition eulerOf (q : Client.Quat) : Client.Euler :=
  match Client.qw q with
  | Fin w =>
      if Qltb w 0 then Client.mkEuler zero (Fin (- piApprox)) zero
      else Client.newEuler
  | _ => Client.newEuler
  end.

Definition identity : Client.Quat := Client.mkQuat zero zero zero (ofZ 1).

Definition halfTurn : Client.Quat :=
  Client.mkQuat zero (ofZ 1) zero (Fin (- 1 # 100000000000000000)).

(** Eye height, facing forward. *)
Definition standing : Client.Pose :=
  Client.mkPose (Client.mkVec3 zero (Fin (16 # 10)) zero) identity.

Definition idleMarker : Client.Marker :=
  Client.mkMarker Client.zeroVec identity false.

Definition blankRow : Client.DisplayRow := Client.mkRow None None "N/A".

(** The page once loaded: preview scene built, nothing connected. *)
Definition loaded : Client.State :=
  Client.mkState false 0 (Some "wss://192.168.1.104:8443") None false
    (Some idleMarker) [idleMarker; idleMarker]
    blankRow blankRow blankRow "Disconnected" [] 0 [].

(** The page with the socket open and streaming enabled, in preview. *)
Definition streaming : Client.State :=
  Client.toggleOSC (Client.wsOpened (Client.initWebSocket loaded)).

(** The same inside an immersive session. *)
Definition immersive : Client.State :=
  Client.mkState true 0 (Some "wss://192.168.1.104:8443")
    (Some Client.OPEN) true
    (Some idleMarker) [idleMarker; idleMarker]
    blankRow blankRow blankRow "Connected" [] 1 [].

(** The page after its first connection attempt was refused. *)
Definition refused : Client.State :=
  Client.wsClosed (Client.initWebSocket loaded).

Definition tracked : Client.InputSource :=
  Client.mkSource (Some [false; true]) (Some (Some standing)).

(** A controller whose grip pose is missing in the frame. *)
Definition untracked : Client.InputSource :=
  Client.mkSource (Some [false; false]) (Some None).

(** A frame at time [t] with the HMD and both controllers tracked. *)
Definition fullFrame (t : Z) : Client.XRFrame :=
  Client.mkFrame t true (Some standing) [tracked; tracked].

(** A frame at time [t] in which controller 0 has no grip pose. *)
Definition lostGripFrame (t : Z) : Client.XRFrame :=
  Client.mkFrame t true (Some standing) [untracked; tracked].

(** [n] frames, [period] ms apart, starting at [t]. *)
Fixpoint framesEvery (period : Z) (n : nat) (t : Z)
  : list Client.XRFrame :=
  match n with
  | O => []
  | S n' => fullFrame t :: framesEvery period n' (t + period)
  end.

(** Some [Date.now()]. *)
Definition start : Z := 1700000000000.

(** [n] timer ticks, [period] ms apart, starting at [t]; no session. *)
Fixpoint ticksEvery (period : Z) (n : nat) (t : Z) : list (Z * bool) :=
  match n with
  | O => []
  | S n' => (t, false) :: ticksEvery period n' (t + period)
  end.

End Examples.

(** * Properties of the relay *)

Section Routing.

Import Server.

(** Two of the three prefixes never hold together: they differ at their
    second character. *)
Lemma prefix_hmd_not_controller (address : string) :
  String.prefix "/hmd" address = true ->
  String.prefix "/controller0" address = false
  /\ String.prefix "/controller1" address = false.
Proof.
  destruct address as [|c0 [|c1 rest]]; cbn [String.prefix];
    try discriminate; destruct (ascii_dec "/" c0); try discriminate.
  destruct (ascii_dec "h" c1) as [<-|]; try discriminate.
  destruct (ascii_dec "c" "h"); [discriminate | auto].
Qed.

Lemma prefix_controller0_not_controller1 (address : string) :
  String.prefix "/controller0" address = true ->
  String.prefix "/controller1" address = false.
Proof.
  intros H. apply prefix_correct in H. simpl in H.
  destruct (String.prefix "/controller1" address) eqn:E; [|reflexivity].
  apply prefix_correct in E. simpl in E. congruence.
Qed.

(** What a successful [sendOSC] emits: one datagram, through the port of
    the device the address is classified to. *)
Lemma sendOSC_success env address args s s' :
  sendOSC env address args s = (true, s') ->
  exists port,
    oscUDPPorts s (getDeviceTypeFromAddress address) = Some port
    /\ oscConnected s (getDeviceTypeFromAddress address) = true
    /\ udpOut s' =
         udpOut s ++ [mkDatagram port (mkMessage address (map floatArg args))].
Proof.
  unfold sendOSC.
  destruct (oscUDPPorts s _) as [port|]; [|discriminate].
  destruct (oscConnected s _); simpl; [|discriminate].
  destruct (sendThrows env); [discriminate|].
  intros [= <-]. exists port. auto.
Qed.

(** Reconnecting one device touches neither the emitted datagrams nor
    the client notices nor the counters. *)
Lemma reconnectOSC_one_frame d s :
  udpOut (reconnectOSC (Some d) s) = udpOut s
  /\ clientOut (reconnectOSC (Some d) s) = clientOut s
  /\ oscErrorCount (reconnectOSC (Some d) s) = oscErrorCount s
  /\ oscMessageCount (reconnectOSC (Some d) s) = oscMessageCount s.
Proof.
  unfold reconnectOSC, setTimeout, dropDevice. simpl.
  by destruct (oscUDPPorts s d).
Qed.

(** A failed [sendOSC] emits nothing. *)
Lemma sendOSC_failure env address args s s' :
  sendOSC env address args s = (false, s') -> udpOut s' = udpOut s.
Proof.
  unfold sendOSC.
  destruct (oscUDPPorts s _) as [port|]; [|by intros [= <-]].
  destruct (oscConnected s _); simpl; [|by intros [= <-]].
  destruct (sendThrows env); [|discriminate].
  intros [= <-]. case_match; [|done].
  by rewrite (proj1 (reconnectOSC_one_frame _ _)).
Qed.

(** No element of a list of numbers, strings, booleans and [null]s makes
    [parseFloat] throw. *)
Lemma scalars_do_not_throw (l : list JSValue) :
  forallb isScalar l = true -> existsb parseFloatThrows l = false.
Proof.
  induction l as [|v l IH]; [done|]. cbn [forallb existsb].
  intros H. apply andb_true_iff in H as [Hv Hl].
  rewrite (IH Hl). by destruct v.
Qed.

Lemma filter_sublist {A} (f : A -> bool) (l : list A) :
  sublist (List.filter f l) l.
Proof.
  induction l as [|a l IH]; simpl; [constructor|].
  destruct (f a); by constructor.
Qed.

(** The numeric test of the router, by the shape of the element. *)
Lemma validArg_spec (v : JSValue) :
  validArg v = true <-> exists q, parseFloat v = Fin q.
Proof.
  unfold validArg. destruct (parseFloat v); simpl; split;
    try discriminate; try (intros [q [=]]); eauto.
Qed.

(** A message with a non-empty string address and an array of arguments
    reaches [sendOSC] with the arguments that pass the test. *)
Lemma handleOSCMessage_forwards env msg a l s :
  getProp "address" msg = JStr a -> a <> "" ->
  getProp "args" msg = JArr l ->
  existsb parseFloatThrows l = false ->
  handleOSCMessage env msg s =
    (Forwarded a (List.filter validArg l)
       (fst (sendOSC env a (List.filter validArg l) s)),
     snd (sendOSC env a (List.filter validArg l) s)).
Proof.
  intros Ha Hne Hl Hthrows. unfold handleOSCMessage.
  destruct msg; try discriminate. rewrite Ha, Hl. simpl.
  destruct (String.eqb_spec a ""); [done|]. simpl. rewrite Hthrows.
  by destruct (sendOSC env a _ s).
Qed.

(** An element on which [parseFloat] throws loses the whole message. *)
Lemma handleOSCMessage_throws env msg a l s :
  getProp "address" msg = JStr a ->
  getProp "args" msg = JArr l ->
  existsb parseFloatThrows l = true ->
  handleOSCMessage env msg s = (Dropped, s).
Proof.
  intros Ha Hl Hthrows. unfold handleOSCMessage.
  destruct msg; try discriminate. rewrite Ha, Hl. cbv zeta.
  destruct (negb (truthy (JStr a))); [done|]. by rewrite Hthrows.
Qed.

End Routing.

Section RouterClaims.

Import Server Examples.

(** C3. The router classifies the target device by prefix: an address
    starting with [/hmd] maps to HMD, with [/controller0] to CONTROLLER0,
    with [/controller1] to CONTROLLER1, every other address to HMD; a
    successful send goes through the port of that device.  In particular
    [/controller0/pose] is CONTROLLER0 and [/unknown/pose] is HMD. *)
Theorem getDeviceTypeFromAddress_prefix_rule (address : string) :
  (String.prefix "/hmd" address = true ->
     getDeviceTypeFromAddress address = HMD)
  /\ (String.prefix "/controller0" address = true ->
        getDeviceTypeFromAddress address = CONTROLLER0)
  /\ (String.prefix "/controller1" address = true ->
        getDeviceTypeFromAddress address = CONTROLLER1)
  /\ (String.prefix "/hmd" address = false ->
      String.prefix "/controller0" address = false ->
      String.prefix "/controller1" address = false ->
        getDeviceTypeFromAddress address = HMD)
  /\ (forall env args s s',
        sendOSC env address args s = (true, s') ->
        exists port,
          oscUDPPorts s (getDeviceTypeFromAddress address) = Some port
          /\ udpOut s' =
               udpOut s
               ++ [mkDatagram port (mkMessage address (map floatArg args))])
  /\ getDeviceTypeFromAddress "/controller0/pose" = CONTROLLER0
  /\ getDeviceTypeFromAddress "/unknown/pose" = HMD.
Proof.
  unfold getDeviceTypeFromAddress. repeat split.
  - by intros ->.
  - intros H.
    destruct (String.prefix "/hmd" address) eqn:E; [|by rewrite H].
    apply prefix_hmd_not_controller in E as [E _]. congruence.
  - intros H.
    destruct (String.prefix "/hmd" address) eqn:E.
    + apply prefix_hmd_not_controller in E as [_ E]. congruence.
    + destruct (String.prefix "/controller0" address) eqn:E0; [|by rewrite H].
      apply prefix_controller0_not_controller1 in E0. congruence.
  - by intros -> -> ->.
  - intros env args s s' H.
    apply sendOSC_success in H as (port & Hp & _ & Ho). eauto.
Qed.

Lemma getDeviceTypeFromAddress_prefix_rule_witness :
  getDeviceTypeFromAddress "/controller1/grip" = CONTROLLER1.
Proof.
  exact (proj1 (proj2 (proj2
           (getDeviceTypeFromAddress_prefix_rule "/controller1/grip")))
           eq_refl).
Defined.

(** C10. A message whose address is the empty string is dropped: nothing
    is forwarded and the state of the relay is left as it was, whatever
    its arguments are, although the empty string is a string. *)
Theorem handleOSCMessage_empty_address env msg s :
  getProp "address" msg = JStr "" ->
  handleOSCMessage env msg s = (Dropped, s).
Proof.
  intros Ha. unfold handleOSCMessage.
  destruct msg; try reflexivity. by rewrite Ha.
Qed.

Lemma handleOSCMessage_empty_address_witness :
  handleOSCMessage quiet (poseMessage "" partlyBad) ready = (Dropped, ready).
Proof.
  apply handleOSCMessage_empty_address. reflexivity.
Defined.

(** C4, as stated, fails: the filter keeps an element when [parseFloat]
    reads a finite number from it, so the string ["2abc"] passes and is
    forwarded although it is not a number.  And a message is rejected
    whole for one of its arguments when [parseFloat] throws on it: of
    [[1, {"toString": 1}, 3]] nothing is forwarded. *)
Lemma handleOSCMessage_keeps_numeric_prefix_strings :
  fst (handleOSCMessage quiet
         (poseMessage "/hmd/pose" [num 1; JStr "2abc"]) ready)
    = Forwarded "/hmd/pose" [num 1; JStr "2abc"] true
  /\ forallb isFiniteNumber [num 1; JStr "2abc"] = false
  /\ handleOSCMessage quiet
       (poseMessage "/hmd/pose" [num 1; JObj [("toString", num 1)]; num 3])
       ready
     = (Dropped, ready).
Proof. by vm_compute. Qed.

(** C4, amended. A message with a non-empty string address and an array
    of arguments, on no element of which [parseFloat] throws, is never
    rejected for its arguments: it is forwarded with the elements from
    which [parseFloat] reads a finite number, in their order.  Every
    finite number is kept, NaN and the infinities are dropped, and so is
    every element without a numeric prefix; a string with a numeric prefix
    is kept.  [parseFloat] throws on no number, string, boolean or [null].
    Where it throws on an element (an object with an own member
    [toString], or an array that holds one), the handler is left by the
    exception and the whole message is lost.  For [[1,2,"bad",4,5,6]] the
    forwarded list is [[1,2,4,5,6]]. *)
Theorem handleOSCMessage_filters_by_parseFloat env msg a l s :
  getProp "address" msg = JStr a -> a <> "" ->
  getProp "args" msg = JArr l ->
  (existsb parseFloatThrows l = false ->
   exists validArgs success,
     fst (handleOSCMessage env msg s) = Forwarded a validArgs success
     /\ validArgs = List.filter validArg l
     /\ sublist validArgs l
     /\ (forall v, In v validArgs <->
                   In v l /\ exists q, parseFloat v = Fin q)
     /\ (forall q, In (JNum (Fin q)) l -> In (JNum (Fin q)) validArgs)
     /\ ~ In (JNum NaN) validArgs
     /\ ~ In (JNum PInf) validArgs
     /\ ~ In (JNum NInf) validArgs)
  /\ (forallb isScalar l = true -> existsb parseFloatThrows l = false)
  /\ (existsb parseFloatThrows l = true ->
      handleOSCMessage env msg s = (Dropped, s))
  /\ List.filter validArg partlyBad = [num 1; num 2; num 4; num 5; num 6].
Proof.
  intros Ha Hne Hl.
  split; [|split; [apply scalars_do_not_throw|split; [|reflexivity]]].
  - intros Hthrows.
    rewrite (handleOSCMessage_forwards env msg a l s Ha Hne Hl Hthrows).
    simpl. eexists _, _. split; [reflexivity|].
    assert (Hin : forall v, In v (List.filter validArg l) <->
                            In v l /\ exists q, parseFloat v = Fin q).
    { intros v. by rewrite filter_In, validArg_spec. }
    split; [reflexivity|]. split; [apply filter_sublist|].
    split; [exact Hin|]. split; [intros; apply Hin; eauto|].
    split; [|split]; intros H; by apply Hin in H as [_ [q [=]]].
  - by apply (handleOSCMessage_throws env msg a l s).
Qed.

Lemma handleOSCMessage_filters_by_parseFloat_witness :
  (exists validArgs success,
      fst (handleOSCMessage quiet (poseMessage "/hmd/pose" partlyBad) ready)
        = Forwarded "/hmd/pose" validArgs success
      /\ validArgs = List.filter validArg partlyBad
      /\ sublist validArgs partlyBad
      /\ (forall v, In v validArgs <->
                    In v partlyBad /\ exists q, parseFloat v = Fin q)
      /\ (forall q, In (JNum (Fin q)) partlyBad ->
                    In (JNum (Fin q)) validArgs)
      /\ ~ In (JNum NaN) validArgs
      /\ ~ In (JNum PInf) validArgs
      /\ ~ In (JNum NInf) validArgs)
  /\ handleOSCMessage quiet
       (poseMessage "/hmd/pose"
          [num 1; JObj [("toString", num 1)]; num 3]) ready
     = (Dropped, ready).
Proof.
  split.
  - apply (proj1 (handleOSCMessage_filters_by_parseFloat quiet
                    (poseMessage "/hmd/pose" partlyBad) "/hmd/pose"
                    partlyBad ready eq_refl ltac:(discriminate) eq_refl)).
    reflexivity.
  - apply (proj1 (proj2 (proj2
             (handleOSCMessage_filters_by_parseFloat quiet
                (poseMessage "/hmd/pose"
                   [num 1; JObj [("toString", num 1)]; num 3])
                "/hmd/pose" [num 1; JObj [("toString", num 1)]; num 3]
                ready eq_refl ltac:(discriminate) eq_refl)))).
    reflexivity.
Defined.

End RouterClaims.

Section ChannelManager.

Import Server Examples.

(** [sendOSC] by cases on the channel and on the host. *)
Lemma sendOSC_not_ready env address args s :
  oscConnected s (getDeviceTypeFromAddress address) = false
  \/ oscUDPPorts s (getDeviceTypeFromAddress address) = None ->
  sendOSC env address args s = (false, s).
Proof.
  unfold sendOSC. intros [H|H]; rewrite H; [|done].
  by destruct (oscUDPPorts s _).
Qed.

Lemma sendOSC_ready_sent env address args s port :
  oscUDPPorts s (getDeviceTypeFromAddress address) = Some port ->
  oscConnected s (getDeviceTypeFromAddress address) = true ->
  sendThrows env = None ->
  sendOSC env address args s =
    (true,
     updateMessageStats env address
       (set_oscMessageCount (S (oscMessageCount s))
          (set_udpOut
             (udpOut s
              ++ [mkDatagram port (mkMessage address (map floatArg args))])
             s))).
Proof. unfold sendOSC. by intros -> -> ->. Qed.

Lemma sendOSC_ready_thrown env address args s port err :
  oscUDPPorts s (getDeviceTypeFromAddress address) = Some port ->
  oscConnected s (getDeviceTypeFromAddress address) = true ->
  sendThrows env = Some err ->
  sendOSC env address args s =
    (false,
     let s2 :=
       set_lastOSCError (Some err)
         (set_oscErrorCount (S (S (oscErrorCount s)))
            (onError (getDeviceTypeFromAddress address) err s)) in
     if (10 <? S (S (oscErrorCount s)))%nat
     then reconnectOSC (Some (getDeviceTypeFromAddress address)) s2
     else s2).
Proof. unfold sendOSC. by intros -> -> ->. Qed.

(** The [error] listener of one port touches the flag of its device, the
    error counter, the last error and the timers. *)
Lemma onError_other (a b : DeviceType) err s :
  a <> b ->
  oscConnected (onError a err s) b = oscConnected s b
  /\ oscUDPPorts (onError a err s) b = oscUDPPorts s b.
Proof.
  intros Hab. unfold onError, setTimeout. simpl.
  by rewrite fn_lookup_insert_ne.
Qed.

Lemma onError_same (a : DeviceType) err s :
  oscConnected (onError a err s) a = false
  /\ oscUDPPorts (onError a err s) = oscUDPPorts s
  /\ timers (onError a err s) = timers s ++ [mkTimer 5000 (CbReconnect a)]
  /\ oscErrorCount (onError a err s) = S (oscErrorCount s)
  /\ clientOut (onError a err s) = clientOut s
  /\ udpOut (onError a err s) = udpOut s.
Proof.
  unfold onError, setTimeout. simpl. by rewrite fn_lookup_insert.
Qed.

(** Dropping and reconnecting one device leave every other device's
    port and flag as they were. *)
Lemma reconnectOSC_other (a b : DeviceType) s :
  a <> b ->
  oscConnected (reconnectOSC (Some a) s) b = oscConnected s b
  /\ oscUDPPorts (reconnectOSC (Some a) s) b = oscUDPPorts s b.
Proof.
  intros Hab. unfold reconnectOSC, setTimeout, dropDevice. simpl.
  destruct (oscUDPPorts s a); simpl; by rewrite ?fn_lookup_insert_ne.
Qed.

Lemma reconnectOSC_same (a : DeviceType) s :
  oscConnected (reconnectOSC (Some a) s) a = false
  /\ oscUDPPorts (reconnectOSC (Some a) s) a = None
  /\ timers (reconnectOSC (Some a) s) = timers s ++ [mkTimer 1000 CbInit].
Proof.
  unfold reconnectOSC, setTimeout, dropDevice. simpl.
  destruct (oscUDPPorts s a) eqn:E; simpl; by rewrite ?fn_lookup_insert.
Qed.

(** Whatever a [sendOSC] for one device does, the port and the flag of
    every other device stay. *)
Lemma sendOSC_other env address args s (b : DeviceType) :
  getDeviceTypeFromAddress address <> b ->
  oscConnected (snd (sendOSC env address args s)) b = oscConnected s b
  /\ oscUDPPorts (snd (sendOSC env address args s)) b = oscUDPPorts s b.
Proof.
  intros Hab.
  destruct (oscUDPPorts s (getDeviceTypeFromAddress address))
    as [port|] eqn:Hp; [|by rewrite sendOSC_not_ready by auto].
  destruct (oscConnected s (getDeviceTypeFromAddress address)) eqn:Hc;
    [|by rewrite sendOSC_not_ready by auto].
  destruct (sendThrows env) as [err|] eqn:Ht.
  - rewrite (sendOSC_ready_thrown env address args s port err Hp Hc Ht).
    cbv zeta. cbn [snd].
    destruct (onError_other _ b err s Hab) as [Ho Hu].
    case_match; [|done].
    match goal with
    | |- context [reconnectOSC _ ?t] =>
        by destruct (reconnectOSC_other _ b t Hab) as [-> ->]
    end.
  - by rewrite (sendOSC_ready_sent env address args s port Hp Hc Ht).
Qed.

(** The outcome of a send and the datagram it emits are decided by the
    port and the flag of the addressed device, and by the host. *)
Lemma sendOSC_depends_on_own_channel env address args s1 s2 :
  oscConnected s1 (getDeviceTypeFromAddress address)
    = oscConnected s2 (getDeviceTypeFromAddress address) ->
  oscUDPPorts s1 (getDeviceTypeFromAddress address)
    = oscUDPPorts s2 (getDeviceTypeFromAddress address) ->
  fst (sendOSC env address args s1) = fst (sendOSC env address args s2)
  /\ emitted s1 (snd (sendOSC env address args s1))
     = emitted s2 (snd (sendOSC env address args s2)).
Proof.
  intros Hc Hp. unfold emitted, sendOSC. rewrite Hc, Hp.
  destruct (oscUDPPorts s2 _) as [port|]; simpl; [|by rewrite !drop_all].
  destruct (oscConnected s2 _); simpl; [|by rewrite !drop_all].
  destruct (sendThrows env); simpl.
  - split; [done|].
    repeat case_match;
      rewrite ?(proj1 (reconnectOSC_one_frame _ _)); simpl;
      by rewrite !drop_all.
  - by rewrite !drop_app_length.
Qed.

(** C5, as stated, fails: no arity is checked.  Five arguments for
    [/hmd/pose] are sent like six, and the send succeeds. *)
Lemma sendOSC_sends_five_arguments_for_hmd :
  fst (sendOSC quiet "/hmd/pose" [num 1; num 2; num 4; num 5; num 6] ready)
    = true
  /\ map (fun d => List.length (args (message d)))
       (udpOut (snd (sendOSC quiet "/hmd/pose"
                       [num 1; num 2; num 4; num 5; num 6] ready)))
     = [5%nat].
Proof. by vm_compute. Qed.

(** C5, amended. [sendOSC] checks no arity: whether it succeeds does not
    depend on the arguments, and on a ready channel whose send does not
    throw it emits one datagram that carries as many float arguments as
    it was given, whatever their number and whatever the address. *)
Theorem sendOSC_checks_no_arity env address args s :
  (forall args',
      fst (sendOSC env address args' s) = fst (sendOSC env address args s))
  /\ (forall port,
        oscUDPPorts s (getDeviceTypeFromAddress address) = Some port ->
        oscConnected s (getDeviceTypeFromAddress address) = true ->
        sendThrows env = None ->
        exists datagram,
          fst (sendOSC env address args s) = true
          /\ udpOut (snd (sendOSC env address args s))
             = udpOut s ++ [datagram]
          /\ via datagram = port
          /\ Server.address (message datagram) = address
          /\ Server.args (message datagram) = map floatArg args
          /\ List.length (Server.args (message datagram))
             = List.length args).
Proof.
  split.
  - intros args'. unfold sendOSC.
    destruct (oscUDPPorts s _); [|done].
    destruct (oscConnected s _); [|done]. simpl.
    by destruct (sendThrows env).
  - intros port Hp Hc Ht.
    rewrite (sendOSC_ready_sent env address args s port Hp Hc Ht). simpl.
    eexists. repeat split. simpl. by rewrite length_map.
Qed.

Lemma sendOSC_checks_no_arity_witness :
  exists datagram,
    fst (sendOSC quiet "/controller0/pose" [num 1; num 2] ready) = true
    /\ udpOut (snd (sendOSC quiet "/controller0/pose" [num 1; num 2] ready))
       = udpOut ready ++ [datagram]
    /\ via datagram = mkPort OSC_TARGET_IP 7401
    /\ Server.address (message datagram) = "/controller0/pose"
    /\ Server.args (message datagram) = map floatArg [num 1; num 2]
    /\ List.length (Server.args (message datagram)) = 2%nat.
Proof.
  apply (proj2 (sendOSC_checks_no_arity quiet "/controller0/pose"
                  [num 1; num 2] ready));
    reflexivity.
Defined.

(** C8. A send failure on a device channel is reported by the state of
    that channel.  Whether the port reports the failure by an [error]
    event or [udpPort.send] fails inside [sendOSC], the device is then
    marked not connected and one reconnect of that device is scheduled, a
    fixed 5000 ms later; a send that fails when that makes more than ten
    errors also schedules [initOSCConnection] 1000 ms later.  Nothing is
    sent to a client and no datagram is emitted.  When the channel is not
    ready, [sendOSC] returns failure and leaves the whole state as it
    was: nothing is thrown and nothing is kept for later. *)
Theorem channel_failure_reporting env address args s :
  (forall deviceType err,
      oscConnected (onError deviceType err s) deviceType = false
      /\ timers (onError deviceType err s)
         = timers s ++ [mkTimer 5000 (CbReconnect deviceType)]
      /\ clientOut (onError deviceType err s) = clientOut s
      /\ udpOut (onError deviceType err s) = udpOut s)
  /\ (forall port err,
        oscUDPPorts s (getDeviceTypeFromAddress address) = Some port ->
        oscConnected s (getDeviceTypeFromAddress address) = true ->
        sendThrows env = Some err ->
        fst (sendOSC env address args s) = false
        /\ oscConnected (snd (sendOSC env address args s))
             (getDeviceTypeFromAddress address) = false
        /\ timers (snd (sendOSC env address args s))
           = timers s
             ++ mkTimer 5000 (CbReconnect (getDeviceTypeFromAddress address))
                :: (if (10 <? S (S (oscErrorCount s)))%nat
                    then [mkTimer 1000 CbInit] else [])
        /\ oscErrorCount (snd (sendOSC env address args s))
           = S (S (oscErrorCount s))
        /\ clientOut (snd (sendOSC env address args s)) = clientOut s
        /\ udpOut (snd (sendOSC env address args s)) = udpOut s)
  /\ (oscConnected s (getDeviceTypeFromAddress address) = false
      \/ oscUDPPorts s (getDeviceTypeFromAddress address) = None ->
      sendOSC env address args s = (false, s)).
Proof.
  split; [|split].
  - intros d err. by destruct (onError_same d err s) as (? & _ & ? & _ & ? & ?).
  - intros port err Hp Hc Ht.
    rewrite (sendOSC_ready_thrown env address args s port err Hp Hc Ht).
    cbv zeta. cbn [fst snd].
    destruct (onError_same (getDeviceTypeFromAddress address) err s)
      as (Hco & _ & Hti & _ & Hcl & Hud).
    destruct (10 <? S (S (oscErrorCount s)))%nat.
    + match goal with
      | |- context [reconnectOSC _ ?t] =>
          destruct (reconnectOSC_one_frame
                      (getDeviceTypeFromAddress address) t)
            as (Hu & Hcl' & He & _);
          destruct (reconnectOSC_same (getDeviceTypeFromAddress address) t)
            as (Hco' & _ & Hti')
      end.
      rewrite Hu, Hcl', He, Hco', Hti'.
      cbn [timers clientOut udpOut oscErrorCount set_lastOSCError
             set_oscErrorCount].
      rewrite Hti, Hcl, Hud, <- app_assoc. by repeat split.
    + cbn [timers clientOut udpOut oscErrorCount oscConnected
             set_lastOSCError set_oscErrorCount].
      by rewrite Hco, Hti, Hcl, Hud.
  - apply sendOSC_not_ready.
Qed.

Lemma channel_failure_reporting_witness :
  sendOSC failing "/controller1/pose" [num 1] initial = (false, initial)
  /\ fst (sendOSC failing "/hmd/pose" [num 1] ready) = false
  /\ oscConnected (snd (sendOSC failing "/hmd/pose" [num 1] ready)) HMD
     = false
  /\ timers (snd (sendOSC failing "/hmd/pose" [num 1] ready))
     = [mkTimer 5000 (CbReconnect HMD)].
Proof.
  split.
  - apply (proj2 (proj2 (channel_failure_reporting failing
                           "/controller1/pose" [num 1] initial))).
    left. reflexivity.
  - destruct (proj1 (proj2 (channel_failure_reporting failing "/hmd/pose"
                              [num 1] ready))
                (mkPort OSC_TARGET_IP 7400) "send failed"
                eq_refl eq_refl eq_refl)
      as (Hf & Hc & Ht & _).
    split; [exact Hf|]. split; [exact Hc | exact Ht].
Defined.

(** C9, as stated, fails: the error counter is shared by the devices, so
    a failure on controller 0 changes what the same later event does to
    the HMD channel.  After eight errors a send to the HMD that fails
    leaves the port of the HMD in place; after one more error, of the
    port of controller 0, the same failed send to the HMD drops the port
    of the HMD.  (The address [hmd] lacks the leading slash, which is what
    makes a send fail in the osc package; it is routed to the HMD.) *)
Lemma failure_on_controller0_changes_hmd_transition :
  oscErrorCount eightErrors = 8%nat
  /\ getDeviceTypeFromAddress "hmd" = HMD
  /\ oscUDPPorts eightErrors HMD = Some (mkPort OSC_TARGET_IP 7400)
  /\ oscUDPPorts (run (failures 1 "hmd") eightErrors) HMD
     = oscUDPPorts eightErrors HMD
  /\ oscUDPPorts
       (run (failures 1 "hmd") (run (errorsOn 1 CONTROLLER0) eightErrors))
       HMD
     = None.
Proof. by vm_compute. Qed.

(** C9, amended. For distinct devices A and B, a failure on A's channel
    (an [error] event, a [close] event, a send to A whatever its outcome,
    the reconnect of A) leaves B's connection flag and B's port as they
    were, and a following send to B has the same outcome and emits the
    same datagram as without the failure.  The claim does not extend to
    B's later transitions, which read the error counter the devices
    share. *)
Theorem failure_leaves_other_channels (a b : DeviceType) (f : Failure) s :
  a <> b -> onChannel a f ->
  oscConnected (afterFailure a f s) b = oscConnected s b
  /\ oscUDPPorts (afterFailure a f s) b = oscUDPPorts s b
  /\ (forall env address args,
        getDeviceTypeFromAddress address = b ->
        fst (sendOSC env address args (afterFailure a f s))
          = fst (sendOSC env address args s)
        /\ emitted (afterFailure a f s)
             (snd (sendOSC env address args (afterFailure a f s)))
           = emitted s (snd (sendOSC env address args s))).
Proof.
  intros Hab Hon.
  assert (H : oscConnected (afterFailure a f s) b = oscConnected s b
              /\ oscUDPPorts (afterFailure a f s) b = oscUDPPorts s b).
  { destruct f as [err| |env address args|]; simpl in *.
    - unfold onError, setTimeout. simpl. by rewrite fn_lookup_insert_ne.
    - unfold onClose. simpl. by rewrite fn_lookup_insert_ne.
    - apply sendOSC_other. by rewrite Hon.
    - by apply reconnectOSC_other. }
  destruct H as [Hc Hp]. split; [done|]. split; [done|].
  intros env address args <-. by apply sendOSC_depends_on_own_channel.
Qed.

Lemma failure_leaves_other_channels_witness :
  oscConnected
    (afterFailure CONTROLLER0 (SendTo failing "/controller0/pose" []) ready)
    HMD = oscConnected ready HMD
  /\ oscUDPPorts
       (afterFailure CONTROLLER0 (SendTo failing "/controller0/pose" [])
          ready) HMD = oscUDPPorts ready HMD
  /\ (forall env address args,
        getDeviceTypeFromAddress address = HMD ->
        fst (sendOSC env address args
               (afterFailure CONTROLLER0
                  (SendTo failing "/controller0/pose" []) ready))
          = fst (sendOSC env address args ready)
        /\ emitted
             (afterFailure CONTROLLER0
                (SendTo failing "/controller0/pose" []) ready)
             (snd (sendOSC env address args
                     (afterFailure CONTROLLER0
                        (SendTo failing "/controller0/pose" []) ready)))
           = emitted ready (snd (sendOSC env address args ready))).
Proof.
  apply (failure_leaves_other_channels CONTROLLER0 HMD
           (SendTo failing "/controller0/pose" []) ready);
    [discriminate | reflexivity].
Defined.

End ChannelManager.

(** * Properties of the capture client *)

Section Transport.

Import Client Examples.

Lemma initWebSocket_connects (s : State) (url : string) :
  SERVER_URL s = Some url -> url <> "" -> socket s = Some CLOSED ->
  initWebSocket s
    = set_connections (S (connections s)) (set_socket (Some CONNECTING) s).
Proof.
  intros Hu Hne Hs. unfold initWebSocket. rewrite Hu, Hs.
  by destruct url.
Qed.

Lemma failedRetry_once (s : State) (url : string) :
  SERVER_URL s = Some url -> url <> "" -> socket s = Some CLOSED ->
  timers s = [mkTimer 3000 CbInitWebSocket] ->
  SERVER_URL (failedRetry s) = Some url
  /\ socket (failedRetry s) = Some CLOSED
  /\ timers (failedRetry s) = [mkTimer 3000 CbInitWebSocket]
  /\ connections (failedRetry s) = S (connections s).
Proof.
  intros Hu Hne Hs Ht. unfold failedRetry, fireTimer. rewrite Ht. simpl.
  by erewrite initWebSocket_connects.
Qed.

(** After any number of failed retries the page is where it was after the
    first close: one timer pending, at 3000 ms, and one more connection
    opened per retry. *)
Lemma failedRetry_iter (n : nat) (s : State) (url : string) :
  SERVER_URL s = Some url -> url <> "" -> socket s = Some CLOSED ->
  timers s = [mkTimer 3000 CbInitWebSocket] ->
  SERVER_URL (Nat.iter n failedRetry s) = Some url
  /\ socket (Nat.iter n failedRetry s) = Some CLOSED
  /\ timers (Nat.iter n failedRetry s) = [mkTimer 3000 CbInitWebSocket]
  /\ connections (Nat.iter n failedRetry s) = (connections s + n)%nat.
Proof.
  intros Hu Hne Hs Ht. induction n as [|n (IHu & IHs & IHt & IHc)].
  - simpl. by rewrite Nat.add_0_r.
  - rewrite Nat.iter_succ.
    destruct (failedRetry_once _ url IHu Hne IHs IHt) as (-> & -> & -> & ->).
    repeat split. lia.
Qed.

(** C7, as stated, fails: the handler of a failed connection ([onerror])
    schedules nothing; only [onclose] does. *)
Lemma wsFailed_schedules_no_reconnect :
  timers (initWebSocket loaded) = []
  /\ timers (wsFailed (initWebSocket loaded)) = [].
Proof. by vm_compute. Qed.

(** C7, amended. Every close of the socket schedules exactly one
    [initWebSocket], 3000 ms later, whatever happened before: the delay
    does not grow, and after any number of failed retries one retry is
    again pending.  A failure event ([onerror]) schedules nothing by
    itself; with the close event that follows it, one retry is scheduled.
    [initWebSocket] on a socket that is open or connecting creates no
    connection. *)
Theorem reconnect_policy (s : State) :
  timers (wsClosed s) = timers s ++ [mkTimer 3000 CbInitWebSocket]
  /\ (timers (wsFailed s) = timers s
      /\ socket (wsFailed s) = socket s
      /\ connections (wsFailed s) = connections s
      /\ timers (wsClosed (wsFailed s))
         = timers s ++ [mkTimer 3000 CbInitWebSocket])
  /\ (socket s = Some OPEN \/ socket s = Some CONNECTING ->
      socket (initWebSocket s) = socket s
      /\ connections (initWebSocket s) = connections s
      /\ timers (initWebSocket s) = timers s)
  /\ (forall url n,
        SERVER_URL s = Some url -> url <> "" ->
        timers (Nat.iter n failedRetry (wsClosed (set_timers [] s)))
          = [mkTimer 3000 CbInitWebSocket]
        /\ connections (Nat.iter n failedRetry (wsClosed (set_timers [] s)))
           = (connections s + n)%nat).
Proof.
  split; [done|]. split; [done|]. split.
  - unfold initWebSocket. intros [H|H]; rewrite H;
      by destruct (SERVER_URL s) as [[|]|].
  - intros url n Hu Hne.
    by destruct (failedRetry_iter n (wsClosed (set_timers [] s)) url)
      as (_ & _ & Ht & Hc).
Qed.

Lemma reconnect_policy_witness :
  (socket (initWebSocket streaming) = socket streaming
   /\ connections (initWebSocket streaming) = connections streaming
   /\ timers (initWebSocket streaming) = timers streaming)
  /\ timers (Nat.iter 5 failedRetry (wsClosed (set_timers [] loaded)))
     = [mkTimer 3000 CbInitWebSocket]
  /\ connections (Nat.iter 5 failedRetry (wsClosed (set_timers [] loaded)))
     = 5%nat.
Proof.
  split.
  - apply (proj1 (proj2 (proj2 (reconnect_policy streaming)))).
    left. reflexivity.
  - apply (proj2 (proj2 (proj2 (reconnect_policy loaded)))
             "wss://192.168.1.104:8443" 5%nat);
      [reflexivity | discriminate].
Defined.

End Transport.

Section Angles.

Import Client Examples.

Local Open Scope Q_scope.

Lemma gt_Fin (q : Q) (z : Z) :
  gt (Fin q) (ofZ z) = true <-> inject_Z z < q.
Proof.
  unfold gt, ofZ, Qltb. rewrite negb_true_iff, <- not_true_iff_false.
  rewrite Qle_bool_iff. split; [apply Qnot_le_lt | apply Qlt_not_le].
Qed.

Lemma lt_Fin (q : Q) (z : Z) :
  lt (Fin q) (ofZ z) = true <-> q < inject_Z z.
Proof.
  unfold lt, gt, ofZ, Qltb. rewrite negb_true_iff, <- not_true_iff_false.
  rewrite Qle_bool_iff. split; [apply Qnot_le_lt | apply Qlt_not_le].
Qed.

Lemma inject_Z_succ (n : nat) :
  inject_Z (Z.of_nat (S n)) == inject_Z (Z.of_nat n) + 1.
Proof. rewrite Nat2Z.inj_succ. unfold Z.succ. by rewrite inject_Z_plus. Qed.

(** The first loop on a finite angle, given enough rounds. *)
Lemma whileAbove_Fin (fuel : nat) (q : Q) :
  q <= 180 + 360 * inject_Z (Z.of_nat fuel) ->
  exists r k,
    whileAbove fuel (Fin q) = Some (Fin r)
    /\ r <= 180
    /\ (q <= 180 -> r = q)
    /\ (180 < q -> -180 < r)
    /\ r == q - 360 * inject_Z k.
Proof.
  revert q. induction fuel as [|fuel IH]; intros q Hq.
  - cbn [whileAbove]. change (Z.of_nat 0) with 0%Z in Hq.
    destruct (gt (Fin q) (ofZ 180)) eqn:E.
    + apply gt_Fin in E. unfold inject_Z in *. exfalso. lra.
    + exists q, 0%Z. apply not_true_iff_false in E. rewrite gt_Fin in E.
      unfold inject_Z in *. repeat split; try done; lra.
  - cbn [whileAbove]. destruct (gt (Fin q) (ofZ 180)) eqn:E.
    + apply gt_Fin in E. rewrite inject_Z_succ in Hq.
      destruct (IH (q + - inject_Z 360))
        as (r & k & Hr & Hle & Hsame & Hgt & Hk).
      { unfold inject_Z in *. lra. }
      exists r, (k + 1)%Z. rewrite inject_Z_plus.
      unfold sub, ofZ, add, neg. rewrite Hr.
      unfold inject_Z in *. repeat split; try done; try lra.
      intros _. destruct (Qlt_le_dec 180 (q + - (360 # 1))) as [H|H].
      * by apply Hgt.
      * rewrite (Hsame H). lra.
    + exists q, 0%Z. apply not_true_iff_false in E. rewrite gt_Fin in E.
      unfold inject_Z in *. repeat split; try done; lra.
Qed.

(** The second loop on a finite angle, given enough rounds. *)
Lemma whileBelow_Fin (fuel : nat) (q : Q) :
  -180 - 360 * inject_Z (Z.of_nat fuel) <= q ->
  exists r k,
    whileBelow fuel (Fin q) = Some (Fin r)
    /\ -180 <= r
    /\ (-180 <= q -> r = q)
    /\ (q < -180 -> r < 180)
    /\ r == q + 360 * inject_Z k.
Proof.
  revert q. induction fuel as [|fuel IH]; intros q Hq.
  - cbn [whileBelow]. change (Z.of_nat 0) with 0%Z in Hq.
    destruct (lt (Fin q) (ofZ (-180))) eqn:E.
    + apply lt_Fin in E. unfold inject_Z in *. exfalso. lra.
    + exists q, 0%Z. apply not_true_iff_false in E. rewrite lt_Fin in E.
      unfold inject_Z in *. repeat split; try done; lra.
  - cbn [whileBelow]. destruct (lt (Fin q) (ofZ (-180))) eqn:E.
    + apply lt_Fin in E. rewrite inject_Z_succ in Hq.
      destruct (IH (q + inject_Z 360)) as (r & k & Hr & Hle & Hsame & Hlt & Hk).
      { unfold inject_Z in *. lra. }
      exists r, (k + 1)%Z. rewrite inject_Z_plus.
      unfold ofZ, add. rewrite Hr.
      unfold inject_Z in *. repeat split; try done; try lra.
      intros _. destruct (Qlt_le_dec (q + (360 # 1)) (-180)) as [H|H].
      * by apply Hlt.
      * rewrite (Hsame H). lra.
    + exists q, 0%Z. apply not_true_iff_false in E. rewrite lt_Fin in E.
      unfold inject_Z in *. repeat split; try done; lra.
Qed.

Lemma roundsFor_enough (q : Q) :
  Qabs q <= inject_Z (Z.of_nat (roundsFor (Fin q))).
Proof.
  unfold roundsFor.
  pose proof (Qle_ceiling (Qabs q)) as Hc.
  pose proof (Qabs_nonneg q) as H0.
  rewrite Z2Nat.id; [done|].
  rewrite Zle_Qle. unfold inject_Z in *. lra.
Qed.

(** [normalizeAngle] returns on every finite angle, with a result in the
    closed range that differs from the angle by whole turns. *)
Lemma normalizeAngle_Fin (q : Q) :
  exists r k,
    normalizeAngle (Fin q) = Some (Fin r)
    /\ -180 <= r <= 180
    /\ r == q + 360 * inject_Z k.
Proof.
  pose proof (roundsFor_enough q) as Hf.
  apply Qabs_Qle_condition in Hf as [Hlo Hhi].
  assert (H0 : 0 <= inject_Z (Z.of_nat (roundsFor (Fin q)))).
  { change 0 with (inject_Z 0). rewrite <- Zle_Qle. lia. }
  destruct (whileAbove_Fin (roundsFor (Fin q)) q)
    as (r1 & k1 & Hr1 & Hle1 & Hsame1 & Hgt1 & Hk1); [lra|].
  destruct (whileBelow_Fin (roundsFor (Fin q)) r1)
    as (r2 & k2 & Hr2 & Hle2 & Hsame2 & Hlt2 & Hk2).
  { destruct (Qlt_le_dec 180 q) as [H|H].
    - specialize (Hgt1 H). lra.
    - rewrite (Hsame1 H). lra. }
  exists r2, (k2 - k1)%Z.
  unfold normalizeAngle, normalizeAngleFuel. rewrite Hr1. simpl.
  split; [exact Hr2|]. split.
  - split; [done|]. destruct (Qlt_le_dec r1 (-180)) as [H|H].
    + specialize (Hlt2 H). lra.
    + rewrite (Hsame2 H). lra.
  - unfold Zminus. rewrite inject_Z_plus, inject_Z_opp. lra.
Qed.

(** More rounds do not change the result of a loop that has left. *)
Lemma whileAbove_mono (fuel fuel' : nat) (a r : JSNumber) :
  (fuel <= fuel')%nat ->
  whileAbove fuel a = Some r -> whileAbove fuel' a = Some r.
Proof.
  revert fuel' a. induction fuel as [|fuel IH]; intros fuel' a Hle;
    destruct fuel' as [|fuel']; cbn [whileAbove];
    destruct (gt a (ofZ 180)); try done; try lia.
  apply IH. lia.
Qed.

Lemma whileBelow_mono (fuel fuel' : nat) (a r : JSNumber) :
  (fuel <= fuel')%nat ->
  whileBelow fuel a = Some r -> whileBelow fuel' a = Some r.
Proof.
  revert fuel' a. induction fuel as [|fuel IH]; intros fuel' a Hle;
    destruct fuel' as [|fuel']; cbn [whileBelow];
    destruct (lt a (ofZ (-180))); try done; try lia.
  apply IH. lia.
Qed.

Lemma normalizeAngleFuel_mono (fuel fuel' : nat) (a r : JSNumber) :
  (fuel <= fuel')%nat ->
  normalizeAngleFuel fuel a = Some r -> normalizeAngleFuel fuel' a = Some r.
Proof.
  intros Hle. unfold normalizeAngleFuel.
  destruct (whileAbove fuel a) as [a1|] eqn:E; [|done]. simpl.
  rewrite (whileAbove_mono fuel fuel' a a1 Hle E). simpl.
  by apply whileBelow_mono.
Qed.

(** On an infinity one of the loops never leaves. *)
Lemma whileAbove_PInf (fuel : nat) : whileAbove fuel PInf = None.
Proof. induction fuel; [done|]. cbn [whileAbove]. by simpl. Qed.

Lemma whileBelow_NInf (fuel : nat) : whileBelow fuel NInf = None.
Proof. induction fuel; [done|]. cbn [whileBelow]. by simpl. Qed.

Lemma normalizeAngleFuel_infinite (fuel : nat) :
  normalizeAngleFuel fuel PInf = None /\ normalizeAngleFuel fuel NInf = None.
Proof.
  unfold normalizeAngleFuel. rewrite whileAbove_PInf. split; [done|].
  destruct fuel; simpl; [done|]. apply (whileBelow_NInf (S fuel)).
Qed.

(** The rounds [normalizeAngle] allows are enough: whatever a run with
    any fuel returns, [normalizeAngle] returns, so that its [None] is a
    call that never returns. *)
Lemma normalizeAngle_adequate (fuel : nat) (a r : JSNumber) :
  normalizeAngleFuel fuel a = Some r -> normalizeAngle a = Some r.
Proof.
  destruct a as [| | |q].
  - destruct fuel; by vm_compute.
  - by rewrite (proj1 (normalizeAngleFuel_infinite fuel)).
  - by rewrite (proj2 (normalizeAngleFuel_infinite fuel)).
  - intros H. destruct (normalizeAngle_Fin q) as (r' & k & Hr' & _).
    unfold normalizeAngle in *.
    pose proof (normalizeAngleFuel_mono _ (Nat.max fuel (roundsFor (Fin q)))
                  _ _ (Nat.le_max_l _ _) H) as H1.
    pose proof (normalizeAngleFuel_mono _ (Nat.max fuel (roundsFor (Fin q)))
                  _ _ (Nat.le_max_r _ _) Hr') as H2.
    congruence.
Qed.

(** What [normalizeAngle] can return: NaN for NaN, a finite angle of the
    closed range otherwise. *)
Lemma normalizeAngle_result (a b : JSNumber) :
  normalizeAngle a = Some b ->
  (a = NaN /\ b = NaN) \/ exists r, b = Fin r /\ -180 <= r <= 180.
Proof.
  destruct a as [| | |q]; intros H.
  - left. by injection H as <-.
  - by vm_compute in H.
  - by vm_compute in H.
  - right. destruct (normalizeAngle_Fin q) as (r & k & Hr & Hrange & _).
    exists r. split; [congruence|done].
Qed.

(** A normalised angle after [Number(_) || 0]. *)
Lemma orZero_normalized (a b : JSNumber) :
  normalizeAngle a = Some b ->
  exists r, orZero b = Fin r /\ -180 <= r <= 180.
Proof.
  intros H. apply normalizeAngle_result in H as [[_ ->]|(r & -> & Hr)].
  - exists 0. split; [done|]. lra.
  - simpl. destruct (Qeq_bool r 0).
    + exists 0. split; [done|]. lra.
    + by exists r.
Qed.

Lemma normalizeAngle_returns (a : JSNumber) :
  isNaN a = true \/ isFinite a = true -> exists b, normalizeAngle a = Some b.
Proof.
  destruct a as [| | |q]; intros [H|H]; try discriminate.
  - by exists NaN.
  - destruct (normalizeAngle_Fin q) as (r & k & Hr & _). eauto.
Qed.

Section Publishing.

Variable setFromQuaternion : Quat -> Euler.
Variable radToDeg : JSNumber -> JSNumber.

Abbreviation sendOSCData := (sendOSCData setFromQuaternion radToDeg).
Abbreviation eulerDegrees :=
  (quaternionToEulerDegrees setFromQuaternion radToDeg).

(** [sendOSCData] on an open socket, when it returns: one message, built
    from the three normalised angles. *)
Lemma sendOSCData_open address position orientation btnPressed s s' :
  socketOpen s = true ->
  sendOSCData address position orientation btnPressed s = Some s' ->
  exists y p r,
    normalizeAngle (yaw (eulerDegrees orientation)) = Some y
    /\ normalizeAngle (pitch (eulerDegrees orientation)) = Some p
    /\ normalizeAngle (roll (eulerDegrees orientation)) = Some r
    /\ s' =
         set_wire
           (wire s
            ++ [mkWire address
                  ([orZero (vx position); orZero (vy position);
                    orZero (vz position); orZero y; orZero p; orZero r]
                   ++ (if String.prefix "/controller" address
                       then [if btnPressed then ofZ 1 else ofZ 0]
                       else []))]) s.
Proof.
  intros Ho. unfold Client.sendOSCData. rewrite Ho. cbv zeta. cbn [negb].
  destruct (normalizeAngle (yaw (eulerDegrees orientation))) as [y|];
    [|done].
  destruct (normalizeAngle (pitch (eulerDegrees orientation))) as [p|];
    [|done].
  destruct (normalizeAngle (roll (eulerDegrees orientation))) as [r|];
    [|done].
  cbn [mbind option_bind]. intros [= <-]. exists y, p, r. repeat split.
  by destruct (String.prefix "/controller" address).
Qed.

Lemma sendOSCData_closed address position orientation btnPressed s :
  socketOpen s = false ->
  sendOSCData address position orientation btnPressed s = Some s.
Proof. intros Ho. unfold Client.sendOSCData. by rewrite Ho. Qed.

(** [sendOSCData] returns whenever no Euler angle is infinite. *)
Lemma sendOSCData_returns address position orientation btnPressed s :
  (forall angle,
      In angle [yaw (eulerDegrees orientation);
                pitch (eulerDegrees orientation);
                roll (eulerDegrees orientation)] ->
      isNaN angle = true \/ isFinite angle = true) ->
  exists s', sendOSCData address position orientation btnPressed s = Some s'.
Proof.
  intros H. unfold Client.sendOSCData. cbv zeta.
  destruct (socketOpen s); cbn [negb]; [|eauto].
  destruct (normalizeAngle_returns (yaw (eulerDegrees orientation)))
    as [y ->]; [apply H; simpl; auto|].
  destruct (normalizeAngle_returns (pitch (eulerDegrees orientation)))
    as [p ->]; [apply H; simpl; auto|].
  destruct (normalizeAngle_returns (roll (eulerDegrees orientation)))
    as [r ->]; [apply H; simpl; auto|].
  simpl. eauto.
Qed.

End Publishing.

(** C2, as stated, fails at the lower end of the range: -180 is returned
    as it is, and is published, although it is not above -180. *)
Lemma normalizeAngle_keeps_minus_180 :
  normalizeAngle (ofZ (-180)) = Some (ofZ (-180))
  /\ gt (ofZ (-180)) (ofZ (-180)) = false
  /\ fmap (fun s => map args (wire s))
       (sendOSCData eulerOf degrees "/hmd/pose" zeroVec halfTurn false
          immersive)
     = Some [[ofZ 0; ofZ 0; ofZ 0; ofZ (-180); ofZ 0; ofZ 0]].
Proof. by vm_compute. Qed.

(** C2, amended. For every finite angle [normalizeAngle] returns an angle
    of the closed range from -180 to 180 that differs from it by whole
    turns (-180 itself is kept); for 270 it returns -90.  Every message
    [sendOSCData] sends carries a yaw, a pitch and a roll of that closed
    range, and it sends one whenever the socket is open and no Euler
    angle is infinite. *)
Theorem normalizeAngle_closed_range :
  (forall q : Q,
      exists r k,
        normalizeAngle (Fin q) = Some (Fin r)
        /\ -180 <= r <= 180
        /\ r == q + 360 * inject_Z k)
  /\ normalizeAngle (ofZ 270) = Some (ofZ (-90))
  /\ (forall setFromQuaternion radToDeg address position orientation
             btnPressed s s',
        socketOpen s = true ->
        sendOSCData setFromQuaternion radToDeg address position orientation
          btnPressed s = Some s' ->
        exists message y p r,
          wire s' = (wire s ++ [message])%list
          /\ Client.address message = address
          /\ args message !! 3%nat = Some (Fin y)
          /\ args message !! 4%nat = Some (Fin p)
          /\ args message !! 5%nat = Some (Fin r)
          /\ -180 <= y <= 180 /\ -180 <= p <= 180 /\ -180 <= r <= 180)
  /\ (forall setFromQuaternion radToDeg address position orientation
             btnPressed s,
        (forall angle,
            In angle
              [yaw (quaternionToEulerDegrees setFromQuaternion radToDeg
                      orientation);
               pitch (quaternionToEulerDegrees setFromQuaternion radToDeg
                        orientation);
               roll (quaternionToEulerDegrees setFromQuaternion radToDeg
                       orientation)] ->
            isNaN angle = true \/ isFinite angle = true) ->
        exists s',
          sendOSCData setFromQuaternion radToDeg address position
            orientation btnPressed s = Some s').
Proof.
  split; [exact normalizeAngle_Fin|]. split; [by vm_compute|]. split.
  - intros sfq rtd address position orientation btn s s' Ho Hs.
    apply sendOSCData_open in Hs as (y & p & r & Hy & Hp & Hr & ->); [|done].
    apply orZero_normalized in Hy as (y' & Hy & Hyr).
    apply orZero_normalized in Hp as (p' & Hp & Hpr).
    apply orZero_normalized in Hr as (r' & Hr & Hrr).
    eexists _, y', p', r'. split; [reflexivity|]. simpl.
    rewrite Hy, Hp, Hr. repeat split; lra.
  - intros. by apply sendOSCData_returns.
Qed.

Lemma normalizeAngle_closed_range_witness :
  exists message y p r,
    wire (set_wire [mkWire "/hmd/pose"
                      [ofZ 0; ofZ 0; ofZ 0; ofZ (-180); ofZ 0; ofZ 0]]
            immersive)
      = (wire immersive ++ [message])%list
    /\ Client.address message = "/hmd/pose"
    /\ args message !! 3%nat = Some (Fin y)
    /\ args message !! 4%nat = Some (Fin p)
    /\ args message !! 5%nat = Some (Fin r)
    /\ -180 <= y <= 180 /\ -180 <= p <= 180 /\ -180 <= r <= 180.
Proof.
  apply (proj1 (proj2 (proj2 normalizeAngle_closed_range))
           eulerOf degrees "/hmd/pose" zeroVec halfTurn false immersive);
    by vm_compute.
Defined.

End Angles.

Section Sampling.

Import Client Examples.

Variable setFromQuaternion : Quat -> Euler.
Variable radToDeg : JSNumber -> JSNumber.

Abbreviation updateDisplay := (updateDisplay radToDeg).
Abbreviation showAbsent := (showAbsent radToDeg).
Abbreviation hideLoop := (hideLoop radToDeg).
Abbreviation sendOSCData := (sendOSCData setFromQuaternion radToDeg).
Abbreviation renderHMD := (renderHMD setFromQuaternion radToDeg).
Abbreviation renderController :=
  (renderController setFromQuaternion radToDeg).
Abbreviation controllersLoop := (controllersLoop setFromQuaternion radToDeg).
Abbreviation renderXRFrame := (renderXRFrame setFromQuaternion radToDeg).
Abbreviation runFrames := (runFrames setFromQuaternion radToDeg).
Abbreviation absentRow := (absentRow radToDeg).

Lemma gateOf_socketOpen (s s' : State) :
  gateOf s' = gateOf s -> socketOpen s' = socketOpen s.
Proof. unfold gateOf, socketOpen. by intros [= _ -> _ _ _]. Qed.

Lemma gateOf_markers (s s' : State) :
  gateOf s' = gateOf s ->
  List.length (controllerMarkers s') = List.length (controllerMarkers s).
Proof. unfold gateOf. by intros [= _ _ _ _ ->]. Qed.

(** A display update touches the panel only. *)
Lemma updateDisplay_keeps id p euler btnPressed s :
  gateOf (updateDisplay id p euler btnPressed s) = gateOf s
  /\ wire (updateDisplay id p euler btnPressed s) = wire s.
Proof. by destruct id as [|[|[|]]]. Qed.

Lemma updateDisplay_row (i j : nat) p euler btnPressed s :
  i <> j ->
  controllerRow j (updateDisplay (IdCtrl i) p euler btnPressed s)
    = controllerRow j s.
Proof. by destruct i as [|[|]], j as [|[|]]. Qed.

Lemma updateDisplay_hmd_row (j : nat) p euler btnPressed s :
  controllerRow j (updateDisplay IdHmd p euler btnPressed s)
    = controllerRow j s.
Proof. by destruct j as [|[|]]. Qed.

Lemma setMarker_keeps i f s :
  gateOf (setMarker i f s) = gateOf s
  /\ wire (setMarker i f s) = wire s
  /\ (forall j, controllerRow j (setMarker i f s) = controllerRow j s).
Proof.
  unfold gateOf, setMarker. simpl. rewrite length_alter.
  repeat split.
Qed.

(** What [showAbsent] leaves and what it shows. *)
Lemma showAbsent_keeps i s :
  gateOf (showAbsent i s) = gateOf s
  /\ wire (showAbsent i s) = wire s
  /\ (forall j, i <> j -> controllerRow j (showAbsent i s) = controllerRow j s)
  /\ ((i < 2)%nat -> controllerRow i (showAbsent i s) = Some absentRow).
Proof.
  unfold Client.showAbsent.
  destruct (setMarker_keeps i hideMarker s) as (Hg & Hw & Hr).
  destruct (updateDisplay_keeps (IdCtrl i) zeroVec newEuler false
              (setMarker i hideMarker s)) as (Hg' & Hw').
  rewrite Hg', Hw', Hg, Hw. repeat split.
  - intros j Hij. by rewrite updateDisplay_row, Hr.
  - intros Hi. destruct i as [|[|]]; [done|done|lia].
Qed.

(** [sendOSCData], when it returns, appended at most the one message. *)
Lemma sendOSCData_keeps address position orientation btnPressed s s' :
  sendOSCData address position orientation btnPressed s = Some s' ->
  gateOf s' = gateOf s
  /\ (forall j, controllerRow j s' = controllerRow j s)
  /\ exists new,
       wire s' = wire s ++ new
       /\ map Client.address new = if socketOpen s then [address] else [].
Proof.
  destruct (socketOpen s) eqn:Ho.
  - intros H. apply sendOSCData_open in H as (y & p & r & _ & _ & _ & ->);
      [|done].
    repeat split. eexists. split; reflexivity.
  - rewrite sendOSCData_closed by done. intros [= <-].
    repeat split. exists []. by rewrite app_nil_r.
Qed.

Lemma renderHMD_sends send frame s s' :
  renderHMD send frame s = Some s' ->
  gateOf s' = gateOf s
  /\ (forall j, controllerRow j s' = controllerRow j s)
  /\ exists new,
       wire s' = wire s ++ new
       /\ map Client.address new
          = if send && socketOpen s
            then match viewerPose frame with
                 | Some _ => ["/hmd/pose"]
                 | None => []
                 end
            else [].
Proof.
  unfold Client.renderHMD. destruct (viewerPose frame) as [pose|].
  - cbv zeta. remember (set_hmdMarker _ s) as s1 eqn:Es1.
    assert (Hs1 : gateOf s1 = gateOf s /\ wire s1 = wire s
                  /\ forall j, controllerRow j s1 = controllerRow j s)
      by (subst s1; repeat split).
    clear Es1. destruct Hs1 as (Hg1 & Hw1 & Hr1).
    destruct (updateDisplay_keeps IdHmd (pos pose)
                (setFromQuaternion (quat pose)) false s1) as (Hg & Hw).
    destruct send; cbn [andb].
    + intros H. apply sendOSCData_keeps in H as (Hg' & Hr' & new & Hn & Ha).
      rewrite (gateOf_socketOpen _ _ Hg), (gateOf_socketOpen _ _ Hg1) in Ha.
      rewrite Hg', Hg, Hg1. split; [done|]. split.
      * intros j. by rewrite Hr', updateDisplay_hmd_row.
      * exists new. by rewrite Hn, Hw, Hw1.
    + intros H; apply (inj Some) in H; subst s'.
      rewrite Hg, Hw, Hg1, Hw1. split; [done|]. split.
      * intros j. by rewrite updateDisplay_hmd_row.
      * exists []. by rewrite app_nil_r.
  - intros H; apply (inj Some) in H; subst s'. repeat split.
    exists []. rewrite app_nil_r.
    by destruct (send && socketOpen s).
Qed.

Lemma renderController_sends send i source s s' :
  renderController send i source s = Some s' ->
  gateOf s' = gateOf s
  /\ (forall j, i <> j -> controllerRow j s' = controllerRow j s)
  /\ (hasGrip source = false ->
      (i < List.length (controllerMarkers s))%nat -> (i < 2)%nat ->
      controllerRow i s' = Some absentRow)
  /\ exists new,
       wire s' = wire s ++ new
       /\ map Client.address new
          = if send && socketOpen s
            then if (i <? List.length (controllerMarkers s))%nat
                    && hasGrip source
                 then [controllerAddress i] else []
            else [].
Proof.
  unfold Client.renderController, hasGrip.
  destruct (Nat.leb_spec (List.length (controllerMarkers s)) i) as [Hle|Hlt].
  { intros H; apply (inj Some) in H; subst s'.
    rewrite (proj2 (Nat.ltb_ge _ _) Hle).
    repeat split; try lia. exists []. rewrite app_nil_r.
    by destruct (send && socketOpen s). }
  apply Nat.ltb_lt in Hlt as Hlt'. rewrite Hlt'. cbn [andb].
  destruct (grip source) as [[gripPose|]|].
  - cbv zeta.
    destruct (setMarker_keeps i (fun _ => mkMarker (pos gripPose)
                (quat gripPose) true) s) as (Hg1 & Hw1 & Hr1).
    remember (setMarker i _ s) as s1 eqn:Es1. clear Es1.
    destruct (updateDisplay_keeps (IdCtrl i) (pos gripPose)
                (setFromQuaternion (quat gripPose)) (anyPressed source) s1)
      as (Hg2 & Hw2).
    destruct send; cbn [andb].
    + intros H. apply sendOSCData_keeps in H as (Hg' & Hr' & new & Hn & Ha).
      rewrite (gateOf_socketOpen _ _ Hg2), (gateOf_socketOpen _ _ Hg1) in Ha.
      rewrite Hg', Hg2, Hg1. split; [done|]. split; [|split; [done|]].
      * intros j Hij. by rewrite Hr', updateDisplay_row, Hr1.
      * exists new. by rewrite Hn, Hw2, Hw1.
    + intros H; apply (inj Some) in H; subst s'. rewrite Hg2, Hg1, Hw2, Hw1.
      split; [done|]. split; [|split; [done|]].
      * intros j Hij. by rewrite updateDisplay_row, Hr1.
      * exists []. by rewrite app_nil_r.
  - intros H; apply (inj Some) in H; subst s'.
    destruct (showAbsent_keeps i s) as (Hg & Hw & Hr & Ha).
    rewrite Hg, Hw. repeat split; try done.
    exists []. rewrite app_nil_r. by destruct (send && socketOpen s).
  - intros H; apply (inj Some) in H; subst s'.
    destruct (showAbsent_keeps i s) as (Hg & Hw & Hr & Ha).
    rewrite Hg, Hw. repeat split; try done.
    exists []. rewrite app_nil_r. by destruct (send && socketOpen s).
Qed.

Lemma controllersLoop_sends send sources : forall i s s',
  controllersLoop send i sources s = Some s' ->
  gateOf s' = gateOf s
  /\ (forall j, (j < i)%nat -> controllerRow j s' = controllerRow j s)
  /\ (forall k source,
        sources !! k = Some source -> hasGrip source = false ->
        (i + k < 2)%nat -> (i + k < List.length (controllerMarkers s))%nat ->
        controllerRow (i + k) s' = Some absentRow)
  /\ exists new,
       wire s' = wire s ++ new
       /\ map Client.address new
          = if send && socketOpen s
            then controllerAddresses i (List.length (controllerMarkers s))
                   sources
            else [].
Proof.
  induction sources as [|source rest IH]; intros i s s';
    cbn [Client.controllersLoop controllerAddresses].
  - intros H; apply (inj Some) in H; subst s'. repeat split; try done.
    exists []. rewrite app_nil_r. by destruct (send && socketOpen s).
  - destruct (Nat.ltb_spec i 2) as [Hi|Hi].
    + destruct (renderController send i source s) as [s1|] eqn:E1; [|done].
      cbn [mbind option_bind]. intros H.
      apply renderController_sends in E1
        as (Hg1 & Hr1 & Ha1 & new1 & Hn1 & Hm1).
      apply IH in H as (Hg2 & Hr2 & Ha2 & new2 & Hn2 & Hm2).
      rewrite (gateOf_socketOpen _ _ Hg1), (gateOf_markers _ _ Hg1) in Hm2.
      rewrite (gateOf_markers _ _ Hg1) in Ha2.
      split; [by rewrite Hg2|]. split; [|split].
      * intros j Hj. rewrite Hr2 by lia. apply Hr1. lia.
      * intros [|k] src Hk Hgrip H2 Hm.
        -- injection Hk as ->. rewrite Nat.add_0_r in *.
           rewrite Hr2 by lia. by apply Ha1.
        -- replace (i + S k)%nat with (S i + k)%nat in * by lia.
           by apply (Ha2 k src).
      * exists (new1 ++ new2). rewrite Hn2, Hn1, map_app, Hm1, Hm2.
        split; [by rewrite app_assoc|].
        by destruct (send && socketOpen s).
    + intros H; apply (inj Some) in H; subst s'. repeat split; try done.
      * intros; lia.
      * exists []. rewrite app_nil_r. by destruct (send && socketOpen s).
Qed.

Lemma hideLoop_keeps n : forall i s,
  gateOf (hideLoop n i s) = gateOf s
  /\ wire (hideLoop n i s) = wire s
  /\ (forall j, (j < i)%nat ->
                controllerRow j (hideLoop n i s) = controllerRow j s)
  /\ (forall j, (i <= j < i + n)%nat -> (j < 2)%nat ->
                controllerRow j (hideLoop n i s) = Some absentRow).
Proof.
  induction n as [|n IH]; intros i s; cbn [Client.hideLoop].
  - repeat split; try done. intros; lia.
  - destruct (IH (S i) (showAbsent i s)) as (Hg & Hw & Hr & Ha).
    destruct (showAbsent_keeps i s) as (Hg' & Hw' & Hr' & Ha').
    rewrite Hg, Hw, Hg', Hw'. repeat split.
    + intros j Hj. rewrite Hr by lia. apply Hr'. lia.
    + intros j Hj H2. destruct (decide (j = i)) as [->|Hne].
      * rewrite Hr by lia. by apply Ha'.
      * apply Ha; lia.
Qed.

Lemma shouldSendOSC_true (t : Z) (s : State) :
  shouldSendOSC t s = true <->
  oscEnabled s = true /\ socketOpen s = true
  /\ (lastOSCSendTime s + OSC_SEND_INTERVAL <= t)%Z.
Proof.
  unfold shouldSendOSC. rewrite !andb_true_iff, Z.leb_le.
  split; intros H; repeat split; try tauto; lia.
Qed.

(** One frame: what the gate reads is kept except for the time stamp,
    which moves exactly when the gate is open; the messages sent are the
    expected ones. *)
Lemma renderXRFrame_sends frame s s' :
  renderXRFrame frame s = Some s' ->
  oscEnabled s' = oscEnabled s
  /\ socket s' = socket s
  /\ xrSession s' = xrSession s
  /\ lastOSCSendTime s'
     = (if gateOpen frame s then currentTime frame else lastOSCSendTime s)
  /\ wire s' = wire s ++ sentBy s s'
  /\ map Client.address (sentBy s s') = frameAddresses frame s.
Proof.
  unfold Client.renderXRFrame, frameAddresses, gateOpen, sentBy.
  destruct (xrSession s) eqn:Hx; cbn [negb andb].
  2:{ intros H; apply (inj Some) in H; subst s'.
      rewrite drop_all, app_nil_r. by repeat split. }
  destruct (referenceSpace frame); cbn [negb andb].
  2:{ intros H; apply (inj Some) in H; subst s'.
      rewrite drop_all, app_nil_r. by repeat split. }
  cbv zeta.
  destruct (renderHMD _ frame s) as [s1|] eqn:E1; [|done].
  cbn [mbind option_bind].
  destruct (controllersLoop _ 0 (inputSources frame) s1) as [s2|] eqn:E2;
    [|done].
  cbn [mbind option_bind]. intros H; apply (inj Some) in H.
  apply renderHMD_sends in E1 as (Hg1 & _ & new1 & Hn1 & Hm1).
  apply controllersLoop_sends in E2 as (Hg2 & _ & _ & new2 & Hn2 & Hm2).
  rewrite (gateOf_socketOpen _ _ Hg1), (gateOf_markers _ _ Hg1) in Hm2.
  destruct (hideLoop_keeps
              (List.length (controllerMarkers s2)
               - List.length (inputSources frame))
              (List.length (inputSources frame)) s2) as (Hg3 & Hw3 & _).
  assert (Hg : gateOf (hideLoop
              (List.length (controllerMarkers s2)
               - List.length (inputSources frame))
              (List.length (inputSources frame)) s2) = gateOf s)
    by (by rewrite Hg3, Hg2, Hg1).
  assert (Hw : wire s' = wire s ++ (new1 ++ new2)).
  { subst s'. destruct (shouldSendOSC _ s); simpl;
      by rewrite Hw3, Hn2, Hn1, app_assoc. }
  rewrite Hw, drop_app_length, map_app, Hm1, Hm2.
  unfold gateOf in Hg. injection Hg as Ho Hs Hxs Hl _.
  assert (Hopen : shouldSendOSC (currentTime frame) s = true ->
                  socketOpen s = true)
    by (intros Ht; by apply shouldSendOSC_true in Ht as (_ & Ht & _)).
  subst s'. destruct (shouldSendOSC (currentTime frame) s);
    [rewrite Hopen by done|]; simpl; by rewrite ?Ho, ?Hs, ?Hxs, ?Hl.
Qed.

Abbreviation sampleHMD := (sampleHMD setFromQuaternion radToDeg).
Abbreviation sampleController := (sampleController setFromQuaternion radToDeg).
Abbreviation dataSampleTick := (dataSampleTick setFromQuaternion radToDeg).

Lemma sampleHMD_sends s s' :
  sampleHMD s = Some s' ->
  gateOf s' = gateOf s
  /\ exists new,
       wire s' = wire s ++ new
       /\ map Client.address new
          = if oscEnabled s && socketOpen s
            then match hmdMarker s with
                 | Some _ => ["/hmd/pose"]
                 | None => []
                 end
            else [].
Proof.
  unfold Client.sampleHMD, getCurrentHMDPose.
  destruct (hmdMarker s) as [m|]; cbn [fmap option_fmap option_map].
  2:{ intros H; apply (inj Some) in H; subst s'. split; [done|].
      exists []. rewrite app_nil_r.
      by destruct (oscEnabled s && socketOpen s). }
  cbv zeta.
  match goal with
  | |- context [Client.updateDisplay _ ?i ?p ?e ?b s] =>
      destruct (updateDisplay_keeps i p e b s) as (Hg & Hw);
      remember (Client.updateDisplay radToDeg i p e b s) as s1 eqn:Es1
  end.
  clear Es1.
  assert (Ho : oscEnabled s1 = oscEnabled s) by (by injection Hg).
  rewrite Ho, (gateOf_socketOpen _ _ Hg).
  destruct (oscEnabled s && socketOpen s) eqn:E.
  - intros H. apply sendOSCData_keeps in H as (Hg' & _ & new & Hn & Ha).
    rewrite (gateOf_socketOpen _ _ Hg) in Ha.
    apply andb_true_iff in E as [_ E]. rewrite E in Ha.
    split; [by rewrite Hg'|]. exists new. by rewrite Hn, Hw.
  - intros H; apply (inj Some) in H; subst s'. split; [done|].
    exists []. by rewrite app_nil_r.
Qed.

Lemma sampleController_sends i s s' :
  sampleController i s = Some s' ->
  gateOf s' = gateOf s
  /\ exists new,
       wire s' = wire s ++ new
       /\ map Client.address new
          = if oscEnabled s && socketOpen s
            then if (i <? List.length (controllerMarkers s))%nat
                 then [controllerAddress i] else []
            else [].
Proof.
  unfold Client.sampleController, getCurrentControllerPose.
  destruct (controllerMarkers s !! i) as [m|] eqn:Em;
    cbn [fmap option_fmap option_map].
  2:{ apply lookup_ge_None in Em. rewrite (proj2 (Nat.ltb_ge _ _) Em).
      intros H; apply (inj Some) in H; subst s'. split; [done|].
      exists []. rewrite app_nil_r.
      by destruct (oscEnabled s && socketOpen s). }
  apply lookup_lt_Some in Em. rewrite (proj2 (Nat.ltb_lt _ _) Em).
  cbv zeta.
  match goal with
  | |- context [Client.updateDisplay _ ?j ?p ?e ?b s] =>
      destruct (updateDisplay_keeps j p e b s) as (Hg & Hw);
      remember (Client.updateDisplay radToDeg j p e b s) as s1 eqn:Es1
  end.
  clear Es1.
  assert (Ho : oscEnabled s1 = oscEnabled s) by (by injection Hg).
  rewrite Ho, (gateOf_socketOpen _ _ Hg).
  destruct (oscEnabled s && socketOpen s) eqn:E.
  - intros H. apply sendOSCData_keeps in H as (Hg' & _ & new & Hn & Ha).
    rewrite (gateOf_socketOpen _ _ Hg) in Ha.
    apply andb_true_iff in E as [_ E]. rewrite E in Ha.
    split; [by rewrite Hg'|]. exists new. by rewrite Hn, Hw.
  - intros H; apply (inj Some) in H; subst s'. split; [done|].
    exists []. by rewrite app_nil_r.
Qed.

(** One timer tick outside a session: the time stamp of the gate is
    neither read nor written, and the messages are the expected ones. *)
Lemma dataSampleTick_sends isPresenting s s' :
  dataSampleTick isPresenting s = Some s' ->
  xrSession s && isPresenting = false ->
  lastOSCSendTime s' = lastOSCSendTime s
  /\ wire s' = wire s ++ sentBy s s'
  /\ map Client.address (sentBy s s') = tickAddresses s.
Proof.
  unfold Client.dataSampleTick, tickAddresses, sentBy. intros H Hx.
  rewrite Hx in H.
  destruct (sampleHMD s) as [s1|] eqn:E1; [|done].
  cbn [mbind option_bind] in H.
  destruct (sampleController 0 s1) as [s2|] eqn:E2; [|done].
  cbn [mbind option_bind] in H.
  apply sampleHMD_sends in E1 as (Hg1 & new1 & Hn1 & Hm1).
  apply sampleController_sends in E2 as (Hg2 & new2 & Hn2 & Hm2).
  apply sampleController_sends in H as (Hg3 & new3 & Hn3 & Hm3).
  assert (Ho1 : oscEnabled s1 = oscEnabled s) by (by injection Hg1).
  assert (Ho2 : oscEnabled s2 = oscEnabled s1) by (by injection Hg2).
  rewrite Ho2, (gateOf_socketOpen _ _ Hg2), (gateOf_markers _ _ Hg2),
    Ho1, (gateOf_socketOpen _ _ Hg1), (gateOf_markers _ _ Hg1) in Hm3.
  rewrite Ho1, (gateOf_socketOpen _ _ Hg1), (gateOf_markers _ _ Hg1) in Hm2.
  assert (Hw : wire s' = wire s ++ (new1 ++ new2 ++ new3))
    by (by rewrite Hn3, Hn2, Hn1, <- !app_assoc).
  rewrite Hw, drop_app_length, !map_app, Hm1, Hm2, Hm3.
  split.
  - assert (Hl : gateOf s' = gateOf s) by (by rewrite Hg3, Hg2, Hg1).
    by injection Hl.
  - split; [done|]. by destruct (oscEnabled s && socketOpen s).
Qed.

(** *** The samplers return

    When the host's conversion yields no infinite angle, every callback
    returns. *)

Section Returning.

Hypothesis Hangles : noInfiniteAngle setFromQuaternion radToDeg.

Lemma renderController_returns send i source s :
  exists s', renderController send i source s = Some s'.
Proof.
  unfold Client.renderController.
  destruct (_ <=? _)%nat; [eauto|].
  destruct (grip source) as [[gripPose|]|]; [|eauto|eauto].
  cbv zeta. destruct send; [|eauto].
  apply sendOSCData_returns, Hangles.
Qed.

Lemma controllersLoop_returns send sources : forall i s,
  exists s', controllersLoop send i sources s = Some s'.
Proof.
  induction sources as [|source rest IH]; intros i s;
    cbn [Client.controllersLoop]; [eauto|].
  destruct (i <? 2)%nat; [|eauto].
  destruct (renderController_returns send i source s) as [s1 ->].
  cbn [mbind option_bind]. apply IH.
Qed.

Lemma renderXRFrame_returns frame s :
  exists s', renderXRFrame frame s = Some s'.
Proof.
  unfold Client.renderXRFrame.
  destruct (negb (xrSession s)); [eauto|].
  destruct (negb (referenceSpace frame)); [eauto|]. cbv zeta.
  assert (H : exists s1,
             renderHMD (shouldSendOSC (currentTime frame) s) frame s = Some s1).
  { unfold Client.renderHMD. destruct (viewerPose frame); [|eauto].
    cbv zeta. destruct (shouldSendOSC _ s); [|eauto].
    apply sendOSCData_returns, Hangles. }
  destruct H as [s1 ->]. cbn [mbind option_bind].
  destruct (controllersLoop_returns (shouldSendOSC (currentTime frame) s)
              (inputSources frame) 0 s1) as [s2 ->].
  cbn [mbind option_bind]. eauto.
Qed.

Lemma runFrames_returns frames : forall s,
  exists log s', runFrames frames s = Some (log, s').
Proof.
  induction frames as [|frame rest IH]; intros s; cbn [Client.runFrames];
    [eauto|].
  destruct (renderXRFrame_returns frame s) as [s1 ->].
  cbn [mbind option_bind].
  destruct (IH s1) as (log & s2 & ->). cbn [mbind option_bind]. eauto.
Qed.

Lemma dataSampleTick_returns isPresenting s :
  exists s', dataSampleTick isPresenting s = Some s'.
Proof.
  unfold Client.dataSampleTick.
  destruct (xrSession s && isPresenting); [eauto|].
  assert (Hc : forall i st, exists st', sampleController i st = Some st').
  { intros i st. unfold Client.sampleController.
    destruct (getCurrentControllerPose i st) as [[ctrlPose btn]|]; [|eauto].
    cbv zeta. destruct (_ && _); [|eauto].
    apply sendOSCData_returns, Hangles. }
  assert (Hh : exists s1, sampleHMD s = Some s1).
  { unfold Client.sampleHMD. destruct (getCurrentHMDPose s); [|eauto].
    cbv zeta. destruct (_ && _); [|eauto].
    apply sendOSCData_returns, Hangles. }
  destruct Hh as [s1 ->]. cbn [mbind option_bind].
  destruct (Hc 0%nat s1) as [s2 ->]. cbn [mbind option_bind]. apply Hc.
Qed.

End Returning.

(** *** Counting *)

Lemma controllerAddresses_length nMarkers sources : forall i,
  (List.length (controllerAddresses i nMarkers sources) <= 2 - i)%nat.
Proof.
  induction sources as [|source rest IH]; intros i;
    cbn [controllerAddresses]; [simpl; lia|].
  destruct (Nat.ltb_spec i 2); [|simpl; lia].
  rewrite length_app. specialize (IH (S i)).
  destruct ((i <? nMarkers)%nat && hasGrip source); simpl; lia.
Qed.

Lemma frameAddresses_length frame s :
  (List.length (frameAddresses frame s) <= 3)%nat.
Proof.
  unfold frameAddresses. destruct (gateOpen frame s); [|simpl; lia].
  rewrite length_app.
  pose proof (controllerAddresses_length
                (List.length (controllerMarkers s)) (inputSources frame) 0).
  destruct (viewerPose frame); simpl; lia.
Qed.

Lemma sendTimes_cons (e : Z * list WireMessage) log :
  sendTimes (e :: log)
  = if transmitting e then fst e :: sendTimes log else sendTimes log.
Proof. unfold sendTimes. simpl. by destruct (transmitting e). Qed.

(** Times that are pairwise apart and lie in a window of 1000 ms are at
    most 32. *)
Lemma apart_upper (hi : Z) (l : list Z) : forall a,
  StronglySorted apart (a :: l) -> Forall (fun t => t <= hi) (a :: l) ->
  a + 32 * Z.of_nat (List.length l) <= hi.
Proof.
  induction l as [|b l IH]; intros a Hs Hf.
  - apply Forall_cons in Hf as [Ha _]. simpl. lia.
  - apply StronglySorted_cons in Hs as [Hab Hs].
    apply Forall_cons in Hab as [Hab _]. unfold apart, OSC_SEND_INTERVAL in Hab.
    apply Forall_cons in Hf as [_ Hf].
    specialize (IH b Hs Hf). simpl List.length. lia.
Qed.

Lemma apart_in_window (from : Z) (l : list Z) :
  StronglySorted apart l ->
  Forall (fun t => from <= t <= from + 1000) l ->
  (List.length l <= 32)%nat.
Proof.
  destruct l as [|a l]; [simpl; lia|]. intros Hs Hf.
  assert (Hhi : Forall (fun t => t <= from + 1000) (a :: l))
    by (eapply Forall_impl; [exact Hf|]; simpl; lia).
  pose proof (apart_upper _ _ _ Hs Hhi) as Hb.
  apply Forall_cons in Hf as [Ha _]. simpl List.length. lia.
Qed.

Lemma apart_filter (f : Z -> bool) (l : list Z) :
  StronglySorted apart l -> StronglySorted apart (List.filter f l).
Proof.
  induction 1 as [|a l Hs IH Hf]; simpl; [constructor|].
  destruct (f a); [|done]. constructor; [done|].
  rewrite Forall_forall in *. intros t Ht.
  apply list_elem_of_In, filter_In in Ht as [Ht _].
  by apply Hf, list_elem_of_In.
Qed.

Lemma transmissions_as_times (from : Z) log :
  transmissionsInWindow from log
  = List.length (List.filter (timeInWindow from) (sendTimes log)).
Proof.
  unfold transmissionsInWindow, sendTimes.
  induction log as [|e log IH]; [done|]. simpl.
  unfold inWindow at 1, timeInWindow at 1.
  destruct (transmitting e); simpl;
    destruct ((from <=? fst e) && (fst e <=? from + 1000)); simpl;
    by rewrite IH.
Qed.

Lemma messages_le_transmissions (from : Z) log :
  Forall (fun e => (List.length (snd e) <= 3)%nat) log ->
  (messagesInWindow from log <= 3 * transmissionsInWindow from log)%nat.
Proof.
  unfold messagesInWindow, transmissionsInWindow.
  induction 1 as [|e log He Hf IH]; [done|]. cbn [List.filter].
  destruct (inWindow from e); cbn [andb map concat]; [|exact IH].
  rewrite length_app. destruct (transmitting e) eqn:Et; cbn [List.length].
  - lia.
  - unfold transmitting in Et.
    apply negb_false_iff, Nat.eqb_eq in Et. rewrite Et. lia.
Qed.

(** A run of frames: every frame sends at most three messages, and the
    times of the frames that sent are pairwise apart, the first of them
    apart from the time stamp the run started with. *)
Lemma runFrames_apart frames : forall s log s',
  runFrames frames s = Some (log, s') ->
  Forall (fun e => (List.length (snd e) <= 3)%nat) log
  /\ Forall (apart (lastOSCSendTime s)) (sendTimes log)
  /\ StronglySorted apart (sendTimes log)
  /\ (oscEnabled s && socketOpen s = false -> sendTimes log = []).
Proof.
  induction frames as [|frame rest IH]; intros s log s';
    cbn [Client.runFrames].
  - intros [= <- <-]. repeat split; constructor.
  - destruct (renderXRFrame frame s) as [s1|] eqn:E1; [|done].
    cbn [mbind option_bind].
    destruct (runFrames rest s1) as [[log1 s2]|] eqn:E2; [|done].
    cbn [mbind option_bind]. intros [= <- <-].
    apply IH in E2 as (Hlen & Hfirst & Hsorted & Hoff).
    apply renderXRFrame_sends in E1 as (Ho & Hs & _ & Hl & _ & Ha).
    assert (Hn : List.length (sentBy s s1)
                 = List.length (frameAddresses frame s))
      by (by rewrite <- Ha, length_map).
    assert (Hopen : socketOpen s1 = socketOpen s)
      by (unfold socketOpen; by rewrite Hs).
    assert (Hshut : gateOpen frame s = false ->
                    transmitting (currentTime frame, sentBy s s1) = false).
    { intros Hg. unfold transmitting, frameAddresses in *. cbn [snd].
      rewrite Hn, Hg. done. }
    rewrite sendTimes_cons. cbn [fst].
    split; [|split; [|split]].
    + constructor; [|done]. cbn [snd]. rewrite Hn.
      apply frameAddresses_length.
    + destruct (gateOpen frame s) eqn:Eg.
      * unfold gateOpen in Eg. apply andb_true_iff in Eg as [_ Eg].
        apply shouldSendOSC_true in Eg as (_ & _ & Eg).
        rewrite Hl in Hfirst.
        assert (Forall (apart (lastOSCSendTime s)) (sendTimes log1)).
        { eapply Forall_impl; [exact Hfirst|].
          unfold apart, OSC_SEND_INTERVAL in *. simpl. lia. }
        destruct (transmitting _); [|done]. by constructor.
      * rewrite Hshut by done. by rewrite <- Hl.
    + destruct (gateOpen frame s) eqn:Eg.
      * rewrite Hl in Hfirst.
        destruct (transmitting _); [|done]. by constructor.
      * by rewrite Hshut.
    + intros Hoff'. rewrite Ho, Hopen in Hoff. rewrite (Hoff Hoff').
      rewrite Hshut; [done|]. unfold gateOpen, shouldSendOSC.
      by rewrite Hoff', !andb_false_r.
Qed.

Lemma sendTimes_app (l1 l2 : list (Z * list WireMessage)) :
  sendTimes (l1 ++ l2) = sendTimes l1 ++ sendTimes l2.
Proof. unfold sendTimes. by rewrite List.filter_app, map_app. Qed.

Lemma sendTimes_In (t : Z) (messages : list WireMessage) log :
  In (t, messages) log -> messages <> [] -> In t (sendTimes log).
Proof.
  intros Hin Hne. unfold sendTimes. apply in_map_iff.
  exists (t, messages). split; [done|]. apply filter_In. split; [done|].
  unfold transmitting. by destruct messages.
Qed.

(** C1, amended. In the frame-driven regime a frame sends only when
    streaming is enabled, the socket is open and at least 32 ms have
    passed since the last frame that passed the gate: two frames that
    send are at least 32 ms apart, so any window of 1000 ms holds at most
    32 sending frames.  A sending frame sends one message per tracked
    stream, at most three, so the window holds at most 96 messages.  The
    clock-driven sampler has no gate: a tick sends for every marker
    whenever streaming is enabled and the socket is open, and neither
    reads nor writes the time of the last send.  Both samplers return
    when the host's conversion yields no infinite angle. *)
Theorem frame_throttle frames s :
  (forall log s',
      runFrames frames s = Some (log, s') ->
      (forall from,
          (transmissionsInWindow from log <= 32)%nat
          /\ (messagesInWindow from log <= 96)%nat)
      /\ (forall t messages,
            In (t, messages) log -> messages <> [] ->
            oscEnabled s = true /\ socketOpen s = true
            /\ apart (lastOSCSendTime s) t)
      /\ (forall before t messages between t' messages' after,
            log = before ++ (t, messages) :: between
                  ++ (t', messages') :: after ->
            messages <> [] -> messages' <> [] -> apart t t'))
  /\ (noInfiniteAngle setFromQuaternion radToDeg ->
      exists log s', runFrames frames s = Some (log, s'))
  /\ (forall isPresenting st st',
        dataSampleTick isPresenting st = Some st' ->
        xrSession st && isPresenting = false ->
        lastOSCSendTime st' = lastOSCSendTime st
        /\ map Client.address (sentBy st st') = tickAddresses st)
  /\ (noInfiniteAngle setFromQuaternion radToDeg ->
      forall isPresenting st,
        exists st', dataSampleTick isPresenting st = Some st').
Proof.
  split; [|split; [|split]].
  - intros log s' Hrun.
    apply runFrames_apart in Hrun as (Hlen & Hfirst & Hsorted & Hoff).
    split; [|split].
    + intros from.
      assert (Ht : (transmissionsInWindow from log <= 32)%nat).
      { rewrite transmissions_as_times.
        apply (apart_in_window from); [by apply apart_filter|].
        apply Forall_forall. intros t Ht.
        apply list_elem_of_In, filter_In in Ht as [_ Ht].
        unfold timeInWindow in Ht. lia. }
      split; [done|].
      pose proof (messages_le_transmissions from log Hlen). lia.
    + intros t messages Hin Hne.
      pose proof (sendTimes_In t messages log Hin Hne) as Ht.
      destruct (oscEnabled s && socketOpen s) eqn:E.
      * apply andb_true_iff in E as [-> ->]. repeat split.
        rewrite Forall_forall in Hfirst. by apply Hfirst, list_elem_of_In.
      * rewrite (Hoff eq_refl) in Ht. destruct Ht.
    + intros before t messages between t' messages' after -> Hne Hne'.
      change ((t, messages) :: between ++ (t', messages') :: after)
        with ([(t, messages)] ++ between ++ (t', messages') :: after)
        in Hsorted.
      rewrite app_assoc, sendTimes_app in Hsorted.
      apply (StronglySorted_app_1_elem_of _ _ _ t t') in Hsorted; [done| |].
      * apply list_elem_of_In, sendTimes_In with (messages := messages);
          [|done]. apply in_or_app. right. by left.
      * apply list_elem_of_In, sendTimes_In with (messages := messages');
          [|done]. apply in_or_app. right. by left.
  - intros Hangles. by apply runFrames_returns.
  - intros isPresenting st st' Htick Hx.
    by destruct (dataSampleTick_sends _ _ _ Htick Hx) as (Hl & _ & Ha).
  - intros Hangles isPresenting st. by apply dataSampleTick_returns.
Qed.

(** *** A controller without a pose *)

Lemma controllerAddresses_In nMarkers sources : forall i a,
  In a (controllerAddresses i nMarkers sources) ->
  exists k source,
    sources !! k = Some source /\ hasGrip source = true
    /\ a = controllerAddress (i + k) /\ (i + k < 2)%nat.
Proof.
  induction sources as [|source rest IH]; intros i a;
    cbn [controllerAddresses]; [done|].
  destruct (Nat.ltb_spec i 2) as [Hi|Hi]; [|done].
  intros Hin. apply in_app_or in Hin as [Hin|Hin].
  - destruct ((i <? nMarkers)%nat && hasGrip source) eqn:E; [|done].
    destruct Hin as [<-|[]]. apply andb_true_iff in E as [_ E].
    exists 0%nat, source. rewrite Nat.add_0_r. by repeat split.
  - apply IH in Hin as (k & src & Hk & Hg & -> & Hlt).
    exists (S k), src. replace (i + S k)%nat with (S i + k)%nat by lia.
    by repeat split.
Qed.

Lemma controllerAddress_inj (i j : nat) :
  (i < 2)%nat -> (j < 2)%nat ->
  controllerAddress i = controllerAddress j -> i = j.
Proof.
  intros Hi Hj. destruct i as [|[|]], j as [|[|]]; try lia;
    by vm_compute.
Qed.

Lemma controllerAddress_not_hmd (i : nat) :
  (i < 2)%nat -> "/hmd/pose" <> controllerAddress i.
Proof. intros Hi. destruct i as [|[|]]; try lia; by vm_compute. Qed.

(** After a frame, the line of a controller that had no grip pose, or no
    input source at all, is the absent one. *)
Lemma renderXRFrame_absent_row frame s s' i :
  renderXRFrame frame s = Some s' ->
  xrSession s = true -> referenceSpace frame = true ->
  (i < 2)%nat -> (i < List.length (controllerMarkers s))%nat ->
  (forall source,
      inputSources frame !! i = Some source -> hasGrip source = false) ->
  controllerRow i s' = Some absentRow.
Proof.
  unfold Client.renderXRFrame. intros H Hx Hr Hi Hm Hgrip.
  rewrite Hx, Hr in H. cbn [negb] in H. cbv zeta in H.
  destruct (renderHMD _ frame s) as [s1|] eqn:E1; [|done].
  cbn [mbind option_bind] in H.
  destruct (controllersLoop _ 0 (inputSources frame) s1) as [s2|] eqn:E2;
    [|done].
  cbn [mbind option_bind] in H. apply (inj Some) in H.
  apply renderHMD_sends in E1 as (Hg1 & _ & _).
  apply controllersLoop_sends in E2 as (Hg2 & _ & Ha2 & _).
  rewrite (gateOf_markers _ _ Hg1) in Ha2.
  assert (Hn2 : List.length (controllerMarkers s2)
                = List.length (controllerMarkers s))
    by (by rewrite (gateOf_markers _ _ Hg2), (gateOf_markers _ _ Hg1)).
  destruct (hideLoop_keeps
              (List.length (controllerMarkers s2)
               - List.length (inputSources frame))
              (List.length (inputSources frame)) s2) as (_ & _ & Hr3 & Ha3).
  assert (Hrow : controllerRow i
                   (hideLoop
                      (List.length (controllerMarkers s2)
                       - List.length (inputSources frame))
                      (List.length (inputSources frame)) s2)
                 = Some absentRow).
  { destruct (inputSources frame !! i) as [source|] eqn:Es.
    - apply lookup_lt_Some in Es as Hlt. rewrite Hr3 by done.
      apply (Ha2 i source); auto.
    - apply lookup_ge_None in Es. apply Ha3; lia. }
  subst s'. destruct (shouldSendOSC _ s); [|done].
  rewrite <- Hrow. by destruct i as [|[|]].
Qed.

(** C6, amended. In a frame, a controller among the first two that has a
    marker but no grip pose, or no input source, is shown as absent:
    position zero, the rotation of a fresh Euler, button "Released".  No
    wire message is sent for it in that frame.  The frame callback returns
    when the host's conversion yields no infinite angle. *)
Theorem absent_controller_shown_not_sent frame s i :
  xrSession s = true -> referenceSpace frame = true ->
  (i < 2)%nat -> (i < List.length (controllerMarkers s))%nat ->
  (forall source,
      inputSources frame !! i = Some source -> hasGrip source = false) ->
  (forall s',
      renderXRFrame frame s = Some s' ->
      controllerRow i s' = Some absentRow
      /\ btnText <$> controllerRow i s' = Some "Released"
      /\ ~ In (controllerAddress i) (map Client.address (sentBy s s')))
  /\ (noInfiniteAngle setFromQuaternion radToDeg ->
      exists s', renderXRFrame frame s = Some s').
Proof.
  intros Hx Hr Hi Hm Hgrip. split; [|intros; by apply renderXRFrame_returns].
  intros s' H.
  pose proof (renderXRFrame_absent_row _ _ _ _ H Hx Hr Hi Hm Hgrip) as Hrow.
  split; [done|]. split; [by rewrite Hrow|].
  apply renderXRFrame_sends in H as (_ & _ & _ & _ & _ & ->).
  unfold frameAddresses. destruct (gateOpen frame s); [|by intros []].
  intros Hin. apply in_app_or in Hin as [Hin|Hin].
  - destruct (viewerPose frame); [|done]. destruct Hin as [Hin|[]].
    by apply (controllerAddress_not_hmd i).
  - apply controllerAddresses_In in Hin as (k & source & Hk & Hg & He & Hlt).
    simpl in He, Hlt. apply controllerAddress_inj in He; [|done|done].
    subst k. specialize (Hgrip source Hk). congruence.
Qed.

End Sampling.

Section SamplingClaims.

Import Client Examples.

(** C1, as stated, fails.  The clock-driven sampler has no gate: twelve
    ticks 17 ms apart send three messages each, 36 messages within
    200 ms.  The frame-driven sampler gates frames, not messages: eleven
    frames 32 ms apart send 33 messages within 400 ms. *)
Lemma samplers_exceed_32_messages :
  fmap (fun r => map (fun e => (fst e - start, List.length (snd e))) (fst r))
    (runTicks eulerOf degrees (ticksEvery 17 2 start) streaming)
    = Some [(0, 3%nat); (17, 3%nat)]
  /\ fmap (fun r => messagesInWindow start (fst r))
       (runTicks eulerOf degrees (ticksEvery 17 12 start) streaming)
     = Some 36%nat
  /\ fmap (fun r => messagesInWindow start (fst r))
       (runFrames eulerOf degrees (framesEvery 32 11 start) immersive)
     = Some 33%nat.
Proof. by vm_compute. Qed.

Lemma frame_throttle_witness :
  exists log s',
    runFrames eulerOf degrees (framesEvery 16 6 start) immersive
      = Some (log, s')
    /\ forall from,
         (transmissionsInWindow from log <= 32)%nat
         /\ (messagesInWindow from log <= 96)%nat.
Proof.
  destruct (runFrames eulerOf degrees (framesEvery 16 6 start) immersive)
    as [[log s']|] eqn:E.
  - exists log, s'. split; [reflexivity|].
    exact (proj1 (proj1 (frame_throttle eulerOf degrees _ _) _ _ E)).
  - by vm_compute in E.
Defined.

(** C6, as stated, fails: in a frame that passes the gate, controller 0
    without a grip pose is shown as released, but the frame sends for the
    HMD and for controller 1 only. *)
Lemma lost_grip_sends_nothing_for_controller :
  fmap (fun s' => (map Client.address (sentBy immersive s'),
                   btnText (ctrl0Row s')))
    (renderXRFrame eulerOf degrees (lostGripFrame start) immersive)
  = Some (["/hmd/pose"; "/controller1/pose"], "Released").
Proof. by vm_compute. Qed.

Lemma absent_controller_shown_not_sent_witness :
  exists s',
    renderXRFrame eulerOf degrees (lostGripFrame start) immersive = Some s'
    /\ controllerRow 0 s' = Some (absentRow degrees)
    /\ btnText <$> controllerRow 0 s' = Some "Released"
    /\ ~ In (controllerAddress 0)
           (map Client.address (sentBy immersive s')).
Proof.
  destruct (renderXRFrame eulerOf degrees (lostGripFrame start) immersive)
    as [s'|] eqn:E.
  - exists s'. split; [reflexivity|].
    apply (proj1 (absent_controller_shown_not_sent eulerOf degrees
                    (lostGripFrame start) immersive 0%nat
                    eq_refl eq_refl ltac:(lia) ltac:(simpl; lia)
                    ltac:(by intros source [= <-]))).
    exact E.
  - by vm_compute in E.
Defined.

End SamplingClaims.

(** * Further properties of the relay *)

Section RelayInvariants.

Import Server Examples.

Lemma dropDevice_sound s device : sound s -> sound (dropDevice s device).
Proof.
  intros (Hp & Ha & Hf & Hc1 & Hc2). unfold dropDevice, sound, portsAimed.
  destruct (oscUDPPorts s device) eqn:E; simpl;
    (split; [|by repeat split]); intros d port Hd.
  - destruct (decide (device = d)) as [->|Hne].
    + by rewrite fn_lookup_insert in Hd.
    + rewrite fn_lookup_insert_ne in Hd by done. by apply Hp.
  - by apply Hp.
Qed.

Lemma reconnectOSC_sound deviceType s :
  sound s -> sound (reconnectOSC deviceType s).
Proof.
  intros H. unfold reconnectOSC, setTimeout.
  assert (Hfold : forall l st, sound st -> sound (fold_left dropDevice l st)).
  { induction l as [|d l IH]; intros st Hst; [done|].
    simpl. by apply IH, dropDevice_sound. }
  match goal with
  | |- sound (set_timers _ (fold_left dropDevice ?l s)) =>
      by destruct (Hfold l s H) as (? & ? & ? & ? & ?)
  end.
Qed.

Lemma initDevice_sound env s deviceType :
  sound s -> sound (initDevice env s deviceType).
Proof.
  intros (Hp & Ha & Hf & Hc1 & Hc2). unfold initDevice.
  destruct (oscUDPPorts s deviceType) eqn:E; [done|].
  assert (Hports : forall d port,
             <[deviceType := Some (destination deviceType)]> (oscUDPPorts s) d
               = Some port -> port = destination d).
  { intros d port Hd. destruct (decide (deviceType = d)) as [->|Hne].
    - rewrite fn_lookup_insert in Hd. by injection Hd.
    - rewrite fn_lookup_insert_ne in Hd by done. by apply Hp. }
  destruct (openThrows env deviceType); by repeat split.
Qed.

Lemma initOSCConnection_sound env s :
  sound s -> sound (initOSCConnection env s).
Proof.
  intros H. unfold initOSCConnection, deviceTypes. simpl.
  by do 3 apply initDevice_sound.
Qed.

Lemma floatArg_finite (v : JSValue) :
  validArg v = true ->
  type (floatArg v) = "f" /\ value (floatArg v) = parseFloat v
  /\ isFinite (value (floatArg v)) = true.
Proof.
  intros H. apply validArg_spec in H as [q Hq]. unfold floatArg.
  rewrite Hq. by simpl.
Qed.

(** [updateMessageStats] adds one to exactly one of the three counts. *)
Lemma updateMessageStats_counts env address s :
  (count (messageStats (updateMessageStats env address s) hmd)
   + count (messageStats (updateMessageStats env address s) controller0)
   + count (messageStats (updateMessageStats env address s) controller1))%nat
  = S (count (messageStats s hmd) + count (messageStats s controller0)
       + count (messageStats s controller1)).
Proof.
  unfold updateMessageStats.
  destruct (includes "controller0" address);
    [|destruct (includes "controller1" address)];
    unfold set_messageStats; cbn [messageStats];
    rewrite fn_lookup_insert, !fn_lookup_insert_ne by done; simpl; lia.
Qed.

Lemma sendOSC_sound env address args s :
  sound s -> Forall (fun v => validArg v = true) args ->
  sound (snd (sendOSC env address args s)).
Proof.
  intros Hs Hargs. pose proof Hs as (Hp & Ha & Hf & Hc1 & Hc2).
  unfold sendOSC.
  destruct (oscUDPPorts s _) as [port|] eqn:Eport; [|done].
  destruct (oscConnected s _); [|done]. cbn [negb].
  destruct (sendThrows env) as [err|]; cbn [snd].
  - case_match; [apply reconnectOSC_sound|]; by repeat split.
  - split; [done|]. split; [|split; [|split]].
    + unfold updateMessageStats. cbn. apply Forall_app. split; [done|].
      constructor; [|done]. unfold aimed. cbn. by apply Hp.
    + unfold updateMessageStats. cbn. apply Forall_app. split; [done|].
      constructor; [|done]. unfold finiteFloats. cbn.
      apply Forall_map. eapply Forall_impl; [exact Hargs|].
      intros v Hv. by destruct (floatArg_finite v Hv) as (? & _ & ?).
    + unfold updateMessageStats. cbn. rewrite length_app. simpl. lia.
    + rewrite updateMessageStats_counts.
      unfold updateMessageStats. cbn. lia.
Qed.

Lemma handleOSCMessage_sound env msg s :
  sound s -> sound (snd (handleOSCMessage env msg s)).
Proof.
  intros Hs. unfold handleOSCMessage.
  destruct msg; try done;
    (destruct (getProp "address" _) as [| | | |a| |] eqn:Ea; try done;
     destruct (negb (truthy (JStr a))); [done|];
     destruct (getProp "args" _) as [| | | | |vs|]; try done;
     destruct (existsb parseFloatThrows vs); [done|];
     pose proof (sendOSC_sound env a (List.filter validArg vs) s Hs) as H;
     destruct (sendOSC env a (List.filter validArg vs) s) as [ok s'];
     apply H, Forall_forall; intros v Hv;
     by apply list_elem_of_In, filter_In in Hv as [_ Hv]).
Qed.

Lemma step_sound s ev : sound s -> sound (step s ev).
Proof.
  intros Hs. destruct ev as [env [d|d err|d|i|msg|]]; cbn [step].
  - by destruct Hs as (? & ? & ? & ? & ?).
  - by destruct Hs as (? & ? & ? & ? & ?).
  - by destruct Hs as (? & ? & ? & ? & ?).
  - unfold fireTimer. destruct (timers s !! i) as [t|]; [|done].
    assert (Hs' : sound (set_timers (delete i (timers s)) s))
      by (by destruct Hs as (? & ? & ? & ? & ?)).
    destruct (callback t); cbn [runCallback];
      [by apply reconnectOSC_sound | by apply initOSCConnection_sound].
  - by apply handleOSCMessage_sound.
  - by destruct Hs as (? & ? & ? & ? & ?).
Qed.

Lemma run_sound events : forall s, sound s -> sound (run events s).
Proof.
  unfold run. induction events as [|ev events IH]; intros s Hs; [done|].
  simpl. by apply IH, step_sound.
Qed.

Lemma initial_sound : sound initial.
Proof. by repeat split. Qed.

Lemma started_sound env : sound (started env).
Proof. apply initOSCConnection_sound, initial_sound. Qed.

(** X1. Whatever happens to the relay after start-up (port events, timers,
    messages, client connections), every datagram it has emitted went
    through the port of the device its address is classified to, at the
    configured target host and that device's UDP port. *)
Theorem datagrams_reach_their_device env events d :
  In d (udpOut (run events (started env))) ->
  via d = destination (getDeviceTypeFromAddress (address (message d)))
  /\ remoteAddress (via d) = OSC_TARGET_IP
  /\ remotePort (via d)
     = OSC_PORTS (getDeviceTypeFromAddress (address (message d))).
Proof.
  intros Hin.
  destruct (run_sound events _ (started_sound env)) as (_ & Ha & _).
  rewrite Forall_forall in Ha. apply list_elem_of_In, Ha in Hin.
  unfold aimed in Hin. by rewrite Hin.
Qed.

Lemma datagrams_reach_their_device_witness :
  via (mkDatagram (destination CONTROLLER1)
         (mkMessage "/controller1/pose" [mkArg "f" (ofZ 1)]))
  = destination CONTROLLER1
  /\ remoteAddress (destination CONTROLLER1) = OSC_TARGET_IP
  /\ remotePort (destination CONTROLLER1) = 7402.
Proof.
  apply (datagrams_reach_their_device quiet
           [(quiet, Ready CONTROLLER1);
            (quiet, Message (poseMessage "/controller1/pose" [num 1]))]
           (mkDatagram (destination CONTROLLER1)
              (mkMessage "/controller1/pose" [mkArg "f" (ofZ 1)]))).
  vm_compute. left. reflexivity.
Defined.

Lemma toFloat32_finite (n : JSNumber) :
  isFinite n = true ->
  isNaN (toFloat32 n) = false
  /\ (isFinite (toFloat32 n) = true <->
      exists q, n = Fin q /\ (- float32Bound < q < float32Bound)%Q).
Proof.
  destruct n as [| | |q]; try discriminate. intros _. cbn [toFloat32].
  destruct (Qle_bool float32Bound q) eqn:Ehi.
  { split; [done|]. apply Qle_bool_iff in Ehi. split; [done|].
    intros (q' & [= <-] & Hlo & Hhi). exfalso.
    by apply (Qlt_not_le _ _ Hhi). }
  destruct (Qle_bool q (- float32Bound)) eqn:Elo.
  { split; [done|]. apply Qle_bool_iff in Elo. split; [done|].
    intros (q' & [= <-] & Hlo & Hhi). exfalso.
    by apply (Qlt_not_le _ _ Hlo). }
  split; [done|]. split; [|done]. intros _. exists q. split; [done|].
  split; apply Qnot_le_lt; intros H; apply Qle_bool_iff in H; congruence.
Qed.

(** X2. Every argument of every datagram the relay has handed to a port
    is tagged as a float and holds a finite number: the router's filter
    and [sendOSC] together hand neither NaN nor an infinity to
    [udpPort.send], so NaN is never written.  The guarantee ends at the
    encoding: type ['f'] is binary32, and an argument leaves finite
    exactly when its magnitude is below [2^128 - 2^103].  The text
    ["1e39"] passes the filter and leaves as an infinity. *)
Theorem datagrams_carry_finite_floats env events d a :
  In d (udpOut (run events (started env))) ->
  In a (args (message d)) ->
  type a = "f" /\ isFinite (value a) = true
  /\ isNaN (toFloat32 (value a)) = false
  /\ (isFinite (toFloat32 (value a)) = true <->
      exists q, value a = Fin q /\ (- float32Bound < q < float32Bound)%Q)
  /\ map (fun d => map (fun a => toFloat32 (value a)) (args (message d)))
       (udpOut
          (run [(quiet, Ready HMD);
                (quiet, Message (poseMessage "/hmd/pose" [JStr "1e39"]))]
             (started quiet)))
     = [[PInf]].
Proof.
  intros Hd Ha.
  destruct (run_sound events _ (started_sound env)) as (_ & _ & Hf & _).
  rewrite Forall_forall in Hf. apply list_elem_of_In, Hf in Hd.
  unfold finiteFloats in Hd. rewrite Forall_forall in Hd.
  apply list_elem_of_In, Hd in Ha as [Ht Hfin].
  split; [done|]. split; [done|].
  destruct (toFloat32_finite _ Hfin) as [Hn Hi].
  split; [done|]. split; [done|]. by vm_compute.
Qed.

Lemma datagrams_carry_finite_floats_witness :
  type (mkArg "f" (ofZ 4)) = "f"
  /\ isFinite (value (mkArg "f" (ofZ 4))) = true
  /\ isNaN (toFloat32 (value (mkArg "f" (ofZ 4)))) = false.
Proof.
  destruct (datagrams_carry_finite_floats quiet
              [(quiet, Ready HMD);
               (quiet, Message (poseMessage "/hmd/pose"
                                  [JStr "bad"; num 4; JNum PInf]))]
              (mkDatagram (destination HMD)
                 (mkMessage "/hmd/pose" [mkArg "f" (ofZ 4)]))
              (mkArg "f" (ofZ 4)))
    as (Ht & Hf & Hn & _).
  - vm_compute. left. reflexivity.
  - left. reflexivity.
  - split; [exact Ht|]. split; [exact Hf | exact Hn].
Defined.

(** X3. The counters agree with what was emitted: after any run,
    [oscMessageCount] is the number of datagrams handed to the ports, and
    the three per-device counts of [messageStats] add up to it. *)
Theorem counters_agree_with_output env events :
  oscMessageCount (run events (started env))
  = List.length (udpOut (run events (started env)))
  /\ (count (messageStats (run events (started env)) hmd)
      + count (messageStats (run events (started env)) controller0)
      + count (messageStats (run events (started env)) controller1))%nat
     = oscMessageCount (run events (started env)).
Proof.
  by destruct (run_sound events _ (started_sound env)) as (_ & _ & _ & Hc).
Qed.

(** *** Errors and recovery *)

Lemma reconnectOSC_errors deviceType s :
  oscErrorCount (reconnectOSC deviceType s) = oscErrorCount s.
Proof.
  unfold reconnectOSC, setTimeout. cbn.
  assert (H : forall l st,
             oscErrorCount (fold_left dropDevice l st) = oscErrorCount st).
  { induction l as [|d l IH]; intros st; [done|]. simpl. rewrite IH.
    unfold dropDevice. by destruct (oscUDPPorts st d). }
  apply H.
Qed.

(** What [initDevice] does to the port and the flag of any device. *)
Lemma initDevice_channel env s d b :
  oscUDPPorts (initDevice env s d) b
  = (if decide (d = b)
     then Some (default (destination d) (oscUDPPorts s d))
     else oscUDPPorts s b)
  /\ oscConnected (initDevice env s d) b
     = (if decide (d = b)
        then match oscUDPPorts s d with
             | Some _ => oscConnected s d
             | None => if openThrows env d then false else oscConnected s d
             end
        else oscConnected s b).
Proof.
  unfold initDevice. destruct (oscUDPPorts s d) eqn:E.
  - destruct (decide (d = b)) as [<-|]; by rewrite ?E.
  - destruct (openThrows env d); cbn;
      destruct (decide (d = b)) as [<-|];
      by rewrite ?fn_lookup_insert, ?fn_lookup_insert_ne.
Qed.

Lemma initDevice_rest env s d :
  timers (initDevice env s d) = timers s
  /\ udpOut (initDevice env s d) = udpOut s
  /\ clientOut (initDevice env s d) = clientOut s
  /\ oscErrorCount (initDevice env s d) = oscErrorCount s.
Proof.
  unfold initDevice. destruct (oscUDPPorts s d); [done|].
  by destruct (openThrows env d).
Qed.

(** [initOSCConnection] gives every device a port, keeps the ports that
    exist, and lowers the flag only of a device whose [open()] threw. *)
Lemma initOSCConnection_channel env s b :
  oscUDPPorts (initOSCConnection env s) b
  = Some (default (destination b) (oscUDPPorts s b))
  /\ oscConnected (initOSCConnection env s) b
     = match oscUDPPorts s b with
       | Some _ => oscConnected s b
       | None => if openThrows env b then false else oscConnected s b
       end.
Proof.
  unfold initOSCConnection, deviceTypes. cbn [fold_left].
  repeat match goal with
         | |- context [oscUDPPorts (initDevice ?e ?st ?d) ?x] =>
             rewrite (proj1 (initDevice_channel e st d x))
         | |- context [oscConnected (initDevice ?e ?st ?d) ?x] =>
             rewrite (proj2 (initDevice_channel e st d x))
         end.
  destruct b; by repeat (case_decide; try done).
Qed.

Lemma initOSCConnection_rest env s :
  timers (initOSCConnection env s) = timers s
  /\ udpOut (initOSCConnection env s) = udpOut s
  /\ clientOut (initOSCConnection env s) = clientOut s
  /\ oscErrorCount (initOSCConnection env s) = oscErrorCount s.
Proof.
  unfold initOSCConnection, deviceTypes. cbn [fold_left].
  repeat match goal with
         | |- context [initDevice ?e ?st ?d] =>
             destruct (initDevice_rest e st d) as (-> & -> & -> & ->)
         end.
  done.
Qed.

Lemma sendOSC_errors env address args s :
  (oscErrorCount s <= oscErrorCount (snd (sendOSC env address args s)))%nat.
Proof.
  unfold sendOSC. destruct (oscUDPPorts s _); [|done].
  destruct (oscConnected s _); [|done]. cbn [negb].
  destruct (sendThrows env); cbn [snd].
  - case_match; rewrite ?reconnectOSC_errors; simpl; lia.
  - unfold updateMessageStats. cbn. lia.
Qed.

Lemma step_errors s ev : (oscErrorCount s <= oscErrorCount (step s ev))%nat.
Proof.
  destruct ev as [env [d|d err|d|i|msg|]]; cbn [step]; try done.
  - unfold onError, setTimeout. cbn. lia.
  - unfold fireTimer. destruct (timers s !! i) as [t|]; [|done].
    destruct (callback t); cbn [runCallback].
    + by rewrite reconnectOSC_errors.
    + by rewrite (proj2 (proj2 (proj2 (initOSCConnection_rest _ _)))).
  - unfold handleOSCMessage.
    destruct msg; try done;
      (destruct (getProp "address" _) as [| | | |a| |]; try done;
       destruct (negb (truthy (JStr a))); [done|];
       destruct (getProp "args" _) as [| | | | |vs|]; try done;
       destruct (existsb parseFloatThrows vs); [done|];
       pose proof (sendOSC_errors env a (List.filter validArg vs) s) as H;
       by destruct (sendOSC env a (List.filter validArg vs) s)).
Qed.

Lemma run_errors events : forall s,
  (oscErrorCount s <= oscErrorCount (run events s))%nat.
Proof.
  unfold run. induction events as [|ev events IH]; intros s; [done|].
  simpl. etrans; [apply (step_errors s ev)|apply IH].
Qed.

(** X4. The error counter is never reset: no event lowers it.  A send
    that fails on a ready channel counts two errors, one in the [error]
    listener of the port and one in the [catch] block.  So once nine
    errors have been counted, however long ago and on whatever device,
    every later send that fails on a ready channel drops that device's
    port, marks the device not connected and leaves two timers behind: the
    reconnect of the listener at 5000 ms and the re-initialisation at
    1000 ms. *)
Theorem error_counter_never_resets events s :
  (oscErrorCount s <= oscErrorCount (run events s))%nat
  /\ (forall env address args port err,
        oscUDPPorts (run events s) (getDeviceTypeFromAddress address)
          = Some port ->
        oscConnected (run events s) (getDeviceTypeFromAddress address)
          = true ->
        sendThrows env = Some err ->
        oscErrorCount (snd (sendOSC env address args (run events s)))
        = S (S (oscErrorCount (run events s)))
        /\ ((9 <= oscErrorCount s)%nat ->
            oscConnected (snd (sendOSC env address args (run events s)))
              (getDeviceTypeFromAddress address) = false
            /\ oscUDPPorts (snd (sendOSC env address args (run events s)))
                 (getDeviceTypeFromAddress address) = None
            /\ timers (snd (sendOSC env address args (run events s)))
               = timers (run events s)
                 ++ [mkTimer 5000
                       (CbReconnect (getDeviceTypeFromAddress address));
                     mkTimer 1000 CbInit])).
Proof.
  pose proof (run_errors events s) as Hle. split; [done|].
  intros env address args port err Hp Hc Ht.
  rewrite (sendOSC_ready_thrown env address args _ port err Hp Hc Ht).
  cbv zeta. cbn [snd]. split.
  - case_match; by rewrite ?reconnectOSC_errors.
  - intros H9.
    destruct (Nat.ltb_spec 10 (S (S (oscErrorCount (run events s)))));
      [|lia].
    match goal with
    | |- context [reconnectOSC (Some ?d) ?t] =>
        destruct (reconnectOSC_same d t) as (-> & -> & ->)
    end.
    cbn [timers set_lastOSCError set_oscErrorCount].
    rewrite (proj1 (proj2 (proj2 (onError_same _ err _)))), <- app_assoc.
    done.
Qed.

Lemma error_counter_never_resets_witness :
  oscConnected
    (snd (sendOSC failing "/controller1/pose" []
            (run [(quiet, Message (poseMessage "/hmd/pose" [num 1]))]
               tenErrors)))
    CONTROLLER1 = false
  /\ oscUDPPorts
       (snd (sendOSC failing "/controller1/pose" []
               (run [(quiet, Message (poseMessage "/hmd/pose" [num 1]))]
                  tenErrors)))
       CONTROLLER1 = None
  /\ timers
       (snd (sendOSC failing "/controller1/pose" []
               (run [(quiet, Message (poseMessage "/hmd/pose" [num 1]))]
                  tenErrors)))
     = timers
         (run [(quiet, Message (poseMessage "/hmd/pose" [num 1]))] tenErrors)
       ++ [mkTimer 5000 (CbReconnect CONTROLLER1); mkTimer 1000 CbInit].
Proof.
  apply (proj2 (proj2 (error_counter_never_resets
                         [(quiet, Message (poseMessage "/hmd/pose" [num 1]))]
                         tenErrors)
                  failing "/controller1/pose" []
                  (destination CONTROLLER1) "send failed"
                  eq_refl eq_refl eq_refl)).
  vm_compute. lia.
Defined.

Lemma lookup_snoc {A} (l : list A) (x : A) :
  (l ++ [x]) !! List.length l = Some x
  /\ delete (List.length l) (l ++ [x]) = l.
Proof.
  split.
  - by rewrite lookup_app_r, Nat.sub_diag.
  - induction l as [|a l IH]; [done|]. simpl. by rewrite IH.
Qed.

Lemma fireTimer_last env s l t :
  timers s = l ++ [t] ->
  fireTimer env (List.length l) s = runCallback env (callback t) (set_timers l s).
Proof.
  intros H. unfold fireTimer. rewrite H.
  by destruct (lookup_snoc l t) as [-> ->].
Qed.

(** The recovery, step by step. *)
Lemma errorThenRecovery_unfold env deviceType err s :
  errorThenRecovery env deviceType err s
  = onReady deviceType
      (initOSCConnection env
         (set_timers (timers s)
            (reconnectOSC (Some deviceType)
               (set_timers (timers s) (onError deviceType err s))))).
Proof.
  unfold errorThenRecovery. cbv zeta.
  rewrite (fireTimer_last env (onError deviceType err s) (timers s)
             (mkTimer 5000 (CbReconnect deviceType)) eq_refl).
  cbn [callback runCallback].
  erewrite (fireTimer_last env _ (timers s) (mkTimer 1000 CbInit)); [done|].
  by destruct (reconnectOSC_same deviceType
                 (set_timers (timers s) (onError deviceType err s)))
    as (_ & _ & ->).
Qed.

Lemma onReady_ports deviceType s :
  oscUDPPorts (onReady deviceType s) = oscUDPPorts s.
Proof. done. Qed.

Lemma onReady_flags deviceType s :
  oscConnected (onReady deviceType s) = <[deviceType := true]> (oscConnected s).
Proof. done. Qed.

Lemma onReady_timers deviceType s : timers (onReady deviceType s) = timers s.
Proof. done. Qed.

(** X5. A device recovers from a port error by itself: after the error
    the device is not connected; once the two timers the error leads to
    have expired and the new port is ready, the device has a port at its
    configured destination, is connected, sends to it succeed again, and
    the timers pending before are the only ones left.  Every other device
    keeps its flag, and its port if it had one. *)
Theorem channel_recovers env deviceType err s :
  openThrows env deviceType = false ->
  oscConnected (onError deviceType err s) deviceType = false
  /\ oscUDPPorts (errorThenRecovery env deviceType err s) deviceType
     = Some (destination deviceType)
  /\ oscConnected (errorThenRecovery env deviceType err s) deviceType = true
  /\ timers (errorThenRecovery env deviceType err s) = timers s
  /\ (forall env' address args,
        getDeviceTypeFromAddress address = deviceType ->
        sendThrows env' = None ->
        fst (sendOSC env' address args
               (errorThenRecovery env deviceType err s)) = true)
  /\ (forall other port,
        other <> deviceType -> oscUDPPorts s other = Some port ->
        oscUDPPorts (errorThenRecovery env deviceType err s) other = Some port
        /\ oscConnected (errorThenRecovery env deviceType err s) other
           = oscConnected s other).
Proof.
  intros Hopen. rewrite errorThenRecovery_unfold.
  split; [unfold onError, setTimeout; cbn; by rewrite fn_lookup_insert|].
  remember (set_timers (timers s) (onError deviceType err s)) as s1 eqn:E1.
  assert (H1 : oscUDPPorts s1 = oscUDPPorts s
               /\ oscConnected s1 = <[deviceType := false]> (oscConnected s))
    by (by subst s1).
  clear E1. destruct H1 as (Hp1 & Hc1).
  destruct (reconnectOSC_same deviceType s1) as (Hc2 & Hp2 & _).
  remember (set_timers (timers s) (reconnectOSC (Some deviceType) s1))
    as s2 eqn:E2.
  assert (H2 : oscUDPPorts s2 = oscUDPPorts (reconnectOSC (Some deviceType) s1)
               /\ oscConnected s2
                  = oscConnected (reconnectOSC (Some deviceType) s1)
               /\ timers s2 = timers s)
    by (by subst s2).
  destruct H2 as (Hp2' & Hc2' & Ht2').
  rewrite onReady_ports, onReady_flags, onReady_timers.
  destruct (initOSCConnection_rest env s2) as (-> & _). rewrite Ht2'.
  assert (Hport : oscUDPPorts (initOSCConnection env s2) deviceType
                  = Some (destination deviceType)).
  { rewrite (proj1 (initOSCConnection_channel env s2 deviceType)).
    by rewrite Hp2', Hp2. }
  rewrite Hport, fn_lookup_insert.
  split; [done|]. split; [done|]. split; [done|]. split.
  - intros env' address args <- Hsend.
    erewrite sendOSC_ready_sent; [done| | |done].
    + rewrite onReady_ports. exact Hport.
    + rewrite onReady_flags. by rewrite fn_lookup_insert.
  - intros other port Hne Hother.
    destruct (reconnectOSC_other deviceType other s1 (not_eq_sym Hne))
      as (Hco & Hpo).
    destruct (initOSCConnection_channel env s2 other) as (-> & Hflag).
    rewrite fn_lookup_insert_ne, Hflag by done.
    rewrite Hp2', Hc2', Hpo, Hco, Hp1, Hc1, Hother.
    by rewrite fn_lookup_insert_ne.
Qed.

Lemma channel_recovers_witness :
  oscConnected (onError CONTROLLER0 "ECONNREFUSED" ready) CONTROLLER0 = false
  /\ oscUDPPorts (errorThenRecovery quiet CONTROLLER0 "ECONNREFUSED" ready)
       CONTROLLER0 = Some (destination CONTROLLER0)
  /\ oscConnected (errorThenRecovery quiet CONTROLLER0 "ECONNREFUSED" ready)
       CONTROLLER0 = true
  /\ timers (errorThenRecovery quiet CONTROLLER0 "ECONNREFUSED" ready)
     = timers ready.
Proof.
  destruct (channel_recovers quiet CONTROLLER0 "ECONNREFUSED" ready eq_refl)
    as (H1 & H2 & H3 & H4 & _).
  exact (conj H1 (conj H2 (conj H3 H4))).
Defined.

Lemma initDevice_existing env s d port :
  oscUDPPorts s d = Some port -> initDevice env s d = s.
Proof. intros H. unfold initDevice. by rewrite H. Qed.

(** X6. [initOSCConnection] leaves every device with a port: a port that
    exists is kept together with its flag, a missing one is created at the
    device's destination, and the flag is lowered when [open()] throws.
    Running it again, under any host, changes nothing; it emits nothing and
    schedules nothing. *)
Theorem initOSCConnection_completes env s :
  (forall d,
      oscUDPPorts (initOSCConnection env s) d
      = Some (default (destination d) (oscUDPPorts s d)))
  /\ (forall d port,
        oscUDPPorts s d = Some port ->
        oscConnected (initOSCConnection env s) d = oscConnected s d)
  /\ (forall d,
        oscUDPPorts s d = None -> openThrows env d = true ->
        oscConnected (initOSCConnection env s) d = false)
  /\ (forall env',
        initOSCConnection env' (initOSCConnection env s)
        = initOSCConnection env s)
  /\ udpOut (initOSCConnection env s) = udpOut s
  /\ timers (initOSCConnection env s) = timers s.
Proof.
  split; [intros d; apply initOSCConnection_channel|].
  split; [intros d port H;
          by rewrite (proj2 (initOSCConnection_channel env s d)), H|].
  split; [intros d H Ht;
          by rewrite (proj2 (initOSCConnection_channel env s d)), H, Ht|].
  split; [|by destruct (initOSCConnection_rest env s) as (? & ? & _)].
  intros env'. unfold initOSCConnection at 1. unfold deviceTypes.
  cbn [fold_left].
  by rewrite
    (initDevice_existing env' _ HMD _
       (proj1 (initOSCConnection_channel env s HMD))),
    (initDevice_existing env' _ CONTROLLER0 _
       (proj1 (initOSCConnection_channel env s CONTROLLER0))),
    (initDevice_existing env' _ CONTROLLER1 _
       (proj1 (initOSCConnection_channel env s CONTROLLER1))).
Qed.

Lemma initOSCConnection_completes_witness :
  oscConnected (initOSCConnection quiet ready) HMD = oscConnected ready HMD
  /\ oscConnected
       (initOSCConnection (mkEnv 0 (fun _ => true) None)
          (reconnectOSC (Some CONTROLLER0) ready))
       CONTROLLER0 = false.
Proof.
  split.
  - apply (proj1 (proj2 (initOSCConnection_completes quiet ready))
             HMD (destination HMD)).
    reflexivity.
  - apply (proj1 (proj2 (proj2
             (initOSCConnection_completes (mkEnv 0 (fun _ => true) None)
                (reconnectOSC (Some CONTROLLER0) ready)))) CONTROLLER0);
      reflexivity.
Defined.

(** X7. The router forwards a message to [sendOSC] exactly when its
    address is a non-empty string, its args is an array (an empty array
    too) and [parseFloat] throws on no element of it, which it does only
    on an object with an own member [toString] and on an array that holds
    one; every other message is dropped and leaves the state of the relay
    as it was. *)
Theorem handleOSCMessage_forwards_iff env msg s :
  ((exists a validArgs success,
       fst (handleOSCMessage env msg s) = Forwarded a validArgs success)
   <-> (exists a l,
          getProp "address" msg = JStr a /\ a <> ""
          /\ getProp "args" msg = JArr l
          /\ existsb parseFloatThrows l = false))
  /\ (fst (handleOSCMessage env msg s) = Dropped ->
      snd (handleOSCMessage env msg s) = s)
  /\ (forall v, parseFloatThrows v = true -> isScalar v = false).
Proof.
  split; [split|split].
  - intros (a & vs & ok & H). unfold handleOSCMessage in H.
    destruct msg as [| |b|n|str|arr|members]; try discriminate.
    destruct (getProp "address" (JObj members)) as [| | | |a'| |] eqn:Ea;
      try discriminate.
    destruct (negb (truthy (JStr a'))) eqn:Et; [discriminate|].
    destruct (getProp "args" (JObj members)) as [| | | | |l|] eqn:El;
      try discriminate.
    destruct (existsb parseFloatThrows l) eqn:Ethrows; [discriminate|].
    exists a', l. split; [done|]. split; [intros ->; discriminate|].
    by split.
  - intros (a & l & Ha & Hne & Hl & Hthrows).
    rewrite (handleOSCMessage_forwards env msg a l s Ha Hne Hl Hthrows).
    cbn [fst]. eauto.
  - unfold handleOSCMessage.
    destruct msg as [| |b|n|str|arr|members]; try done.
    destruct (getProp "address" (JObj members)) as [| | | |a'| |]; try done.
    destruct (negb (truthy (JStr a'))); [done|].
    destruct (getProp "args" (JObj members)) as [| | | | |l|]; try done.
    destruct (existsb parseFloatThrows l); [done|].
    by destruct (sendOSC env a' (List.filter validArg l) s).
  - by intros [].
Qed.

Lemma handleOSCMessage_forwards_iff_witness :
  snd (handleOSCMessage quiet
         (JObj [("address", JStr "/hmd/pose"); ("args", JStr "1,2,3")]) ready)
  = ready.
Proof.
  apply (proj1 (proj2 (handleOSCMessage_forwards_iff quiet
                  (JObj [("address", JStr "/hmd/pose");
                         ("args", JStr "1,2,3")]) ready))).
  reflexivity.
Defined.

Lemma includes_prefix (needle hay : string) :
  String.prefix needle hay = true -> includes needle hay = true.
Proof. intros H. destruct hay; cbn [includes]; by rewrite H. Qed.

Lemma prefix_slash_includes (needle address : string) :
  String.prefix (String "/" needle) address = true ->
  includes needle address = true.
Proof.
  destruct address as [|c rest]; cbn [String.prefix]; [done|].
  destruct (ascii_dec "/" c); [|done]. intros H.
  cbn [includes]. rewrite (includes_prefix _ _ H). apply orb_true_r.
Qed.

(** X8. The statistics follow the routing only in part.  A message counts
    under exactly one key, with the time of the send.  A message routed to
    controller 0 always counts under [controller0], and a message counted
    under [hmd] was routed to the HMD; but the key is chosen by substring
    and the device by prefix, so a message routed to controller 1 or to
    the HMD can count under another key when its address names a
    controller further on. *)
Theorem stats_follow_routing env address s :
  messageStats (updateMessageStats env address s) (deviceKeyOf address)
  = mkStat (S (count (messageStats s (deviceKeyOf address)))) (now env)
  /\ (forall key,
        key <> deviceKeyOf address ->
        messageStats (updateMessageStats env address s) key
        = messageStats s key)
  /\ (getDeviceTypeFromAddress address = CONTROLLER0 ->
      deviceKeyOf address = controller0)
  /\ (getDeviceTypeFromAddress address = CONTROLLER1 ->
      deviceKeyOf address <> hmd)
  /\ (deviceKeyOf address = hmd -> getDeviceTypeFromAddress address = HMD)
  /\ getDeviceTypeFromAddress "/controller1/controller0" = CONTROLLER1
  /\ deviceKeyOf "/controller1/controller0" = controller0.
Proof.
  assert (H0 : getDeviceTypeFromAddress address = CONTROLLER0 ->
               includes "controller0" address = true).
  { unfold getDeviceTypeFromAddress.
    destruct (String.prefix "/hmd" address); [done|].
    destruct (String.prefix "/controller0" address) eqn:E;
      [intros _; by apply prefix_slash_includes|].
    by destruct (String.prefix "/controller1" address). }
  assert (H1 : getDeviceTypeFromAddress address = CONTROLLER1 ->
               includes "controller1" address = true).
  { unfold getDeviceTypeFromAddress.
    destruct (String.prefix "/hmd" address); [done|].
    destruct (String.prefix "/controller0" address); [done|].
    destruct (String.prefix "/controller1" address) eqn:E; [|done].
    intros _. by apply prefix_slash_includes. }
  split; [|split; [|split; [|split; [|split]]]].
  - unfold updateMessageStats. fold (deviceKeyOf address).
    unfold set_messageStats. cbn [messageStats].
    by rewrite fn_lookup_insert.
  - intros key Hne. unfold updateMessageStats. fold (deviceKeyOf address).
    unfold set_messageStats. cbn [messageStats].
    by rewrite fn_lookup_insert_ne.
  - intros H. unfold deviceKeyOf. by rewrite (H0 H).
  - intros H. unfold deviceKeyOf. rewrite (H1 H).
    by destruct (includes "controller0" address).
  - unfold deviceKeyOf. intros H.
    destruct (getDeviceTypeFromAddress address) eqn:E; [done| |].
    + by rewrite (H0 eq_refl) in H.
    + rewrite (H1 eq_refl) in H.
      by destruct (includes "controller0" address).
  - by vm_compute.
Qed.

Lemma stats_follow_routing_witness :
  deviceKeyOf "/controller0/pose" = controller0
  /\ messageStats (updateMessageStats quiet "/controller0/pose" ready) hmd
     = messageStats ready hmd.
Proof.
  split.
  - apply (proj1 (proj2 (proj2
             (stats_follow_routing quiet "/controller0/pose" ready)))).
    reflexivity.
  - apply (proj1 (proj2
             (stats_follow_routing quiet "/controller0/pose" ready))).
    discriminate.
Defined.



End RelayInvariants.

(** * Further properties of the capture client *)

Section PageInvariants.

Import Client Examples.

Variable setFromQuaternion : Quat -> Euler.
Variable radToDeg : JSNumber -> JSNumber.

Abbreviation updateDisplay := (updateDisplay radToDeg).
Abbreviation showAbsent := (showAbsent radToDeg).
Abbreviation hideLoop := (hideLoop radToDeg).
Abbreviation sendOSCData := (sendOSCData setFromQuaternion radToDeg).
Abbreviation renderHMD := (renderHMD setFromQuaternion radToDeg).
Abbreviation renderController :=
  (renderController setFromQuaternion radToDeg).
Abbreviation controllersLoop := (controllersLoop setFromQuaternion radToDeg).
Abbreviation renderXRFrame := (renderXRFrame setFromQuaternion radToDeg).
Abbreviation sampleHMD := (sampleHMD setFromQuaternion radToDeg).
Abbreviation sampleController := (sampleController setFromQuaternion radToDeg).
Abbreviation dataSampleTick := (dataSampleTick setFromQuaternion radToDeg).
Abbreviation step := (Client.step setFromQuaternion radToDeg).
Abbreviation run := (Client.run setFromQuaternion radToDeg).

Lemma extends_refl s : extends s s.
Proof. exists []. by rewrite app_nil_r. Qed.

Lemma extends_trans s1 s2 s3 : extends s1 s2 -> extends s2 s3 -> extends s1 s3.
Proof.
  intros (n1 & H1 & F1) (n2 & H2 & F2). exists (n1 ++ n2).
  rewrite H2, H1, app_assoc. split; [done|]. by apply Forall_app.
Qed.

Lemma extends_wire s s' : wire s' = wire s -> extends s s'.
Proof. intros H. exists []. by rewrite H, app_nil_r. Qed.

Lemma extends_from s0 s s' : wire s = wire s0 -> extends s s' -> extends s0 s'.
Proof. intros H (n & Hn & F). exists n. by rewrite Hn, H. Qed.

Lemma orZero_not_NaN (n : JSNumber) : isNaN (orZero n) = false.
Proof. destruct n as [| | |q]; try done. simpl. by destruct (Qeq_bool q 0). Qed.

Lemma sendOSCData_extends address position orientation btnPressed s s' :
  sendOSCData address position orientation btnPressed s = Some s' ->
  extends s s'.
Proof.
  destruct (socketOpen s) eqn:Ho.
  - intros H. apply sendOSCData_open in H as (y & p & r & Hy & Hp & Hr & ->);
      [|done].
    apply orZero_normalized in Hy as (y' & Hy & Hyr).
    apply orZero_normalized in Hp as (p' & Hp & Hpr).
    apply orZero_normalized in Hr as (r' & Hr & Hrr).
    eexists. split; [reflexivity|]. constructor; [|constructor].
    eexists _, _, _, _, _, _, _. cbn [args Client.address].
    split; [reflexivity|]. rewrite !orZero_not_NaN.
    repeat (split; [first [done | by eexists]|]).
    destruct (String.prefix "/controller" address); [|done].
    destruct btnPressed; auto.
  - rewrite sendOSCData_closed by done. intros H. apply (inj Some) in H.
    subst s'. apply extends_refl.
Qed.

Lemma renderHMD_extends send frame s s' :
  renderHMD send frame s = Some s' -> extends s s'.
Proof.
  unfold Client.renderHMD. destruct (viewerPose frame) as [pose|].
  2:{ intros H. apply (inj Some) in H. subst s'. apply extends_refl. }
  cbv zeta. destruct send.
  - intros H. apply sendOSCData_extends in H.
    eapply extends_from; [|exact H].
    by rewrite (proj2 (updateDisplay_keeps _ _ _ _ _ _)).
  - intros H. apply (inj Some) in H. subst s'. apply extends_wire.
    by rewrite (proj2 (updateDisplay_keeps _ _ _ _ _ _)).
Qed.

Lemma renderController_extends send i source s s' :
  renderController send i source s = Some s' -> extends s s'.
Proof.
  unfold Client.renderController.
  destruct (_ <=? _)%nat.
  { intros H. apply (inj Some) in H. subst s'. apply extends_refl. }
  cbv zeta.
  destruct (grip source) as [[gripPose|]|].
  - destruct send.
    + intros H. apply sendOSCData_extends in H.
      eapply extends_from; [|exact H].
      rewrite (proj2 (updateDisplay_keeps _ _ _ _ _ _)).
      apply setMarker_keeps.
    + intros H. apply (inj Some) in H. subst s'. apply extends_wire.
      rewrite (proj2 (updateDisplay_keeps _ _ _ _ _ _)).
      apply setMarker_keeps.
  - intros H. apply (inj Some) in H. subst s'. apply extends_wire.
    apply showAbsent_keeps.
  - intros H. apply (inj Some) in H. subst s'. apply extends_wire.
    apply showAbsent_keeps.
Qed.

Lemma controllersLoop_extends send sources : forall i s s',
  controllersLoop send i sources s = Some s' -> extends s s'.
Proof.
  induction sources as [|source rest IH]; intros i s s';
    cbn [Client.controllersLoop].
  { intros H. apply (inj Some) in H. subst s'. apply extends_refl. }
  destruct (i <? 2)%nat.
  2:{ intros H. apply (inj Some) in H. subst s'. apply extends_refl. }
  destruct (renderController send i source s) as [s1|] eqn:E; [|done].
  cbn [mbind option_bind]. intros H.
  eapply extends_trans; [by eapply renderController_extends|by eapply IH].
Qed.

Lemma renderXRFrame_extends frame s s' :
  renderXRFrame frame s = Some s' -> extends s s'.
Proof.
  unfold Client.renderXRFrame.
  destruct (negb (xrSession s)).
  { intros H. apply (inj Some) in H. subst s'. apply extends_refl. }
  destruct (negb (referenceSpace frame)).
  { intros H. apply (inj Some) in H. subst s'. apply extends_refl. }
  cbv zeta.
  destruct (renderHMD _ frame s) as [s1|] eqn:E1; [|done].
  cbn [mbind option_bind].
  destruct (controllersLoop _ 0 (inputSources frame) s1) as [s2|] eqn:E2;
    [|done].
  cbn [mbind option_bind]. intros H. apply (inj Some) in H. subst s'.
  eapply extends_trans; [by eapply renderHMD_extends|].
  eapply extends_trans; [by eapply controllersLoop_extends|].
  apply extends_wire.
  destruct (shouldSendOSC (currentTime frame) s); cbn [wire set_lastOSCSendTime];
    apply hideLoop_keeps.
Qed.

Lemma sampleHMD_extends s s' : sampleHMD s = Some s' -> extends s s'.
Proof.
  unfold Client.sampleHMD. destruct (getCurrentHMDPose s) as [hmdPose|].
  2:{ intros H. apply (inj Some) in H. subst s'. apply extends_refl. }
  cbv zeta. destruct (_ && _).
  - intros H. apply sendOSCData_extends in H.
    eapply extends_from; [|exact H].
    by rewrite (proj2 (updateDisplay_keeps _ _ _ _ _ _)).
  - intros H. apply (inj Some) in H. subst s'. apply extends_wire.
    by rewrite (proj2 (updateDisplay_keeps _ _ _ _ _ _)).
Qed.

Lemma sampleController_extends i s s' :
  sampleController i s = Some s' -> extends s s'.
Proof.
  unfold Client.sampleController.
  destruct (getCurrentControllerPose i s) as [[ctrlPose btn]|].
  2:{ intros H. apply (inj Some) in H. subst s'. apply extends_refl. }
  cbv zeta. destruct (_ && _).
  - intros H. apply sendOSCData_extends in H.
    eapply extends_from; [|exact H].
    by rewrite (proj2 (updateDisplay_keeps _ _ _ _ _ _)).
  - intros H. apply (inj Some) in H. subst s'. apply extends_wire.
    by rewrite (proj2 (updateDisplay_keeps _ _ _ _ _ _)).
Qed.

Lemma dataSampleTick_extends isPresenting s s' :
  dataSampleTick isPresenting s = Some s' -> extends s s'.
Proof.
  unfold Client.dataSampleTick. destruct (_ && _).
  { intros H. apply (inj Some) in H. subst s'. apply extends_refl. }
  destruct (sampleHMD s) as [s1|] eqn:E1; [|done].
  cbn [mbind option_bind].
  destruct (sampleController 0 s1) as [s2|] eqn:E2; [|done].
  cbn [mbind option_bind]. intros H.
  eapply extends_trans; [by eapply sampleHMD_extends|].
  eapply extends_trans; by eapply sampleController_extends.
Qed.

Lemma fireTimer_wire i s : wire (fireTimer i s) = wire s.
Proof.
  unfold fireTimer. destruct (timers s !! i) as [[d []]|]; [|done].
  unfold runCallback, initWebSocket. cbn [SERVER_URL set_timers].
  destruct (SERVER_URL s) as [[|c url]|]; try done.
  cbn [callback set_timers socket]. by destruct (socket s) as [[]|].
Qed.

Lemma step_extends e s s' : step s e = Some s' -> extends s s'.
Proof.
  destruct e; cbn [Client.step].
  - apply renderXRFrame_extends.
  - apply dataSampleTick_extends.
  - intros H. apply (inj Some) in H. subst s'. by apply extends_wire.
  - intros H. apply (inj Some) in H. subst s'. by apply extends_wire.
  - intros H. apply (inj Some) in H. subst s'. by apply extends_wire.
  - intros H. apply (inj Some) in H. subst s'. by apply extends_wire.
  - intros H. apply (inj Some) in H. subst s'. apply extends_wire,
      fireTimer_wire.
Qed.

Lemma step_returns e s :
  noInfiniteAngle setFromQuaternion radToDeg -> exists s', step s e = Some s'.
Proof.
  intros Hangles. destruct e; cbn [Client.step]; eauto.
  - by apply renderXRFrame_returns.
  - by apply dataSampleTick_returns.
Qed.

(** X10. Whatever happens to the page (frames, sampling ticks, clicks on
    the streaming button, socket events, timers, in any order), what it
    has sent is never altered, and every message it sends then has three
    coordinates that are numbers, three angles of the closed range from
    -180 to 180 and, exactly on the controller addresses, a button flag
    that is 0 or 1.  The run returns whenever the host's conversion yields
    no infinite angle. *)
Theorem page_sends_well_formed_messages events s :
  (forall s',
      run events s = Some s' ->
      exists new, wire s' = wire s ++ new /\ Forall wellFormed new)
  /\ (noInfiniteAngle setFromQuaternion radToDeg ->
      exists s', run events s = Some s').
Proof.
  split.
  - revert s. induction events as [|e rest IH]; intros s s';
      cbn [Client.run].
    + intros H. apply (inj Some) in H. subst s'. apply extends_refl.
    + destruct (step s e) as [s1|] eqn:E; [|done].
      cbn [mbind option_bind]. intros H.
      apply (extends_trans s s1 s'); [by eapply step_extends|by apply IH].
  - intros Hangles. revert s.
    induction events as [|e rest IH]; intros s; cbn [Client.run]; [eauto|].
    destruct (step_returns e s Hangles) as [s1 ->].
    cbn [mbind option_bind]. apply IH.
Qed.

Lemma gateOf_oscEnabled (s s' : State) :
  gateOf s' = gateOf s -> oscEnabled s' = oscEnabled s.
Proof. unfold gateOf. by intros [= -> _ _ _ _]. Qed.

Lemma gateOf_lastOSCSendTime (s s' : State) :
  gateOf s' = gateOf s -> lastOSCSendTime s' = lastOSCSendTime s.
Proof. unfold gateOf. by intros [= _ _ _ -> _]. Qed.

Lemma dataSampleTick_gate isPresenting s s' :
  dataSampleTick isPresenting s = Some s' -> gateOf s' = gateOf s.
Proof.
  unfold Client.dataSampleTick. destruct (_ && _).
  { intros H. by apply (inj Some) in H; subst s'. }
  destruct (sampleHMD s) as [s1|] eqn:E1; [|done].
  cbn [mbind option_bind].
  destruct (sampleController 0 s1) as [s2|] eqn:E2; [|done].
  cbn [mbind option_bind]. intros E3.
  apply sampleHMD_sends in E1 as (H1 & _).
  apply sampleController_sends in E2 as (H2 & _).
  apply sampleController_sends in E3 as (H3 & _).
  by rewrite H3, H2, H1.
Qed.

Lemma fireTimer_keeps i s :
  oscEnabled (fireTimer i s) = oscEnabled s
  /\ lastOSCSendTime (fireTimer i s) = lastOSCSendTime s
  /\ socketOpen (fireTimer i s) = socketOpen s
  /\ xrSession (fireTimer i s) = xrSession s.
Proof.
  unfold fireTimer. destruct (timers s !! i) as [[d []]|]; [|done].
  unfold runCallback, initWebSocket. cbn [SERVER_URL set_timers].
  destruct (SERVER_URL s) as [[|c url]|]; try done.
  cbn [callback set_timers socket]. unfold socketOpen.
  destruct (socket s) as [[]|] eqn:E; simpl; by rewrite ?E.
Qed.

(** What one callback keeps of the two switches. *)
Lemma step_switches e s s' :
  step s e = Some s' ->
  (e <> Toggle -> oscEnabled s' = oscEnabled s)
  /\ (e <> SocketOpened -> socketOpen s = false -> socketOpen s' = false).
Proof.
  destruct e; cbn [Client.step]; intros H.
  - apply renderXRFrame_sends in H as (Ho & Hs & _).
    split; [done|]. intros _. unfold socketOpen. by rewrite Hs.
  - apply dataSampleTick_gate in H.
    split; intros _; [by apply gateOf_oscEnabled|].
    by rewrite (gateOf_socketOpen _ _ H).
  - apply (inj Some) in H. subst s'. split; [done|]. by intros _.
  - apply (inj Some) in H. subst s'. split; [done|]. by intros.
  - apply (inj Some) in H. subst s'. split; [done|]. by intros.
  - apply (inj Some) in H. subst s'. split; [done|]. by intros.
  - apply (inj Some) in H. subst s'.
    destruct (fireTimer_keeps i s) as (Ho & _ & Hs & _).
    split; [done|]. intros _. by rewrite Hs.
Qed.

Lemma step_silent e s s' :
  step s e = Some s' ->
  oscEnabled s && socketOpen s = false ->
  wire s' = wire s /\ lastOSCSendTime s' = lastOSCSendTime s.
Proof.
  destruct e; cbn [Client.step]; intros H Hoff.
  - apply renderXRFrame_sends in H as (_ & _ & _ & Ht & Hw & Ha).
    unfold frameAddresses, gateOpen, shouldSendOSC in *.
    rewrite Hoff, andb_false_r in *. cbn [andb] in *.
    destruct (sentBy s s'); [|done]. by rewrite Hw, app_nil_r.
  - destruct (xrSession s && isPresenting) eqn:Hx.
    + unfold Client.dataSampleTick in H. rewrite Hx in H.
      by apply (inj Some) in H; subst s'.
    + apply dataSampleTick_sends in H as (Ht & Hw & Ha); [|done].
      unfold tickAddresses in Ha. rewrite Hoff in Ha.
      destruct (sentBy s s'); [|done]. by rewrite Hw, app_nil_r.
  - by apply (inj Some) in H; subst s'.
  - by apply (inj Some) in H; subst s'.
  - by apply (inj Some) in H; subst s'.
  - by apply (inj Some) in H; subst s'.
  - apply (inj Some) in H; subst s'. split; [apply fireTimer_wire|].
    apply fireTimer_keeps.
Qed.

(** X11. Nothing leaves the page while streaming is disabled or the
    socket is not open: over any run of callbacks without a click on the
    streaming button, started with streaming disabled, and over any run
    without an [open] event, started with the socket not open, no message
    is sent and the throttle's time stamp does not move.  This holds for
    both samplers. *)
Theorem page_silent_while_disabled_or_closed events s s' :
  run events s = Some s' ->
  (oscEnabled s = false /\ ~ In Toggle events)
  \/ (socketOpen s = false /\ ~ In SocketOpened events) ->
  wire s' = wire s /\ lastOSCSendTime s' = lastOSCSendTime s.
Proof.
  revert s. induction events as [|e rest IH]; intros s; cbn [Client.run].
  { intros H _. by apply (inj Some) in H; subst s'. }
  destruct (step s e) as [s1|] eqn:E; [|done].
  cbn [mbind option_bind]. intros H Hoff.
  destruct (step_switches e s s1 E) as (Hen & Hso).
  assert (Hs : oscEnabled s && socketOpen s = false).
  { destruct Hoff as [[-> _]|[-> _]]; [done|apply andb_false_r]. }
  destruct (step_silent e s s1 E Hs) as (Hw & Ht).
  rewrite <- Hw, <- Ht. apply IH; [done|].
  destruct Hoff as [[Ho Hn]|[Ho Hn]]; [left|right].
  - split; [|intros Hin; apply Hn; by right].
    rewrite Hen; [done|]. intros ->. apply Hn. by left.
  - split; [|intros Hin; apply Hn; by right].
    apply Hso; [|done]. intros ->. apply Hn. by left.
Qed.

Lemma updateDisplay_markers id p euler btnPressed s :
  hmdMarker (updateDisplay id p euler btnPressed s) = hmdMarker s
  /\ controllerMarkers (updateDisplay id p euler btnPressed s)
     = controllerMarkers s.
Proof. by destruct id as [|[|[|]]]. Qed.

Lemma sendOSCData_markers address position orientation btnPressed s s' :
  sendOSCData address position orientation btnPressed s = Some s' ->
  hmdMarker s' = hmdMarker s /\ controllerMarkers s' = controllerMarkers s.
Proof.
  destruct (socketOpen s) eqn:Ho.
  - intros H. by apply sendOSCData_open in H as (y & p & r & _ & _ & _ & ->).
  - rewrite sendOSCData_closed by done. intros H.
    by apply (inj Some) in H; subst s'.
Qed.

Lemma renderHMD_markers send frame s s' :
  renderHMD send frame s = Some s' ->
  controllerMarkers s' = controllerMarkers s
  /\ getCurrentHMDPose s'
     = match viewerPose frame with
       | Some pose => (fun _ => pose) <$> getCurrentHMDPose s
       | None => getCurrentHMDPose s
       end.
Proof.
  unfold Client.renderHMD. destruct (viewerPose frame) as [pose|].
  2:{ intros H. by apply (inj Some) in H; subst s'. }
  cbv zeta.
  assert (Hs2 : forall s2,
             hmdMarker s2
             = (fun m => mkMarker (pos pose) (quat pose) (mVisible m))
                 <$> hmdMarker s ->
             getCurrentHMDPose s2 = (fun _ => pose) <$> getCurrentHMDPose s).
  { intros s2 H. unfold getCurrentHMDPose. rewrite H.
    destruct (hmdMarker s); [|done]. by destruct pose. }
  destruct send.
  - intros H. apply sendOSCData_markers in H as (Hh & Hc).
    rewrite Hc, (proj2 (updateDisplay_markers _ _ _ _ _)).
    split; [done|]. apply Hs2.
    by rewrite Hh, (proj1 (updateDisplay_markers _ _ _ _ _)).
  - intros H. apply (inj Some) in H; subst s'.
    rewrite (proj2 (updateDisplay_markers _ _ _ _ _)).
    split; [done|]. apply Hs2.
    by rewrite (proj1 (updateDisplay_markers _ _ _ _ _)).
Qed.

Lemma showAbsent_markers i s :
  hmdMarker (showAbsent i s) = hmdMarker s
  /\ forall j,
       getCurrentControllerPose j (showAbsent i s)
       = getCurrentControllerPose j s.
Proof.
  unfold Client.showAbsent, getCurrentControllerPose.
  rewrite (proj1 (updateDisplay_markers _ _ _ _ _)),
    (proj2 (updateDisplay_markers _ _ _ _ _)).
  split; [done|]. intros j. unfold setMarker. cbn [controllerMarkers
    set_controllerMarkers].
  destruct (decide (j = i)) as [->|Hne].
  - rewrite list_lookup_alter_eq. by destruct (controllerMarkers s !! i).
  - by rewrite list_lookup_alter_ne.
Qed.

Lemma renderController_markers send i source s s' :
  renderController send i source s = Some s' ->
  hmdMarker s' = hmdMarker s
  /\ forall j,
       getCurrentControllerPose j s'
       = if decide (j = i)
         then match grip source with
              | Some (Some gripPose) =>
                  (fun _ => (gripPose, false))
                    <$> getCurrentControllerPose j s
              | _ => getCurrentControllerPose j s
              end
         else getCurrentControllerPose j s.
Proof.
  unfold Client.renderController.
  destruct (_ <=? _)%nat eqn:Elen.
  { intros H. apply (inj Some) in H; subst s'. split; [done|].
    intros j. destruct (decide (j = i)) as [->|]; [|done].
    apply Nat.leb_le in Elen. unfold getCurrentControllerPose.
    rewrite (proj2 (lookup_ge_None _ _) Elen).
    by destruct (grip source) as [[|]|]. }
  cbv zeta.
  destruct (grip source) as [[gripPose|]|].
  - assert (Hs2 : forall s2,
               hmdMarker s2 = hmdMarker s ->
               controllerMarkers s2
               = alter (fun _ => mkMarker (pos gripPose) (quat gripPose) true)
                   i (controllerMarkers s) ->
               hmdMarker s2 = hmdMarker s
               /\ forall j,
                    getCurrentControllerPose j s2
                    = if decide (j = i)
                      then (fun _ => (gripPose, false))
                             <$> getCurrentControllerPose j s
                      else getCurrentControllerPose j s).
    { intros s2 Hh Hc. split; [done|]. intros j.
      unfold getCurrentControllerPose. rewrite Hc.
      destruct (decide (j = i)) as [->|Hne].
      - rewrite list_lookup_alter_eq.
        destruct (controllerMarkers s !! i); [|done]. by destruct gripPose.
      - by rewrite list_lookup_alter_ne. }
    destruct send.
    + intros H. apply sendOSCData_markers in H as (Hh & Hc).
      apply Hs2.
      * by rewrite Hh, (proj1 (updateDisplay_markers _ _ _ _ _)).
      * by rewrite Hc, (proj2 (updateDisplay_markers _ _ _ _ _)).
    + intros H. apply (inj Some) in H; subst s'. apply Hs2.
      * by rewrite (proj1 (updateDisplay_markers _ _ _ _ _)).
      * by rewrite (proj2 (updateDisplay_markers _ _ _ _ _)).
  - intros H. apply (inj Some) in H; subst s'.
    destruct (showAbsent_markers i s) as (Hh & Hc). split; [done|].
    intros j. rewrite Hc. by destruct (decide (j = i)).
  - intros H. apply (inj Some) in H; subst s'.
    destruct (showAbsent_markers i s) as (Hh & Hc). split; [done|].
    intros j. rewrite Hc. by destruct (decide (j = i)).
Qed.

Lemma controllersLoop_markers send sources : forall i s s',
  controllersLoop send i sources s = Some s' ->
  hmdMarker s' = hmdMarker s
  /\ forall j,
       getCurrentControllerPose j s'
       = match (if decide (i <= j < 2)%nat
                then sources !! (j - i)%nat else None) with
         | Some source =>
             match grip source with
             | Some (Some gripPose) =>
                 (fun _ => (gripPose, false))
                   <$> getCurrentControllerPose j s
             | _ => getCurrentControllerPose j s
             end
         | None => getCurrentControllerPose j s
         end.
Proof.
  induction sources as [|source rest IH]; intros i s s';
    cbn [Client.controllersLoop].
  { intros H. apply (inj Some) in H; subst s'. split; [done|].
    intros j. by destruct (decide (i <= j < 2)%nat). }
  destruct (i <? 2)%nat eqn:Ei.
  2:{ intros H. apply (inj Some) in H; subst s'. split; [done|].
      intros j. apply Nat.ltb_ge in Ei.
      destruct (decide (i <= j < 2)%nat); [lia|done]. }
  apply Nat.ltb_lt in Ei.
  destruct (renderController send i source s) as [s1|] eqn:E; [|done].
  cbn [mbind option_bind]. intros H.
  apply renderController_markers in E as (Hh1 & Hc1).
  apply IH in H as (Hh & Hc). split; [by rewrite Hh|].
  intros j. rewrite Hc, !Hc1.
  destruct (decide (j = i)) as [->|Hne].
  - destruct (decide (S i <= i < 2)%nat); [lia|].
    destruct (decide (i <= i < 2)%nat); [|lia].
    by rewrite Nat.sub_diag.
  - destruct (decide (S i <= j < 2)%nat) as [Hj|Hj].
    + destruct (decide (i <= j < 2)%nat); [|lia].
      replace (j - i)%nat with (S (j - S i)) by lia. done.
    + destruct (decide (i <= j < 2)%nat); [lia|done].
Qed.

Lemma hideLoop_markers n : forall i s,
  hmdMarker (hideLoop n i s) = hmdMarker s
  /\ forall j,
       getCurrentControllerPose j (hideLoop n i s)
       = getCurrentControllerPose j s.
Proof.
  induction n as [|n IH]; intros i s; cbn [Client.hideLoop]; [done|].
  destruct (IH (S i) (showAbsent i s)) as (Hh & Hc).
  destruct (showAbsent_markers i s) as (Hh' & Hc').
  split; [by rewrite Hh|]. intros j. by rewrite Hc.
Qed.

(** X12. The markers remember the last frame.  After a frame of a live
    session, the pose [getCurrentHMDPose] reads is the viewer pose of the
    frame, when it had one and the scene has the marker; the pose
    [getCurrentControllerPose] reads for each of the first two
    controllers with a grip pose is that grip pose, with the button
    reported released whatever the gamepad said; every other marker
    reads as before, so a controller whose grip pose was lost keeps its
    last pose. *)
Theorem frame_pose_round_trip frame s s' :
  renderXRFrame frame s = Some s' ->
  xrSession s = true -> referenceSpace frame = true ->
  getCurrentHMDPose s'
  = match viewerPose frame with
    | Some pose => (fun _ => pose) <$> getCurrentHMDPose s
    | None => getCurrentHMDPose s
    end
  /\ forall j,
       getCurrentControllerPose j s'
       = match (if decide (j < 2)%nat
                then inputSources frame !! j else None) with
         | Some source =>
             match grip source with
             | Some (Some gripPose) =>
                 (fun _ => (gripPose, false))
                   <$> getCurrentControllerPose j s
             | _ => getCurrentControllerPose j s
             end
         | None => getCurrentControllerPose j s
         end.
Proof.
  intros H Hx Hr. unfold Client.renderXRFrame in H.
  rewrite Hx, Hr in H. cbn [negb] in H. cbv zeta in H.
  destruct (renderHMD _ frame s) as [s1|] eqn:E1; [|done].
  cbn [mbind option_bind] in H.
  destruct (controllersLoop _ 0 (inputSources frame) s1) as [s2|] eqn:E2;
    [|done].
  cbn [mbind option_bind] in H. apply (inj Some) in H.
  apply renderHMD_markers in E1 as (Hc1 & Hh1).
  apply controllersLoop_markers in E2 as (Hh2 & Hc2).
  destruct (hideLoop_markers
              (List.length (controllerMarkers s2)
               - List.length (inputSources frame))
              (List.length (inputSources frame)) s2) as (Hh3 & Hc3).
  assert (Hpose : forall a b j,
             controllerMarkers a = controllerMarkers b ->
             getCurrentControllerPose j a = getCurrentControllerPose j b).
  { intros a b j Hab. unfold getCurrentControllerPose. by rewrite Hab. }
  assert (Hh : getCurrentHMDPose s' = getCurrentHMDPose s1).
  { subst s'. unfold getCurrentHMDPose in *.
    destruct (shouldSendOSC _ s); cbn [hmdMarker set_lastOSCSendTime];
      by rewrite Hh3, Hh2. }
  assert (Hc : forall j,
             getCurrentControllerPose j s' = getCurrentControllerPose j s2).
  { intros j. subst s'.
    destruct (shouldSendOSC _ s); [|apply Hc3].
    rewrite <- Hc3. by apply Hpose. }
  split; [by rewrite Hh|]. intros j. rewrite Hc, Hc2.
  rewrite !(Hpose s1 s j Hc1), Nat.sub_0_r.
  destruct (decide (0 <= j < 2)%nat), (decide (j < 2)%nat); try lia; done.
Qed.

Lemma sample_send id address position orientation euler btnPressed s s' :
  oscEnabled s && socketOpen s = true ->
  (let s1 := updateDisplay id position euler btnPressed s in
   if oscEnabled s1 && socketOpen s1
   then sendOSCData address position orientation btnPressed s1
   else Some s1) = Some s' ->
  hmdMarker s' = hmdMarker s
  /\ controllerMarkers s' = controllerMarkers s
  /\ gateOf s' = gateOf s
  /\ exists y p r,
       normalizeAngle
         (yaw (quaternionToEulerDegrees setFromQuaternion radToDeg
                 orientation)) = Some y
       /\ normalizeAngle
            (pitch (quaternionToEulerDegrees setFromQuaternion radToDeg
                      orientation)) = Some p
       /\ normalizeAngle
            (roll (quaternionToEulerDegrees setFromQuaternion radToDeg
                     orientation)) = Some r
       /\ wire s'
          = wire s
            ++ [mkWire address
                  ([orZero (vx position); orZero (vy position);
                    orZero (vz position); orZero y; orZero p; orZero r]
                   ++ (if String.prefix "/controller" address
                       then [if btnPressed then ofZ 1 else ofZ 0]
                       else []))].
Proof.
  intros Hopen. cbv zeta.
  destruct (updateDisplay_keeps radToDeg id position euler btnPressed s)
    as (Hg & Hw).
  destruct (updateDisplay_markers id position euler btnPressed s)
    as (Hm1 & Hm2).
  remember (updateDisplay id position euler btnPressed s) as s1 eqn:Es1.
  clear Es1.
  rewrite (gateOf_oscEnabled _ _ Hg), (gateOf_socketOpen _ _ Hg), Hopen.
  intros H.
  apply sendOSCData_open in H as (y & p & r & Hy & Hp & Hr & ->).
  2:{ rewrite (gateOf_socketOpen _ _ Hg).
      by apply andb_true_iff in Hopen as [_ ->]. }
  repeat split; try done. exists y, p, r.
  repeat split; try done. cbn [wire set_wire]. by rewrite Hw.
Qed.

(** X13. The clock-driven sampler publishes every marker it finds,
    visible or hidden: on a tick outside a presenting session, with
    streaming enabled and the socket open, the HMD marker and each of the
    first two controller markers yield one message carrying the
    marker's position and its normalised Euler angles; the controller
    messages always carry the button flag 0.  The throttle is not
    consulted and its time stamp is not touched. *)
Theorem clock_sampler_publishes_every_marker isPresenting s s' :
  dataSampleTick isPresenting s = Some s' ->
  xrSession s && isPresenting = false ->
  oscEnabled s = true -> socketOpen s = true ->
  lastOSCSendTime s' = lastOSCSendTime s
  /\ (forall m,
        hmdMarker s = Some m ->
        exists y p r,
          normalizeAngle
            (yaw (quaternionToEulerDegrees setFromQuaternion radToDeg
                    (mQuaternion m))) = Some y
          /\ normalizeAngle
               (pitch (quaternionToEulerDegrees setFromQuaternion radToDeg
                         (mQuaternion m))) = Some p
          /\ normalizeAngle
               (roll (quaternionToEulerDegrees setFromQuaternion radToDeg
                        (mQuaternion m))) = Some r
          /\ In (mkWire "/hmd/pose"
                   [orZero (vx (mPosition m)); orZero (vy (mPosition m));
                    orZero (vz (mPosition m));
                    orZero y; orZero p; orZero r])
               (sentBy s s'))
  /\ (forall i m,
        (i < 2)%nat -> controllerMarkers s !! i = Some m ->
        exists y p r,
          normalizeAngle
            (yaw (quaternionToEulerDegrees setFromQuaternion radToDeg
                    (mQuaternion m))) = Some y
          /\ normalizeAngle
               (pitch (quaternionToEulerDegrees setFromQuaternion radToDeg
                         (mQuaternion m))) = Some p
          /\ normalizeAngle
               (roll (quaternionToEulerDegrees setFromQuaternion radToDeg
                        (mQuaternion m))) = Some r
          /\ In (mkWire (controllerAddress i)
                   [orZero (vx (mPosition m)); orZero (vy (mPosition m));
                    orZero (vz (mPosition m));
                    orZero y; orZero p; orZero r; ofZ 0])
               (sentBy s s')).
Proof.
  intros H Hx Hen Hop.
  split; [by apply (dataSampleTick_sends _ _ _ _ _ H Hx)|].
  assert (Hopen : oscEnabled s && socketOpen s = true) by (by rewrite Hen, Hop).
  unfold Client.dataSampleTick in H. rewrite Hx in H.
  destruct (sampleHMD s) as [s1|] eqn:E1; [|done].
  cbn [mbind option_bind] in H.
  destruct (sampleController 0 s1) as [s2|] eqn:E2; [|done].
  cbn [mbind option_bind] in H. rename H into E3.
  assert (Hc : forall i a b,
             (i < 2)%nat ->
             oscEnabled a && socketOpen a = true ->
             sampleController i a = Some b ->
             controllerMarkers b = controllerMarkers a
             /\ oscEnabled b && socketOpen b = true
             /\ exists new,
                  wire b = wire a ++ new
                  /\ forall m,
                       controllerMarkers a !! i = Some m ->
                       exists y p r,
                         normalizeAngle
                           (yaw (quaternionToEulerDegrees setFromQuaternion
                                   radToDeg (mQuaternion m))) = Some y
                         /\ normalizeAngle
                              (pitch (quaternionToEulerDegrees
                                        setFromQuaternion radToDeg
                                        (mQuaternion m))) = Some p
                         /\ normalizeAngle
                              (roll (quaternionToEulerDegrees
                                       setFromQuaternion radToDeg
                                       (mQuaternion m))) = Some r
                         /\ new
                            = [mkWire (controllerAddress i)
                                 [orZero (vx (mPosition m));
                                  orZero (vy (mPosition m));
                                  orZero (vz (mPosition m));
                                  orZero y; orZero p; orZero r; ofZ 0]]).
  { intros i a b Hi Ha Hb. unfold Client.sampleController in Hb.
    unfold getCurrentControllerPose in Hb.
    destruct (controllerMarkers a !! i) as [m|] eqn:Em;
      cbn [fmap option_fmap option_map] in Hb.
    2:{ apply (inj Some) in Hb; subst b. repeat split; try done.
        exists []. by rewrite app_nil_r. }
    apply sample_send in Hb as (_ & Hm & Hg & y & p & r & Hy & Hp & Hr & Hw);
      [|done].
    split; [done|].
    split; [by rewrite (gateOf_oscEnabled _ _ Hg), (gateOf_socketOpen _ _ Hg)|].
    eexists. split; [exact Hw|].
    intros m' Hm'. apply (inj Some) in Hm'; subst m'.
    exists y, p, r. repeat split; try done.
    cbn [pos quat]. by destruct i as [|[|]]; [| |lia]. }
  assert (Hh : controllerMarkers s1 = controllerMarkers s
               /\ oscEnabled s1 && socketOpen s1 = true
               /\ exists new,
                    wire s1 = wire s ++ new
                    /\ forall m,
                         hmdMarker s = Some m ->
                         exists y p r,
                           normalizeAngle
                             (yaw (quaternionToEulerDegrees setFromQuaternion
                                     radToDeg (mQuaternion m))) = Some y
                           /\ normalizeAngle
                                (pitch (quaternionToEulerDegrees
                                          setFromQuaternion radToDeg
                                          (mQuaternion m))) = Some p
                           /\ normalizeAngle
                                (roll (quaternionToEulerDegrees
                                         setFromQuaternion radToDeg
                                         (mQuaternion m))) = Some r
                           /\ new
                              = [mkWire "/hmd/pose"
                                   [orZero (vx (mPosition m));
                                    orZero (vy (mPosition m));
                                    orZero (vz (mPosition m));
                                    orZero y; orZero p; orZero r]]).
  { unfold Client.sampleHMD, getCurrentHMDPose in E1.
    destruct (hmdMarker s) as [m|] eqn:Em;
      cbn [fmap option_fmap option_map] in E1.
    2:{ apply (inj Some) in E1; subst s1. repeat split; try done.
        exists []. by rewrite app_nil_r. }
    apply sample_send in E1 as (_ & Hm & Hg & y & p & r & Hy & Hp & Hr & Hw);
      [|done].
    split; [done|].
    split; [by rewrite (gateOf_oscEnabled _ _ Hg), (gateOf_socketOpen _ _ Hg)|].
    eexists. split; [exact Hw|].
    intros m' Hm'. apply (inj Some) in Hm'; subst m'.
    exists y, p, r. by repeat split. }
  destruct Hh as (Hm1 & Ho1 & newH & HwH & HcH).
  destruct (Hc 0%nat s1 s2 ltac:(lia) Ho1 E2) as (Hm2 & Ho2 & new0 & Hw0 & Hc0).
  destruct (Hc 1%nat s2 s' ltac:(lia) Ho2 E3) as (Hm3 & _ & new1 & Hw1 & Hc1).
  assert (Hsent : sentBy s s' = newH ++ new0 ++ new1).
  { unfold sentBy. rewrite Hw1, Hw0, HwH, <- !app_assoc.
    by rewrite drop_app_length. }
  rewrite Hsent. split.
  - intros m Hm. destruct (HcH m Hm) as (y & p & r & Hy & Hp & Hr & ->).
    exists y, p, r. repeat split; try done. apply in_app_iff. left. by left.
  - intros i m Hi Hm. destruct i as [|[|]]; [| |lia].
    + rewrite <- Hm1 in Hm.
      destruct (Hc0 m Hm) as (y & p & r & Hy & Hp & Hr & ->).
      exists y, p, r. repeat split; try done.
      apply in_app_iff. right. apply in_app_iff. left. by left.
    + rewrite <- Hm1, <- Hm2 in Hm.
      destruct (Hc1 m Hm) as (y & p & r & Hy & Hp & Hr & ->).
      exists y, p, r. repeat split; try done.
      apply in_app_iff. right. apply in_app_iff. right. by left.
Qed.

Lemma whileAbove_stop (fuel : nat) (a : JSNumber) :
  gt a (ofZ 180) = false -> whileAbove fuel a = Some a.
Proof. intros H. destruct fuel; cbn [whileAbove]; by rewrite H. Qed.

Lemma whileBelow_stop (fuel : nat) (a : JSNumber) :
  lt a (ofZ (-180)) = false -> whileBelow fuel a = Some a.
Proof. intros H. destruct fuel; cbn [whileBelow]; by rewrite H. Qed.

Lemma normalizeAngle_in_range (q : Q) :
  (-180 <= q <= 180)%Q -> normalizeAngle (Fin q) = Some (Fin q).
Proof.
  intros [Hlo Hhi]. unfold normalizeAngle, normalizeAngleFuel.
  rewrite whileAbove_stop.
  2:{ apply not_true_iff_false. rewrite gt_Fin. unfold inject_Z. lra. }
  cbn [mbind option_bind]. apply whileBelow_stop.
  apply not_true_iff_false. rewrite lt_Fin. unfold inject_Z. lra.
Qed.

Lemma normalizeAngle_None (a : JSNumber) :
  normalizeAngle a = None <-> isNaN a = false /\ isFinite a = false.
Proof.
  destruct a as [| | |q]; cbn [isNaN isFinite].
  - split; [by vm_compute|by intros []].
  - done.
  - done.
  - destruct (normalizeAngle_Fin q) as (r & k & -> & _). split; [done|].
    by intros [].
Qed.


(** *** Sessions *)

Abbreviation pageStep := (Client.pageStep setFromQuaternion radToDeg).
Abbreviation pageRun := (Client.pageRun setFromQuaternion radToDeg).

Lemma clearInterval_own (id : positive) : clearInterval id [id] = [].
Proof. unfold clearInterval. cbn [List.filter]. by rewrite Pos.eqb_refl. Qed.

Lemma startDataSampling_oneSampler p :
  intervals p
  = match dataSampleInterval p with Some id => [id] | None => [] end ->
  animationLoop p = false -> toggleDisabled p = false ->
  oneSampler (startDataSampling p).
Proof.
  intros Hi Ha Ht. unfold oneSampler, startDataSampling.
  cbn [intervals dataSampleInterval animationLoop toggleDisabled].
  rewrite Hi, Ha, Ht.
  destruct (dataSampleInterval p) as [id|]; [|done].
  by rewrite clearInterval_own.
Qed.

Lemma stopDataSampling_oneSampler p :
  intervals p
  = match dataSampleInterval p with Some id => [id] | None => [] end ->
  animationLoop p = true -> toggleDisabled p = true ->
  oneSampler (stopDataSampling p).
Proof.
  intros Hi Ha Ht. unfold oneSampler, stopDataSampling.
  cbn [intervals dataSampleInterval animationLoop toggleDisabled].
  rewrite Hi, Ha, Ht.
  destruct (dataSampleInterval p) as [id|]; [|done].
  by rewrite clearInterval_own.
Qed.

Lemma pageStep_oneSampler p e p' :
  pageStep p e = Some p' -> oneSampler p -> oneSampler p'.
Proof.
  destruct e as [e| | |]; cbn [Client.pageStep].
  - destruct (delivered p e).
    + destruct (step (globals p) e) as [s'|]; [|done].
      cbn [mbind option_bind]. intros H. by apply (inj Some) in H; subst p'.
    + intros H. by apply (inj Some) in H; subst p'.
  - intros H. apply (inj Some) in H; subst p'. by destruct (renderer p).
  - intros H Hp. apply (inj Some) in H; subst p'.
    destruct (renderer p); [|done]. destruct Hp as (Hi & _).
    by apply stopDataSampling_oneSampler.
  - intros H Hp. apply (inj Some) in H; subst p'.
    destruct (renderer p); [|done]. destruct Hp as (Hi & _).
    by apply startDataSampling_oneSampler.
Qed.

Lemma pageRun_oneSampler events : forall p p',
  pageRun events p = Some p' -> oneSampler p -> oneSampler p'.
Proof.
  induction events as [|e rest IH]; intros p p'; cbn [Client.pageRun].
  { intros H. by apply (inj Some) in H; subst p'. }
  destruct (pageStep p e) as [p1|] eqn:E; [|done].
  cbn [mbind option_bind]. intros H Hp.
  apply (IH p1 p' H). by apply (pageStep_oneSampler p e).
Qed.

Lemma pageRun_returns events :
  noInfiniteAngle setFromQuaternion radToDeg ->
  forall p, exists p', pageRun events p = Some p'.
Proof.
  intros Hangles.
  induction events as [|e rest IH]; intros p; cbn [Client.pageRun]; [eauto|].
  assert (H : exists p1, pageStep p e = Some p1).
  { destruct e as [e| | |]; cbn [Client.pageStep]; eauto.
    destruct (delivered p e); [|eauto].
    destruct (step_returns e (globals p) Hangles) as [s' ->].
    cbn [mbind option_bind]. eauto. }
  destruct H as [p1 ->]. cbn [mbind option_bind]. apply IH.
Qed.

Lemma pageStep_noSampler p e p' :
  pageStep p e = Some p' -> noSampler p -> noSampler p'.
Proof.
  intros H (Hr & Ha & Hi & Hd & Ht).
  destruct e as [e| | |]; cbn [Client.pageStep] in H.
  - destruct (delivered p e).
    + destruct (step (globals p) e) as [s'|]; [|done].
      cbn [mbind option_bind] in H. by apply (inj Some) in H; subst p'.
    + by apply (inj Some) in H; subst p'.
  - rewrite Hr in H. by apply (inj Some) in H; subst p'.
  - rewrite Hr in H. by apply (inj Some) in H; subst p'.
  - rewrite Hr in H. by apply (inj Some) in H; subst p'.
Qed.

Lemma pageRun_noSampler events : forall p p',
  pageRun events p = Some p' -> noSampler p -> noSampler p'.
Proof.
  induction events as [|e rest IH]; intros p p'; cbn [Client.pageRun].
  { intros H. by apply (inj Some) in H; subst p'. }
  destruct (pageStep p e) as [p1|] eqn:E; [|done].
  cbn [mbind option_bind]. intros H Hp.
  apply (IH p1 p' H). by apply (pageStep_noSampler p e).
Qed.

Lemma updateDisplay_transport id p euler btnPressed s :
  transportOf (updateDisplay id p euler btnPressed s) = transportOf s.
Proof. by destruct id as [|[|[|]]]. Qed.

Lemma sendOSCData_transport address position orientation btnPressed s s' :
  sendOSCData address position orientation btnPressed s = Some s' ->
  transportOf s' = transportOf s.
Proof.
  destruct (socketOpen s) eqn:Ho.
  - intros H. by apply sendOSCData_open in H as (y & p & r & _ & _ & _ & ->).
  - rewrite sendOSCData_closed by done. intros H.
    by apply (inj Some) in H; subst s'.
Qed.

Lemma showAbsent_transport i s : transportOf (showAbsent i s) = transportOf s.
Proof. unfold Client.showAbsent. by rewrite updateDisplay_transport. Qed.

Lemma renderHMD_transport send frame s s' :
  renderHMD send frame s = Some s' -> transportOf s' = transportOf s.
Proof.
  unfold Client.renderHMD. destruct (viewerPose frame) as [pose|].
  2:{ intros H. by apply (inj Some) in H; subst s'. }
  cbv zeta. destruct send.
  - intros H. apply sendOSCData_transport in H.
    by rewrite H, updateDisplay_transport.
  - intros H. apply (inj Some) in H; subst s'.
    by rewrite updateDisplay_transport.
Qed.

Lemma renderController_transport send i source s s' :
  renderController send i source s = Some s' ->
  transportOf s' = transportOf s.
Proof.
  unfold Client.renderController.
  destruct (_ <=? _)%nat.
  { intros H. by apply (inj Some) in H; subst s'. }
  cbv zeta.
  destruct (grip source) as [[gripPose|]|].
  - destruct send.
    + intros H. apply sendOSCData_transport in H.
      by rewrite H, updateDisplay_transport.
    + intros H. apply (inj Some) in H; subst s'.
      by rewrite updateDisplay_transport.
  - intros H. apply (inj Some) in H; subst s'. apply showAbsent_transport.
  - intros H. apply (inj Some) in H; subst s'. apply showAbsent_transport.
Qed.

Lemma controllersLoop_transport send sources : forall i s s',
  controllersLoop send i sources s = Some s' ->
  transportOf s' = transportOf s.
Proof.
  induction sources as [|source rest IH]; intros i s s';
    cbn [Client.controllersLoop].
  { intros H. by apply (inj Some) in H; subst s'. }
  destruct (i <? 2)%nat.
  2:{ intros H. by apply (inj Some) in H; subst s'. }
  destruct (renderController send i source s) as [s1|] eqn:E; [|done].
  cbn [mbind option_bind]. intros H.
  apply IH in H. apply renderController_transport in E. by rewrite H.
Qed.

Lemma hideLoop_transport n : forall i s,
  transportOf (hideLoop n i s) = transportOf s.
Proof.
  induction n as [|n IH]; intros i s; cbn [Client.hideLoop]; [done|].
  by rewrite IH, showAbsent_transport.
Qed.

Lemma renderXRFrame_transport frame s s' :
  renderXRFrame frame s = Some s' -> transportOf s' = transportOf s.
Proof.
  unfold Client.renderXRFrame.
  destruct (negb (xrSession s)).
  { intros H. by apply (inj Some) in H; subst s'. }
  destruct (negb (referenceSpace frame)).
  { intros H. by apply (inj Some) in H; subst s'. }
  cbv zeta.
  destruct (renderHMD _ frame s) as [s1|] eqn:E1; [|done].
  cbn [mbind option_bind].
  destruct (controllersLoop _ 0 (inputSources frame) s1) as [s2|] eqn:E2;
    [|done].
  cbn [mbind option_bind]. intros H. apply (inj Some) in H. subst s'.
  apply renderHMD_transport in E1. apply controllersLoop_transport in E2.
  rewrite <- E1, <- E2.
  destruct (shouldSendOSC (currentTime frame) s);
    [change (transportOf (set_lastOSCSendTime ?t ?x))
       with (transportOf x)|];
    apply hideLoop_transport.
Qed.

Lemma dataSampleTick_transport isPresenting s s' :
  dataSampleTick isPresenting s = Some s' -> transportOf s' = transportOf s.
Proof.
  assert (Hsend : forall id address position orientation euler btn a b,
             (let s1 := updateDisplay id position euler btn a in
              if oscEnabled s1 && socketOpen s1
              then sendOSCData address position orientation btn s1
              else Some s1) = Some b ->
             transportOf b = transportOf a).
  { intros id address position orientation euler btn a b. cbv zeta.
    destruct (_ && _).
    - intros H. apply sendOSCData_transport in H.
      by rewrite H, updateDisplay_transport.
    - intros H. apply (inj Some) in H; subst b.
      by rewrite updateDisplay_transport. }
  assert (Hc : forall i a b,
             sampleController i a = Some b -> transportOf b = transportOf a).
  { intros i a b. unfold Client.sampleController.
    destruct (getCurrentControllerPose i a) as [[ctrlPose btn]|].
    - apply Hsend.
    - intros H. by apply (inj Some) in H; subst b. }
  unfold Client.dataSampleTick. destruct (_ && _).
  { intros H. by apply (inj Some) in H; subst s'. }
  destruct (sampleHMD s) as [s1|] eqn:E1; [|done].
  cbn [mbind option_bind].
  destruct (sampleController 0 s1) as [s2|] eqn:E2; [|done].
  cbn [mbind option_bind]. intros E3.
  apply Hc in E2, E3. rewrite E3, E2.
  unfold Client.sampleHMD in E1.
  destruct (getCurrentHMDPose s) as [hmdPose|].
  - by apply Hsend in E1.
  - by apply (inj Some) in E1; subst s1.
Qed.

Lemma pageStep_offline p e p' :
  pageStep p e = Some p' -> offline p ->
  offline p'
  /\ connections (globals p') = connections (globals p)
  /\ wire (globals p') = wire (globals p).
Proof.
  intros H (Hs & Ht).
  assert (Hoff : oscEnabled (globals p) && socketOpen (globals p) = false).
  { unfold socketOpen. rewrite Hs. apply andb_false_r. }
  assert (Hsampler : forall s',
             transportOf s' = transportOf (globals p) ->
             wire s' = wire (globals p) ->
             (socket s' = None /\ timers s' = [])
             /\ connections s' = connections (globals p)
             /\ wire s' = wire (globals p)).
  { intros s' Htr Hw. unfold transportOf in Htr.
    injection Htr as _ -> _ -> ->. by rewrite Hs, Ht. }
  unfold offline.
  destruct e as [e| | |]; cbn [Client.pageStep] in H.
  - destruct (delivered p e) eqn:Ed.
    2:{ by apply (inj Some) in H; subst p'. }
    destruct (step (globals p) e) as [s'|] eqn:E; [|done].
    cbn [mbind option_bind] in H. apply (inj Some) in H; subst p'.
    cbn [globals set_globals].
    destruct e; cbn [Client.step delivered] in E, Ed.
    + apply Hsampler; [by apply renderXRFrame_transport in E|].
      by apply (step_silent (Frame frame) _ _ E).
    + apply Hsampler; [by apply dataSampleTick_transport in E|].
      by apply (step_silent (Tick isPresenting) _ _ E).
    + by apply (inj Some) in E; subst s'.
    + by rewrite Hs in Ed.
    + by rewrite Hs in Ed.
    + by rewrite Hs in Ed.
    + apply (inj Some) in E; subst s'. unfold fireTimer. by rewrite Ht.
  - apply (inj Some) in H; subst p'. by destruct (renderer p).
  - apply (inj Some) in H; subst p'. by destruct (renderer p).
  - apply (inj Some) in H; subst p'. by destruct (renderer p).
Qed.

Lemma pageRun_offline events : forall p p',
  pageRun events p = Some p' -> offline p ->
  offline p'
  /\ connections (globals p') = connections (globals p)
  /\ wire (globals p') = wire (globals p).
Proof.
  induction events as [|e rest IH]; intros p p'; cbn [Client.pageRun].
  { intros H. by apply (inj Some) in H; subst p'. }
  destruct (pageStep p e) as [p1|] eqn:E; [|done].
  cbn [mbind option_bind]. intros H Hp.
  destruct (pageStep_offline p e p1 E Hp) as (Hp1 & Hc1 & Hw1).
  destruct (IH p1 p' H Hp1) as (Hp' & Hc & Hw).
  by rewrite Hc, Hw.
Qed.

Lemma includes_colon_nonempty (t : string) :
  negb (String.eqb t "") && Client.includes ":" t = Client.includes ":" t.
Proof. by destruct t. Qed.

(** The page the handler leaves, by the ways it can go. *)
Lemma domContentLoaded_cases accepts document :
  SERVER_URL (globals (domContentLoaded accepts document))
  = SERVER_URL (configureServer (serverAddress document) beforeLoad)
  /\ wire (globals (domContentLoaded accepts document)) = []
  /\ timers (globals (domContentLoaded accepts document)) = []
  /\ match SERVER_URL
             (configureServer (serverAddress document) beforeLoad) with
     | None | Some "" =>
         oneSampler (domContentLoaded accepts document)
         /\ socket (globals (domContentLoaded accepts document)) = None
         /\ connections (globals (domContentLoaded accepts document)) = 0%nat
     | Some url =>
         if accepts url
         then oneSampler (domContentLoaded accepts document)
              /\ socket (globals (domContentLoaded accepts document))
                 = Some CONNECTING
              /\ connections (globals (domContentLoaded accepts document))
                 = 1%nat
         else noSampler (domContentLoaded accepts document)
              /\ socket (globals (domContentLoaded accepts document)) = None
              /\ connections (globals (domContentLoaded accepts document))
                 = 0%nat
     end.
Proof.
  unfold domContentLoaded. cbv zeta.
  assert (H0 : socket (configureServer (serverAddress document) beforeLoad)
               = None
               /\ wire (configureServer (serverAddress document) beforeLoad)
                  = []
               /\ timers (configureServer (serverAddress document) beforeLoad)
                  = []
               /\ connections
                    (configureServer (serverAddress document) beforeLoad)
                  = 0%nat).
  { unfold configureServer.
    destruct (serverAddress document) as [textContent|]; [|done].
    cbv zeta. by destruct (_ && _). }
  destruct H0 as (Hs & Hw & Ht & Hc).
  remember (configureServer (serverAddress document) beforeLoad) as s1
    eqn:Es1.
  clear Es1.
  assert (Hfinish : forall s,
             oneSampler (finishLoading document s)
             /\ SERVER_URL (globals (finishLoading document s)) = SERVER_URL s
             /\ wire (globals (finishLoading document s)) = wire s
             /\ timers (globals (finishLoading document s)) = timers s
             /\ socket (globals (finishLoading document s)) = socket s
             /\ connections (globals (finishLoading document s))
                = connections s).
  { intros s. split.
    - unfold finishLoading. by apply startDataSampling_oneSampler.
    - unfold finishLoading, startDataSampling, initPreviewScene.
      cbn [globals].
      by destruct (three document), (previewCanvas document). }
  destruct (SERVER_URL s1) as [[|c url]|] eqn:Eu.
  - destruct (Hfinish s1) as (Ho & -> & -> & -> & -> & ->). by rewrite Eu.
  - destruct (accepts (String c url)).
    + destruct (Hfinish (initWebSocket s1)) as (Ho & -> & -> & -> & -> & ->).
      unfold initWebSocket. rewrite Eu, Hs. cbn. by rewrite Eu, Hw, Ht, Hc.
    + cbn [globals]. by rewrite Eu.
  - destruct (Hfinish s1) as (Ho & -> & -> & -> & -> & ->). by rewrite Eu.
Qed.

(** X16. One sampler at a time.  From the moment the [DOMContentLoaded]
    handler has ended, whatever happens (callbacks of the host, sessions
    granted, bound and ended, in any order and number), at most one
    sampling interval runs and it is the one [dataSampleInterval] names
    (none is leaked), and a frame of the animation loop and a tick of the
    interval can never both be delivered: the two samplers do not run
    side by side.  When the handler ran to its end, exactly one of the
    two can be delivered at any time, and the streaming button takes
    clicks exactly while the clock-driven sampler is the one that runs.
    When the WebSocket constructor threw on the server address, the
    handler ended before [startDataSampling]: no sampler ever runs and
    nothing is ever sent, although the button stays enabled. *)
Theorem one_sampler_at_a_time accepts document events :
  (forall p,
      pageRun events (domContentLoaded accepts document) = Some p ->
      intervals p
      = match dataSampleInterval p with Some id => [id] | None => [] end
      /\ (forall frame isPresenting,
            delivered p (Frame frame) && delivered p (Tick isPresenting)
            = false)
      /\ (loadAborted accepts document = false ->
          (forall frame isPresenting,
              delivered p (Frame frame)
              = negb (delivered p (Tick isPresenting)))
          /\ (forall isPresenting,
                delivered p Toggle = delivered p (Tick isPresenting)))
      /\ (loadAborted accepts document = true ->
          (forall frame, delivered p (Frame frame) = false)
          /\ (forall isPresenting, delivered p (Tick isPresenting) = false)
          /\ delivered p Toggle = true
          /\ wire (globals p) = []))
  /\ (noInfiniteAngle setFromQuaternion radToDeg ->
      exists p, pageRun events (domContentLoaded accepts document) = Some p).
Proof.
  split; [|intros H; by apply pageRun_returns].
  intros p H.
  destruct (domContentLoaded_cases accepts document)
    as (_ & Hw & Ht & Hcases).
  assert (Hcompleted : oneSampler (domContentLoaded accepts document) ->
            intervals p
            = match dataSampleInterval p with Some id => [id] | None => [] end
            /\ (forall frame isPresenting,
                  delivered p (Frame frame) && delivered p (Tick isPresenting)
                  = false)
            /\ (forall frame isPresenting,
                  delivered p (Frame frame)
                  = negb (delivered p (Tick isPresenting)))
            /\ (forall isPresenting,
                  delivered p Toggle = delivered p (Tick isPresenting))).
  { intros Ho.
    apply (pageRun_oneSampler _ _ _ H) in Ho as (Hi & Ha & Htd).
    cbn [delivered]. rewrite Htd, Hi, Ha.
    by destruct (dataSampleInterval p). }
  unfold loadAborted.
  destruct (SERVER_URL (configureServer (serverAddress document) beforeLoad))
    as [[|c url]|].
  - destruct Hcases as (Ho & _).
    destruct (Hcompleted Ho) as (Hi & Hboth & Hone & Htog).
    by repeat split.
  - destruct (accepts (String c url)).
    + destruct Hcases as (Ho & _).
      destruct (Hcompleted Ho) as (Hi & Hboth & Hone & Htog).
      by repeat split.
    + destruct Hcases as (Hn & Hs & _).
      destruct (pageRun_noSampler _ _ _ H Hn) as (Hr & Ha & Hi & Hd & Htd).
      destruct (pageRun_offline _ _ _ H (conj Hs Ht)) as (_ & _ & Hwire).
      cbn [delivered negb]. rewrite Hi, Hd, Ha, Htd, Hwire, Hw.
      by repeat split.
  - destruct Hcases as (Ho & _).
    destruct (Hcompleted Ho) as (Hi & Hboth & Hone & Htog).
    by repeat split.
Qed.

(** X17. The server address decides whether the page ever connects.
    [SERVER_URL] is set exactly when the trimmed text of the
    [serverAddress] element holds a colon, to [wss://] followed by that
    text; when [new WebSocket] accepts that URL, one socket is being
    opened when the handler returns.  When the element is missing, the
    text holds no colon, or the constructor throws on the URL, the page
    stays off line for good: whatever happens afterwards, it has no
    socket, opens none and sends nothing. *)
Theorem server_address_decides_connection accepts document :
  (forall textContent,
      serverAddress document = Some textContent ->
      Client.includes ":" (trim textContent) = true ->
      SERVER_URL (globals (domContentLoaded accepts document))
      = Some ("wss://" ++ trim textContent)%string
      /\ (accepts ("wss://" ++ trim textContent)%string = true ->
          socket (globals (domContentLoaded accepts document))
          = Some CONNECTING
          /\ connections (globals (domContentLoaded accepts document))
             = 1%nat))
  /\ ((forall textContent,
         serverAddress document = Some textContent ->
         Client.includes ":" (trim textContent) = false) ->
      SERVER_URL (globals (domContentLoaded accepts document)) = None)
  /\ ((forall textContent,
         serverAddress document = Some textContent ->
         Client.includes ":" (trim textContent) = false
         \/ accepts ("wss://" ++ trim textContent)%string = false) ->
      forall events p,
        pageRun events (domContentLoaded accepts document) = Some p ->
        socket (globals p) = None
        /\ connections (globals p) = 0%nat /\ wire (globals p) = []).
Proof.
  destruct (domContentLoaded_cases accepts document)
    as (Hu & Hw & Ht & Hcases).
  split; [|split].
  - intros textContent Ha Hc. rewrite Hu in *. revert Hcases.
    unfold configureServer. rewrite Ha. cbv zeta.
    rewrite includes_colon_nonempty, Hc. cbn [SERVER_URL set_SERVER_URL].
    intros Hcases. split; [done|]. intros Hacc.
    change ("wss://" ++ trim textContent)%string
      with (String "w" ("ss://" ++ trim textContent)%string) in Hacc.
    cbn [append] in Hcases. cbn [append] in Hacc.
    rewrite Hacc in Hcases. by destruct Hcases as (_ & ? & ?).
  - intros Hbad. rewrite Hu. unfold configureServer.
    destruct (serverAddress document) as [textContent|]; [|done].
    cbv zeta. by rewrite includes_colon_nonempty, (Hbad _ eq_refl).
  - intros Hbad events p H.
    assert (H0 : socket (globals (domContentLoaded accepts document)) = None
                 /\ connections (globals (domContentLoaded accepts document))
                    = 0%nat).
    { revert Hcases. unfold configureServer.
      destruct (serverAddress document) as [textContent|]; [|by intros (_ & ?)].
      cbv zeta. rewrite includes_colon_nonempty.
      destruct (Hbad _ eq_refl) as [-> | Hacc]; [by intros (_ & ?)|].
      destruct (Client.includes ":" (trim textContent));
        [|by intros (_ & ?)].
      cbn [SERVER_URL set_SERVER_URL append].
      cbn [append] in Hacc. rewrite Hacc. by intros (_ & ?). }
    destruct H0 as (Hs & Hc).
    destruct (pageRun_offline _ _ _ H (conj Hs Ht)) as ((Hs' & _) & Hc' & Hw').
    by rewrite Hc', Hw', Hc, Hw.
Qed.

Lemma transportOf_busy (s s' : State) :
  transportOf s' = transportOf s ->
  connections s' = connections s /\ socketBusy s' = socketBusy s.
Proof.
  unfold transportOf, socketBusy. intros H. injection H as _ -> _ _ ->. done.
Qed.

Lemma step_sockets e s s' :
  step s e = Some s' ->
  (connections s' + (if socketBusy s' then 0 else 1)
   <= connections s + (if socketBusy s then 0 else 1) + closes [e])%nat.
Proof.
  destruct e; cbn [Client.step]; intros H.
  - apply renderXRFrame_transport, transportOf_busy in H as [-> ->].
    cbn. lia.
  - apply dataSampleTick_transport, transportOf_busy in H as [-> ->].
    cbn. lia.
  - apply (inj Some) in H; subst s'. cbn. unfold socketBusy. cbn.
    destruct (socket s) as [[]|]; lia.
  - apply (inj Some) in H; subst s'. cbn. unfold socketBusy. cbn.
    destruct (socket s) as [[]|]; lia.
  - apply (inj Some) in H; subst s'. cbn. unfold socketBusy. cbn.
    destruct (socket s) as [[]|]; lia.
  - apply (inj Some) in H; subst s'. cbn. unfold socketBusy. cbn.
    destruct (socket s) as [[]|]; lia.
  - apply (inj Some) in H; subst s'. unfold fireTimer, closes.
    cbn [List.filter List.length].
    destruct (timers s !! i) as [[d []]|]; [|lia].
    unfold runCallback, initWebSocket, socketBusy.
    cbn [callback SERVER_URL set_timers].
    destruct (SERVER_URL s) as [[|c url]|]; cbn.
    all: destruct (socket s) as [[]|] eqn:E; cbn; rewrite ?E; cbn.
    all: try lia.
Qed.

(** X18. The page never piles up sockets.  [initWebSocket] creates a
    socket only when the current one is neither open nor connecting, so
    over any run of callbacks the number of sockets created is at most
    the number of [close] events, plus one if the run started without a
    live socket: reconnect timers that pile up open one socket, not one
    each. *)
Theorem sockets_bounded_by_closes events s s' :
  run events s = Some s' ->
  (connections s' + (if socketBusy s' then 0 else 1)
   <= connections s + (if socketBusy s then 0 else 1) + closes events)%nat.
Proof.
  revert s. induction events as [|e rest IH]; intros s; cbn [Client.run].
  { intros H. apply (inj Some) in H; subst s'. cbn. lia. }
  destruct (step s e) as [s1|] eqn:E; [|done].
  cbn [mbind option_bind]. intros H.
  apply IH in H. apply step_sockets in E.
  change (e :: rest) with ([e] ++ rest). unfold closes in *.
  rewrite List.filter_app, length_app. lia.
Qed.

End PageInvariants.

Section PageExamples.

Import Client Examples.

Lemma page_sends_well_formed_messages_witness :
  match Client.run eulerOf degrees
          [Tick false; Toggle; SocketClosed; Fire 0; SocketOpened;
           Frame (fullFrame start); Tick false]
          streaming with
  | Some s' => exists new, wire s' = wire streaming ++ new
                           /\ Forall wellFormed new
  | None => False
  end.
Proof.
  destruct (Client.run eulerOf degrees
              [Tick false; Toggle; SocketClosed; Fire 0; SocketOpened;
               Frame (fullFrame start); Tick false] streaming)
    as [s'|] eqn:E.
  - exact (proj1 (page_sends_well_formed_messages _ _ _ _) s' E).
  - by vm_compute in E.
Defined.

Lemma page_silent_while_disabled_or_closed_witness :
  match Client.run eulerOf degrees
          [SocketOpened; Tick false; Frame (fullFrame start); SocketClosed;
           Fire 0; Tick false]
          (Client.initWebSocket loaded) with
  | Some s' => wire s' = [] /\ lastOSCSendTime s' = 0
  | None => False
  end.
Proof.
  destruct (Client.run eulerOf degrees
              [SocketOpened; Tick false; Frame (fullFrame start);
               SocketClosed; Fire 0; Tick false]
              (Client.initWebSocket loaded)) as [s'|] eqn:E.
  - apply (page_silent_while_disabled_or_closed _ _ _ _ _ E). left.
    split; [reflexivity|].
    intros [H|[H|[H|[H|[H|[H|[]]]]]]]; discriminate.
  - by vm_compute in E.
Defined.

Lemma frame_pose_round_trip_witness :
  match Client.renderXRFrame eulerOf degrees (lostGripFrame start)
          immersive with
  | Some s' =>
      getCurrentHMDPose s' = Some standing
      /\ getCurrentControllerPose 0 s' = getCurrentControllerPose 0 immersive
      /\ getCurrentControllerPose 1 s' = Some (standing, false)
  | None => False
  end.
Proof.
  destruct (Client.renderXRFrame eulerOf degrees (lostGripFrame start)
              immersive) as [s'|] eqn:E.
  - destruct (frame_pose_round_trip _ _ _ _ _ E eq_refl eq_refl)
      as (Hh & Hc).
    split; [exact Hh|]. split; [exact (Hc 0%nat)|exact (Hc 1%nat)].
  - by vm_compute in E.
Defined.

Lemma clock_sampler_publishes_every_marker_witness :
  match Client.dataSampleTick eulerOf degrees false streaming with
  | Some s' =>
      exists y p r,
        normalizeAngle
          (yaw (quaternionToEulerDegrees eulerOf degrees
                  (mQuaternion idleMarker))) = Some y
        /\ normalizeAngle
             (pitch (quaternionToEulerDegrees eulerOf degrees
                       (mQuaternion idleMarker))) = Some p
        /\ normalizeAngle
             (roll (quaternionToEulerDegrees eulerOf degrees
                      (mQuaternion idleMarker))) = Some r
        /\ In (mkWire (controllerAddress 1)
                 [orZero (vx (mPosition idleMarker));
                  orZero (vy (mPosition idleMarker));
                  orZero (vz (mPosition idleMarker));
                  orZero y; orZero p; orZero r; ofZ 0])
             (sentBy streaming s')
  | None => False
  end.
Proof.
  destruct (Client.dataSampleTick eulerOf degrees false streaming)
    as [s'|] eqn:E.
  - apply (proj2 (proj2 (clock_sampler_publishes_every_marker _ _ _ _ _ E
                           eq_refl eq_refl eq_refl)) 1%nat idleMarker);
      [lia|reflexivity].
  - by vm_compute in E.
Defined.


Lemma one_sampler_at_a_time_witness :
  match Client.pageRun eulerOf degrees
          [Host (Tick false); SessionGranted; SessionBound;
           Host (Frame (fullFrame start)); SessionEnded; SessionEnded;
           Host (Tick false)]
          (domContentLoaded (fun _ => true)
             (mkDocument (Some "192.168.1.104:8443") true true)) with
  | Some p =>
      intervals p
      = match dataSampleInterval p with Some id => [id] | None => [] end
  | None => False
  end
  /\ match Client.pageRun eulerOf degrees
             [Host Toggle; Host (Tick false); SessionGranted]
             (domContentLoaded (fun _ => false)
                (mkDocument (Some ":") true true)) with
     | Some p => wire (globals p) = []
     | None => False
     end.
Proof.
  split.
  - destruct (Client.pageRun eulerOf degrees
                [Host (Tick false); SessionGranted; SessionBound;
                 Host (Frame (fullFrame start)); SessionEnded; SessionEnded;
                 Host (Tick false)]
                (domContentLoaded (fun _ => true)
                   (mkDocument (Some "192.168.1.104:8443") true true)))
      as [p|] eqn:E.
    + exact (proj1 (proj1 (one_sampler_at_a_time _ _ _ _ _) p E)).
    + by vm_compute in E.
  - destruct (Client.pageRun eulerOf degrees
                [Host Toggle; Host (Tick false); SessionGranted]
                (domContentLoaded (fun _ => false)
                   (mkDocument (Some ":") true true)))
      as [p|] eqn:E.
    + exact (proj2 (proj2 (proj2
               (proj2 (proj2 (proj2
                  (proj1 (one_sampler_at_a_time _ _ _ _ _) p E)))
                  eq_refl)))).
    + by vm_compute in E.
Defined.

Lemma server_address_decides_connection_witness :
  SERVER_URL
    (globals (domContentLoaded (fun _ => true)
                (mkDocument
                   (Some (String (ascii_of_N 194)
                            (String (ascii_of_N 160) " 192.168.1.104:8443 ")))
                   true true)))
  = Some "wss://192.168.1.104:8443"
  /\ match Client.pageRun eulerOf degrees
             [Host Toggle; Host SocketOpened; Host (Fire 0);
              Host (Tick false)]
             (domContentLoaded (fun _ => true)
                (mkDocument (Some "localhost") true true)) with
     | Some p => wire (globals p) = []
     | None => False
     end.
Proof.
  split.
  - apply (proj1 (server_address_decides_connection eulerOf degrees
                    (fun _ => true)
                    (mkDocument
                       (Some (String (ascii_of_N 194)
                                (String (ascii_of_N 160)
                                   " 192.168.1.104:8443 ")))
                       true true))
             (String (ascii_of_N 194)
                (String (ascii_of_N 160) " 192.168.1.104:8443 ")));
      reflexivity.
  - destruct (Client.pageRun eulerOf degrees
                [Host Toggle; Host SocketOpened; Host (Fire 0);
                 Host (Tick false)]
                (domContentLoaded (fun _ => true)
                   (mkDocument (Some "localhost") true true)))
      as [p|] eqn:E.
    + refine (proj2 (proj2
                (proj2 (proj2 (server_address_decides_connection
                                 eulerOf degrees (fun _ => true)
                                 (mkDocument (Some "localhost") true true)))
                   _ _ p E))).
      intros textContent H. apply (inj Some) in H. subst textContent.
      left. reflexivity.
    + by vm_compute in E.
Defined.

Lemma sockets_bounded_by_closes_witness :
  match Client.run eulerOf degrees
          [SocketClosed; SocketFailed; SocketClosed; Fire 0; Fire 0;
           SocketOpened; Fire 0]
          (Client.initWebSocket loaded) with
  | Some s' => (connections s' <= 3)%nat
  | None => False
  end.
Proof.
  destruct (Client.run eulerOf degrees
              [SocketClosed; SocketFailed; SocketClosed; Fire 0; Fire 0;
               SocketOpened; Fire 0]
              (Client.initWebSocket loaded)) as [s'|] eqn:E.
  - pose proof (sockets_bounded_by_closes _ _ _ _ _ E) as H.
    change (connections (Client.initWebSocket loaded)) with 1%nat in H.
    change (socketBusy (Client.initWebSocket loaded)) with true in H.
    change (closes _) with 2%nat in H.
    destruct (socketBusy s'); lia.
  - by vm_compute in E.
Defined.

End PageExamples.

(** * The page and the relay together *)

Section EndToEnd.

Import Server Examples.

Lemma relay_filter (l : list JSNumber) :
  List.filter validArg (map Link.numberJSON l)
  = map JNum (List.filter isFinite l).
Proof.
  induction l as [|n l IH]; [done|]. cbn [map List.filter].
  rewrite IH. by destruct n.
Qed.

(** The page sends numbers and [null]s only: [parseFloat] throws on none
    of them. *)
Lemma relay_no_throw (l : list JSNumber) :
  existsb parseFloatThrows (map Link.numberJSON l) = false.
Proof.
  induction l as [|n l IH]; [done|]. cbn [map existsb].
  rewrite IH. by destruct n.
Qed.

Lemma relay_floats (l : list JSNumber) :
  map floatArg (map JNum (List.filter isFinite l))
  = map (mkArg "f") (List.filter isFinite l).
Proof.
  induction l as [|n l IH]; [done|]. cbn [List.filter].
  destruct n; cbn [isFinite]; try done. cbn [map]. by rewrite IH.
Qed.

(** X15. A message of the page through the relay.  The relay forwards
    every page message with a non-empty address, keeping exactly the
    finite arguments, in order; on a ready channel whose send does not
    throw it emits one datagram to the device's port with those
    arguments as floats.  A well-formed message with finite coordinates
    arrives whole, 6 floats for the HMD address and 7 for a controller
    address; an infinite coordinate is left out, so the datagram is
    shorter.  The three addresses the page uses select the three
    devices. *)
Theorem relay_delivers_page_messages env (m : Client.WireMessage) s :
  Client.address m <> "" ->
  fst (Link.relay env m s)
  = Forwarded (Client.address m)
      (map JNum (List.filter isFinite (Client.args m)))
      (fst (sendOSC env (Client.address m)
              (map JNum (List.filter isFinite (Client.args m))) s))
  /\ (forall port,
        oscUDPPorts s (getDeviceTypeFromAddress (Client.address m))
        = Some port ->
        oscConnected s (getDeviceTypeFromAddress (Client.address m)) = true ->
        sendThrows env = None ->
        emitted s (snd (Link.relay env m s))
        = [mkDatagram port
             (mkMessage (Client.address m)
                (map (mkArg "f")
                   (List.filter isFinite (Client.args m))))])
  /\ (Client.wellFormed m ->
      Forall (fun n => isFinite n = true) (take 3 (Client.args m)) ->
      List.filter isFinite (Client.args m) = Client.args m
      /\ List.length (Client.args m)
         = if String.prefix "/controller" (Client.address m)
           then 7%nat else 6%nat)
  /\ getDeviceTypeFromAddress "/hmd/pose" = HMD
  /\ getDeviceTypeFromAddress (Client.controllerAddress 0) = CONTROLLER0
  /\ getDeviceTypeFromAddress (Client.controllerAddress 1) = CONTROLLER1.
Proof.
  intros Hne. unfold Link.relay.
  rewrite (handleOSCMessage_forwards env (Link.payloadJSON m)
             (Client.address m) (map Link.numberJSON (Client.args m)) s);
    [|done|done|done|apply relay_no_throw].
  rewrite relay_filter. cbn [fst snd].
  split; [done|]. split; [|split; [|by vm_compute]].
  - intros port Hp Hc Ht.
    rewrite (sendOSC_ready_sent _ _ _ _ port Hp Hc Ht). cbn [snd].
    unfold emitted, updateMessageStats, set_messageStats,
      set_oscMessageCount, set_udpOut. cbn [udpOut].
    by rewrite drop_app_length, relay_floats.
  - intros (x & y & z & yaw & pitch & roll & button & Ha & _ & _ & _
            & (qy & -> & _) & (qp & -> & _) & (qr & -> & _) & Hb) Hfin.
    rewrite Ha in *. cbn [take app] in Hfin.
    apply Forall_cons in Hfin as [Hx Hfin].
    apply Forall_cons in Hfin as [Hy Hfin].
    apply Forall_cons in Hfin as [Hz _].
    cbn [app List.filter isFinite]. rewrite Hx, Hy, Hz.
    destruct (String.prefix "/controller" (Client.address m)).
    + by destruct Hb as [->| ->].
    + by subst button.
Qed.

Lemma relay_delivers_page_messages_witness :
  emitted ready
    (snd (Link.relay quiet
            (Client.mkWire "/controller1/pose"
               [ofZ 1; PInf; ofZ 3; ofZ 0; ofZ 90; ofZ (-180); ofZ 1])
            ready))
  = [mkDatagram (destination CONTROLLER1)
       (mkMessage "/controller1/pose"
          (map (mkArg "f")
             [ofZ 1; ofZ 3; ofZ 0; ofZ 90; ofZ (-180); ofZ 1]))].
Proof.
  apply (proj1 (proj2 (relay_delivers_page_messages quiet
                         (Client.mkWire "/controller1/pose"
                            [ofZ 1; PInf; ofZ 3; ofZ 0; ofZ 90; ofZ (-180);
                             ofZ 1]) ready ltac:(discriminate))));
    reflexivity.
Defined.

End EndToEnd.
